(** * AgentWithMemory: a shallow embedding of the agent and of its search tool

    The development follows the Python sources

    - [backend/langgraph_agent.py]: the system prompt, the conversation
      store ([MemoryStore]), the client of the model server
      ([OllamaClient]), the two tools, the tool table and the LangGraph turn
      loop of [Agent];
    - [backend/tools/search.py]: intent detection, the age computation, the
      Google recall, passage scoring and [smart_search].

    Conventions.  A Python [str] is a [string] that holds the bytes of its
    UTF-8 encoding.  The module [Unicode] cuts a text into its characters
    and has [len], [strip], [split], [lower], the class [\w] and the
    decimal digits as Python has them on [str]: the pages of the web, the
    queries that are ranked against them and the numbers that [int] reads
    go through it.  The module [Text] works on the bytes: searching,
    cutting and joining are the same on the bytes and on the characters of
    well-formed texts, and its case folding, white space and word class
    are those of the ASCII range, for the keywords and the markers that
    the program looks for.  A call that may raise
    returns a [result]; code that also mutates the agent runs in the monad
    [M].  What the program obtains from outside (the language model, the
    HTTP services, the clock, the tool framework) is read from records of
    oracles. *)

From Stdlib Require Import ZArith List String Ascii Bool Lia Floats.
From Stdlib Require Import Permutation Sorted.
From stdpp Require Import base option list gmap strings.

Import ListNotations.
Set Warnings "-register-all".
Local Open Scope string_scope.
Local Open Scope Z_scope.
Local Open Scope list_scope.

(** ** Exceptions and results *)

Inductive exn : Type :=
| TypeError
| ValueError
| IndexError
| KeyError
| JSONDecodeError
| ValidationError
| GraphRecursionError
| RuntimeError (msg : string)
| OtherError (cls msg : string).

Inductive result (A : Type) : Type :=
| Ok (a : A)
| Raise (e : exn).

Arguments Ok {A} a.
Arguments Raise {A} e.

Definition is_ok {A} (r : result A) : bool :=
  match r with Ok _ => true | Raise _ => false end.

(** ** Python text operations: the characters of a text

    A [str] is held as the bytes of its UTF-8 encoding.  The operations of
    this module cut the bytes into characters and follow the character
    database of the interpreter (Unicode 14.0, the database of CPython
    3.11) for white space, for the class [\w] and for [lower]. *)

Module Unicode.

Local Open Scope N_scope.

Definition byte (c : ascii) : N := N.of_nat (nat_of_ascii c).

Definition is_continuation (c : ascii) : bool := ((128 <=? byte c) && (byte c <=? 191))%bool.

Definition nonempty (s : string) : bool :=
  match s with EmptyString => false | _ => true end.

(** The continuation bytes at the head of [s] and the characters that
    follow them: a character is a byte that is no continuation byte with the
    continuation bytes after it. *)
Fixpoint chars_from (s : string) : string * list string :=
  match s with
  | EmptyString => (EmptyString, [])
  | String c s' =>
      let (tail, rest) := chars_from s' in
      if is_continuation c then (String c tail, rest)
      else (EmptyString, String c tail :: rest)
  end.

(** The characters of [s], each with its bytes. *)
Definition chars (s : string) : list string :=
  let (tail, rest) := chars_from s in
  if nonempty tail then tail :: rest else rest.

Definition join_chars (l : list string) : string :=
  List.fold_right String.append EmptyString l.

(** [len(s)] *)
Definition len (s : string) : nat := List.length (chars s).

Fixpoint continued (acc : N) (tail : string) : N :=
  match tail with
  | EmptyString => acc
  | String c t => continued (acc * 64 + byte c mod 64) t
  end.

(** [ord(ch)] *)
Definition ord (ch : string) : N :=
  match ch with
  | EmptyString => 0
  | String c tail =>
      let n := byte c in
      continued (if n <? 128 then n
                 else if n <? 224 then n mod 32
                 else if n <? 240 then n mod 16
                 else n mod 8) tail
  end.

Definition of_bytes (l : list N) : string :=
  List.fold_right (fun n s => String (ascii_of_N n) s) EmptyString l.

(** [chr(c)] *)
Definition chr (c : N) : string :=
  if c <? 128 then of_bytes [c]
  else if c <? 2048 then of_bytes [192 + c / 64; 128 + c mod 64]
  else if c <? 65536 then of_bytes [224 + c / 4096; 128 + (c / 64) mod 64; 128 + c mod 64]
  else of_bytes [240 + c / 262144; 128 + (c / 4096) mod 64; 128 + (c / 64) mod 64;
                 128 + c mod 64].

Definition in_table (table : list (N * N)) (c : N) : bool :=
  List.existsb (fun r => (r.1 <=? c) && (c <=? r.2))%bool table.

(** The characters of [str.isspace]; [strip], [split] and the class [\s]
    use them. *)
Definition space_table : list (N * N) :=
  [(9, 13); (28, 32); (133, 133); (160, 160); (5760, 5760); (8192, 8202); (8232, 8233);
   (8239, 8239); (8287, 8287); (12288, 12288)].

(** The characters of the class [\w] of a pattern on [str]: the
    alphanumeric characters and the underscore. *)
Definition word_table : list (N * N) :=
  [(48, 57); (65, 90); (95, 95); (97, 122); (170, 170); (178, 179); (181, 181); (185, 186);
   (188, 190); (192, 214); (216, 246); (248, 705); (710, 721); (736, 740); (748, 748);
   (750, 750); (880, 884); (886, 887); (890, 893); (895, 895); (902, 902); (904, 906);
   (908, 908); (910, 929); (931, 1013); (1015, 1153); (1162, 1327); (1329, 1366); (1369, 1369);
   (1376, 1416); (1488, 1514); (1519, 1522); (1568, 1610); (1632, 1641); (1646, 1647);
   (1649, 1747); (1749, 1749); (1765, 1766); (1774, 1788); (1791, 1791); (1808, 1808);
   (1810, 1839); (1869, 1957); (1969, 1969); (1984, 2026); (2036, 2037); (2042, 2042);
   (2048, 2069); (2074, 2074); (2084, 2084); (2088, 2088); (2112, 2136); (2144, 2154);
   (2160, 2183); (2185, 2190); (2208, 2249); (2308, 2361); (2365, 2365); (2384, 2384);
   (2392, 2401); (2406, 2415); (2417, 2432); (2437, 2444); (2447, 2448); (2451, 2472);
   (2474, 2480); (2482, 2482); (2486, 2489); (2493, 2493); (2510, 2510); (2524, 2525);
   (2527, 2529); (2534, 2545); (2548, 2553); (2556, 2556); (2565, 2570); (2575, 2576);
   (2579, 2600); (2602, 2608); (2610, 2611); (2613, 2614); (2616, 2617); (2649, 2652);
   (2654, 2654); (2662, 2671); (2674, 2676); (2693, 2701); (2703, 2705); (2707, 2728);
   (2730, 2736); (2738, 2739); (2741, 2745); (2749, 2749); (2768, 2768); (2784, 2785);
   (2790, 2799); (2809, 2809); (2821, 2828); (2831, 2832); (2835, 2856); (2858, 2864);
   (2866, 2867); (2869, 2873); (2877, 2877); (2908, 2909); (2911, 2913); (2918, 2927);
   (2929, 2935); (2947, 2947); (2949, 2954); (2958, 2960); (2962, 2965); (2969, 2970);
   (2972, 2972); (2974, 2975); (2979, 2980); (2984, 2986); (2990, 3001); (3024, 3024);
   (3046, 3058); (3077, 3084); (3086, 3088); (3090, 3112); (3114, 3129); (3133, 3133);
   (3160, 3162); (3165, 3165); (3168, 3169); (3174, 3183); (3192, 3198); (3200, 3200);
   (3205, 3212); (3214, 3216); (3218, 3240); (3242, 3251); (3253, 3257); (3261, 3261);
   (3293, 3294); (3296, 3297); (3302, 3311); (3313, 3314); (3332, 3340); (3342, 3344);
   (3346, 3386); (3389, 3389); (3406, 3406); (3412, 3414); (3416, 3425); (3430, 3448);
   (3450, 3455); (3461, 3478); (3482, 3505); (3507, 3515); (3517, 3517); (3520, 3526);
   (3558, 3567); (3585, 3632); (3634, 3635); (3648, 3654); (3664, 3673); (3713, 3714);
   (3716, 3716); (3718, 3722); (3724, 3747); (3749, 3749); (3751, 3760); (3762, 3763);
   (3773, 3773); (3776, 3780); (3782, 3782); (3792, 3801); (3804, 3807); (3840, 3840);
   (3872, 3891); (3904, 3911); (3913, 3948); (3976, 3980); (4096, 4138); (4159, 4169);
   (4176, 4181); (4186, 4189); (4193, 4193); (4197, 4198); (4206, 4208); (4213, 4225);
   (4238, 4238); (4240, 4249); (4256, 4293); (4295, 4295); (4301, 4301); (4304, 4346);
   (4348, 4680); (4682, 4685); (4688, 4694); (4696, 4696); (4698, 4701); (4704, 4744);
   (4746, 4749); (4752, 4784); (4786, 4789); (4792, 4798); (4800, 4800); (4802, 4805);
   (4808, 4822); (4824, 4880); (4882, 4885); (4888, 4954); (4969, 4988); (4992, 5007);
   (5024, 5109); (5112, 5117); (5121, 5740); (5743, 5759); (5761, 5786); (5792, 5866);
   (5870, 5880); (5888, 5905); (5919, 5937); (5952, 5969); (5984, 5996); (5998, 6000);
   (6016, 6067); (6103, 6103); (6108, 6108); (6112, 6121); (6128, 6137); (6160, 6169);
   (6176, 6264); (6272, 6276); (6279, 6312); (6314, 6314); (6320, 6389); (6400, 6430);
   (6470, 6509); (6512, 6516); (6528, 6571); (6576, 6601); (6608, 6618); (6656, 6678);
   (6688, 6740); (6784, 6793); (6800, 6809); (6823, 6823); (6917, 6963); (6981, 6988);
   (6992, 7001); (7043, 7072); (7086, 7141); (7168, 7203); (7232, 7241); (7245, 7293);
   (7296, 7304); (7312, 7354); (7357, 7359); (7401, 7404); (7406, 7411); (7413, 7414);
   (7418, 7418); (7424, 7615); (7680, 7957); (7960, 7965); (7968, 8005); (8008, 8013);
   (8016, 8023); (8025, 8025); (8027, 8027); (8029, 8029); (8031, 8061); (8064, 8116);
   (8118, 8124); (8126, 8126); (8130, 8132); (8134, 8140); (8144, 8147); (8150, 8155);
   (8160, 8172); (8178, 8180); (8182, 8188); (8304, 8305); (8308, 8313); (8319, 8329);
   (8336, 8348); (8450, 8450); (8455, 8455); (8458, 8467); (8469, 8469); (8473, 8477);
   (8484, 8484); (8486, 8486); (8488, 8488); (8490, 8493); (8495, 8505); (8508, 8511);
   (8517, 8521); (8526, 8526); (8528, 8585); (9312, 9371); (9450, 9471); (10102, 10131);
   (11264, 11492); (11499, 11502); (11506, 11507); (11517, 11517); (11520, 11557);
   (11559, 11559); (11565, 11565); (11568, 11623); (11631, 11631); (11648, 11670);
   (11680, 11686); (11688, 11694); (11696, 11702); (11704, 11710); (11712, 11718);
   (11720, 11726); (11728, 11734); (11736, 11742); (11823, 11823); (12293, 12295);
   (12321, 12329); (12337, 12341); (12344, 12348); (12353, 12438); (12445, 12447);
   (12449, 12538); (12540, 12543); (12549, 12591); (12593, 12686); (12690, 12693);
   (12704, 12735); (12784, 12799); (12832, 12841); (12872, 12879); (12881, 12895);
   (12928, 12937); (12977, 12991); (13312, 19903); (19968, 42124); (42192, 42237);
   (42240, 42508); (42512, 42539); (42560, 42606); (42623, 42653); (42656, 42735);
   (42775, 42783); (42786, 42888); (42891, 42954); (42960, 42961); (42963, 42963);
   (42965, 42969); (42994, 43009); (43011, 43013); (43015, 43018); (43020, 43042);
   (43056, 43061); (43072, 43123); (43138, 43187); (43216, 43225); (43250, 43255);
   (43259, 43259); (43261, 43262); (43264, 43301); (43312, 43334); (43360, 43388);
   (43396, 43442); (43471, 43481); (43488, 43492); (43494, 43518); (43520, 43560);
   (43584, 43586); (43588, 43595); (43600, 43609); (43616, 43638); (43642, 43642);
   (43646, 43695); (43697, 43697); (43701, 43702); (43705, 43709); (43712, 43712);
   (43714, 43714); (43739, 43741); (43744, 43754); (43762, 43764); (43777, 43782);
   (43785, 43790); (43793, 43798); (43808, 43814); (43816, 43822); (43824, 43866);
   (43868, 43881); (43888, 44002); (44016, 44025); (44032, 55203); (55216, 55238);
   (55243, 55291); (63744, 64109); (64112, 64217); (64256, 64262); (64275, 64279);
   (64285, 64285); (64287, 64296); (64298, 64310); (64312, 64316); (64318, 64318);
   (64320, 64321); (64323, 64324); (64326, 64433); (64467, 64829); (64848, 64911);
   (64914, 64967); (65008, 65019); (65136, 65140); (65142, 65276); (65296, 65305);
   (65313, 65338); (65345, 65370); (65382, 65470); (65474, 65479); (65482, 65487);
   (65490, 65495); (65498, 65500); (65536, 65547); (65549, 65574); (65576, 65594);
   (65596, 65597); (65599, 65613); (65616, 65629); (65664, 65786); (65799, 65843);
   (65856, 65912); (65930, 65931); (66176, 66204); (66208, 66256); (66273, 66299);
   (66304, 66339); (66349, 66378); (66384, 66421); (66432, 66461); (66464, 66499);
   (66504, 66511); (66513, 66517); (66560, 66717); (66720, 66729); (66736, 66771);
   (66776, 66811); (66816, 66855); (66864, 66915); (66928, 66938); (66940, 66954);
   (66956, 66962); (66964, 66965); (66967, 66977); (66979, 66993); (66995, 67001);
   (67003, 67004); (67072, 67382); (67392, 67413); (67424, 67431); (67456, 67461);
   (67463, 67504); (67506, 67514); (67584, 67589); (67592, 67592); (67594, 67637);
   (67639, 67640); (67644, 67644); (67647, 67669); (67672, 67702); (67705, 67742);
   (67751, 67759); (67808, 67826); (67828, 67829); (67835, 67867); (67872, 67897);
   (67968, 68023); (68028, 68047); (68050, 68096); (68112, 68115); (68117, 68119);
   (68121, 68149); (68160, 68168); (68192, 68222); (68224, 68255); (68288, 68295);
   (68297, 68324); (68331, 68335); (68352, 68405); (68416, 68437); (68440, 68466);
   (68472, 68497); (68521, 68527); (68608, 68680); (68736, 68786); (68800, 68850);
   (68858, 68899); (68912, 68921); (69216, 69246); (69248, 69289); (69296, 69297);
   (69376, 69415); (69424, 69445); (69457, 69460); (69488, 69505); (69552, 69579);
   (69600, 69622); (69635, 69687); (69714, 69743); (69745, 69746); (69749, 69749);
   (69763, 69807); (69840, 69864); (69872, 69881); (69891, 69926); (69942, 69951);
   (69956, 69956); (69959, 69959); (69968, 70002); (70006, 70006); (70019, 70066);
   (70081, 70084); (70096, 70106); (70108, 70108); (70113, 70132); (70144, 70161);
   (70163, 70187); (70272, 70278); (70280, 70280); (70282, 70285); (70287, 70301);
   (70303, 70312); (70320, 70366); (70384, 70393); (70405, 70412); (70415, 70416);
   (70419, 70440); (70442, 70448); (70450, 70451); (70453, 70457); (70461, 70461);
   (70480, 70480); (70493, 70497); (70656, 70708); (70727, 70730); (70736, 70745);
   (70751, 70753); (70784, 70831); (70852, 70853); (70855, 70855); (70864, 70873);
   (71040, 71086); (71128, 71131); (71168, 71215); (71236, 71236); (71248, 71257);
   (71296, 71338); (71352, 71352); (71360, 71369); (71424, 71450); (71472, 71483);
   (71488, 71494); (71680, 71723); (71840, 71922); (71935, 71942); (71945, 71945);
   (71948, 71955); (71957, 71958); (71960, 71983); (71999, 71999); (72001, 72001);
   (72016, 72025); (72096, 72103); (72106, 72144); (72161, 72161); (72163, 72163);
   (72192, 72192); (72203, 72242); (72250, 72250); (72272, 72272); (72284, 72329);
   (72349, 72349); (72368, 72440); (72704, 72712); (72714, 72750); (72768, 72768);
   (72784, 72812); (72818, 72847); (72960, 72966); (72968, 72969); (72971, 73008);
   (73030, 73030); (73040, 73049); (73056, 73061); (73063, 73064); (73066, 73097);
   (73112, 73112); (73120, 73129); (73440, 73458); (73648, 73648); (73664, 73684);
   (73728, 74649); (74752, 74862); (74880, 75075); (77712, 77808); (77824, 78894);
   (82944, 83526); (92160, 92728); (92736, 92766); (92768, 92777); (92784, 92862);
   (92864, 92873); (92880, 92909); (92928, 92975); (92992, 92995); (93008, 93017);
   (93019, 93025); (93027, 93047); (93053, 93071); (93760, 93846); (93952, 94026);
   (94032, 94032); (94099, 94111); (94176, 94177); (94179, 94179); (94208, 100343);
   (100352, 101589); (101632, 101640); (110576, 110579); (110581, 110587); (110589, 110590);
   (110592, 110882); (110928, 110930); (110948, 110951); (110960, 111355); (113664, 113770);
   (113776, 113788); (113792, 113800); (113808, 113817); (119520, 119539); (119648, 119672);
   (119808, 119892); (119894, 119964); (119966, 119967); (119970, 119970); (119973, 119974);
   (119977, 119980); (119982, 119993); (119995, 119995); (119997, 120003); (120005, 120069);
   (120071, 120074); (120077, 120084); (120086, 120092); (120094, 120121); (120123, 120126);
   (120128, 120132); (120134, 120134); (120138, 120144); (120146, 120485); (120488, 120512);
   (120514, 120538); (120540, 120570); (120572, 120596); (120598, 120628); (120630, 120654);
   (120656, 120686); (120688, 120712); (120714, 120744); (120746, 120770); (120772, 120779);
   (120782, 120831); (122624, 122654); (123136, 123180); (123191, 123197); (123200, 123209);
   (123214, 123214); (123536, 123565); (123584, 123627); (123632, 123641); (124896, 124902);
   (124904, 124907); (124909, 124910); (124912, 124926); (124928, 125124); (125127, 125135);
   (125184, 125251); (125259, 125259); (125264, 125273); (126065, 126123); (126125, 126127);
   (126129, 126132); (126209, 126253); (126255, 126269); (126464, 126467); (126469, 126495);
   (126497, 126498); (126500, 126500); (126503, 126503); (126505, 126514); (126516, 126519);
   (126521, 126521); (126523, 126523); (126530, 126530); (126535, 126535); (126537, 126537);
   (126539, 126539); (126541, 126543); (126545, 126546); (126548, 126548); (126551, 126551);
   (126553, 126553); (126555, 126555); (126557, 126557); (126559, 126559); (126561, 126562);
   (126564, 126564); (126567, 126570); (126572, 126578); (126580, 126583); (126585, 126588);
   (126590, 126590); (126592, 126601); (126603, 126619); (126625, 126627); (126629, 126633);
   (126635, 126651); (127232, 127244); (130032, 130041); (131072, 173791); (173824, 177976);
   (177984, 178205); (178208, 183969); (183984, 191456); (194560, 195101); (196608, 201546)].

(** The characters that the rule of the final sigma passes over. *)
Definition case_ignorable_table : list (N * N) :=
  [(39, 39); (46, 46); (58, 58); (94, 94); (96, 96); (168, 168); (173, 173); (175, 175);
   (180, 180); (183, 184); (688, 879); (884, 885); (890, 890); (900, 901); (903, 903);
   (1155, 1161); (1369, 1369); (1375, 1375); (1425, 1469); (1471, 1471); (1473, 1474);
   (1476, 1477); (1479, 1479); (1524, 1524); (1536, 1541); (1552, 1562); (1564, 1564);
   (1600, 1600); (1611, 1631); (1648, 1648); (1750, 1757); (1759, 1768); (1770, 1773);
   (1807, 1807); (1809, 1809); (1840, 1866); (1958, 1968); (2027, 2037); (2042, 2042);
   (2045, 2045); (2070, 2093); (2137, 2139); (2184, 2184); (2192, 2193); (2200, 2207);
   (2249, 2306); (2362, 2362); (2364, 2364); (2369, 2376); (2381, 2381); (2385, 2391);
   (2402, 2403); (2417, 2417); (2433, 2433); (2492, 2492); (2497, 2500); (2509, 2509);
   (2530, 2531); (2558, 2558); (2561, 2562); (2620, 2620); (2625, 2626); (2631, 2632);
   (2635, 2637); (2641, 2641); (2672, 2673); (2677, 2677); (2689, 2690); (2748, 2748);
   (2753, 2757); (2759, 2760); (2765, 2765); (2786, 2787); (2810, 2815); (2817, 2817);
   (2876, 2876); (2879, 2879); (2881, 2884); (2893, 2893); (2901, 2902); (2914, 2915);
   (2946, 2946); (3008, 3008); (3021, 3021); (3072, 3072); (3076, 3076); (3132, 3132);
   (3134, 3136); (3142, 3144); (3146, 3149); (3157, 3158); (3170, 3171); (3201, 3201);
   (3260, 3260); (3263, 3263); (3270, 3270); (3276, 3277); (3298, 3299); (3328, 3329);
   (3387, 3388); (3393, 3396); (3405, 3405); (3426, 3427); (3457, 3457); (3530, 3530);
   (3538, 3540); (3542, 3542); (3633, 3633); (3636, 3642); (3654, 3662); (3761, 3761);
   (3764, 3772); (3782, 3782); (3784, 3789); (3864, 3865); (3893, 3893); (3895, 3895);
   (3897, 3897); (3953, 3966); (3968, 3972); (3974, 3975); (3981, 3991); (3993, 4028);
   (4038, 4038); (4141, 4144); (4146, 4151); (4153, 4154); (4157, 4158); (4184, 4185);
   (4190, 4192); (4209, 4212); (4226, 4226); (4229, 4230); (4237, 4237); (4253, 4253);
   (4348, 4348); (4957, 4959); (5906, 5908); (5938, 5939); (5970, 5971); (6002, 6003);
   (6068, 6069); (6071, 6077); (6086, 6086); (6089, 6099); (6103, 6103); (6109, 6109);
   (6155, 6159); (6211, 6211); (6277, 6278); (6313, 6313); (6432, 6434); (6439, 6440);
   (6450, 6450); (6457, 6459); (6679, 6680); (6683, 6683); (6742, 6742); (6744, 6750);
   (6752, 6752); (6754, 6754); (6757, 6764); (6771, 6780); (6783, 6783); (6823, 6823);
   (6832, 6862); (6912, 6915); (6964, 6964); (6966, 6970); (6972, 6972); (6978, 6978);
   (7019, 7027); (7040, 7041); (7074, 7077); (7080, 7081); (7083, 7085); (7142, 7142);
   (7144, 7145); (7149, 7149); (7151, 7153); (7212, 7219); (7222, 7223); (7288, 7293);
   (7376, 7378); (7380, 7392); (7394, 7400); (7405, 7405); (7412, 7412); (7416, 7417);
   (7468, 7530); (7544, 7544); (7579, 7679); (8125, 8125); (8127, 8129); (8141, 8143);
   (8157, 8159); (8173, 8175); (8189, 8190); (8203, 8207); (8216, 8217); (8228, 8228);
   (8231, 8231); (8234, 8238); (8288, 8292); (8294, 8303); (8305, 8305); (8319, 8319);
   (8336, 8348); (8400, 8432); (11388, 11389); (11503, 11505); (11631, 11631); (11647, 11647);
   (11744, 11775); (11823, 11823); (12293, 12293); (12330, 12333); (12337, 12341);
   (12347, 12347); (12441, 12446); (12540, 12542); (40981, 40981); (42232, 42237);
   (42508, 42508); (42607, 42610); (42612, 42621); (42623, 42623); (42652, 42655);
   (42736, 42737); (42752, 42785); (42864, 42864); (42888, 42890); (42994, 42996);
   (43000, 43001); (43010, 43010); (43014, 43014); (43019, 43019); (43045, 43046);
   (43052, 43052); (43204, 43205); (43232, 43249); (43263, 43263); (43302, 43309);
   (43335, 43345); (43392, 43394); (43443, 43443); (43446, 43449); (43452, 43453);
   (43471, 43471); (43493, 43494); (43561, 43566); (43569, 43570); (43573, 43574);
   (43587, 43587); (43596, 43596); (43632, 43632); (43644, 43644); (43696, 43696);
   (43698, 43700); (43703, 43704); (43710, 43711); (43713, 43713); (43741, 43741);
   (43756, 43757); (43763, 43764); (43766, 43766); (43867, 43871); (43881, 43883);
   (44005, 44005); (44008, 44008); (44013, 44013); (64286, 64286); (64434, 64450);
   (65024, 65039); (65043, 65043); (65056, 65071); (65106, 65106); (65109, 65109);
   (65279, 65279); (65287, 65287); (65294, 65294); (65306, 65306); (65342, 65342);
   (65344, 65344); (65392, 65392); (65438, 65439); (65507, 65507); (65529, 65531);
   (66045, 66045); (66272, 66272); (66422, 66426); (67456, 67461); (67463, 67504);
   (67506, 67514); (68097, 68099); (68101, 68102); (68108, 68111); (68152, 68154);
   (68159, 68159); (68325, 68326); (68900, 68903); (69291, 69292); (69446, 69456);
   (69506, 69509); (69633, 69633); (69688, 69702); (69744, 69744); (69747, 69748);
   (69759, 69761); (69811, 69814); (69817, 69818); (69821, 69821); (69826, 69826);
   (69837, 69837); (69888, 69890); (69927, 69931); (69933, 69940); (70003, 70003);
   (70016, 70017); (70070, 70078); (70089, 70092); (70095, 70095); (70191, 70193);
   (70196, 70196); (70198, 70199); (70206, 70206); (70367, 70367); (70371, 70378);
   (70400, 70401); (70459, 70460); (70464, 70464); (70502, 70508); (70512, 70516);
   (70712, 70719); (70722, 70724); (70726, 70726); (70750, 70750); (70835, 70840);
   (70842, 70842); (70847, 70848); (70850, 70851); (71090, 71093); (71100, 71101);
   (71103, 71104); (71132, 71133); (71219, 71226); (71229, 71229); (71231, 71232);
   (71339, 71339); (71341, 71341); (71344, 71349); (71351, 71351); (71453, 71455);
   (71458, 71461); (71463, 71467); (71727, 71735); (71737, 71738); (71995, 71996);
   (71998, 71998); (72003, 72003); (72148, 72151); (72154, 72155); (72160, 72160);
   (72193, 72202); (72243, 72248); (72251, 72254); (72263, 72263); (72273, 72278);
   (72281, 72283); (72330, 72342); (72344, 72345); (72752, 72758); (72760, 72765);
   (72767, 72767); (72850, 72871); (72874, 72880); (72882, 72883); (72885, 72886);
   (73009, 73014); (73018, 73018); (73020, 73021); (73023, 73029); (73031, 73031);
   (73104, 73105); (73109, 73109); (73111, 73111); (73459, 73460); (78896, 78904);
   (92912, 92916); (92976, 92982); (92992, 92995); (94031, 94031); (94095, 94111);
   (94176, 94177); (94179, 94180); (110576, 110579); (110581, 110587); (110589, 110590);
   (113821, 113822); (113824, 113827); (118528, 118573); (118576, 118598); (119143, 119145);
   (119155, 119170); (119173, 119179); (119210, 119213); (119362, 119364); (121344, 121398);
   (121403, 121452); (121461, 121461); (121476, 121476); (121499, 121503); (121505, 121519);
   (122880, 122886); (122888, 122904); (122907, 122913); (122915, 122916); (122918, 122922);
   (123184, 123197); (123566, 123566); (123628, 123631); (125136, 125142); (125252, 125259);
   (127995, 127999); (917505, 917505); (917536, 917631); (917760, 917999)].

(** The cased characters among those that the rule does not pass over. *)
Definition cased_table : list (N * N) :=
  [(65, 90); (97, 122); (170, 170); (181, 181); (186, 186); (192, 214); (216, 246); (248, 442);
   (444, 447); (452, 659); (661, 687); (880, 883); (886, 887); (891, 893); (895, 895);
   (902, 902); (904, 906); (908, 908); (910, 929); (931, 1013); (1015, 1153); (1162, 1327);
   (1329, 1366); (1376, 1416); (4256, 4293); (4295, 4295); (4301, 4301); (4304, 4346);
   (4349, 4351); (5024, 5109); (5112, 5117); (7296, 7304); (7312, 7354); (7357, 7359);
   (7424, 7467); (7531, 7543); (7545, 7578); (7680, 7957); (7960, 7965); (7968, 8005);
   (8008, 8013); (8016, 8023); (8025, 8025); (8027, 8027); (8029, 8029); (8031, 8061);
   (8064, 8116); (8118, 8124); (8126, 8126); (8130, 8132); (8134, 8140); (8144, 8147);
   (8150, 8155); (8160, 8172); (8178, 8180); (8182, 8188); (8450, 8450); (8455, 8455);
   (8458, 8467); (8469, 8469); (8473, 8477); (8484, 8484); (8486, 8486); (8488, 8488);
   (8490, 8493); (8495, 8500); (8505, 8505); (8508, 8511); (8517, 8521); (8526, 8526);
   (8544, 8575); (8579, 8580); (9398, 9449); (11264, 11387); (11390, 11492); (11499, 11502);
   (11506, 11507); (11520, 11557); (11559, 11559); (11565, 11565); (42560, 42605);
   (42624, 42651); (42786, 42863); (42865, 42887); (42891, 42894); (42896, 42954);
   (42960, 42961); (42963, 42963); (42965, 42969); (42997, 42998); (43002, 43002);
   (43824, 43866); (43872, 43880); (43888, 43967); (64256, 64262); (64275, 64279);
   (65313, 65338); (65345, 65370); (66560, 66639); (66736, 66771); (66776, 66811);
   (66928, 66938); (66940, 66954); (66956, 66962); (66964, 66965); (66967, 66977);
   (66979, 66993); (66995, 67001); (67003, 67004); (68736, 68786); (68800, 68850);
   (71840, 71903); (93760, 93823); (119808, 119892); (119894, 119964); (119966, 119967);
   (119970, 119970); (119973, 119974); (119977, 119980); (119982, 119993); (119995, 119995);
   (119997, 120003); (120005, 120069); (120071, 120074); (120077, 120084); (120086, 120092);
   (120094, 120121); (120123, 120126); (120128, 120132); (120134, 120134); (120138, 120144);
   (120146, 120485); (120488, 120512); (120514, 120538); (120540, 120570); (120572, 120596);
   (120598, 120628); (120630, 120654); (120656, 120686); (120688, 120712); (120714, 120744);
   (120746, 120770); (120772, 120779); (122624, 122633); (122635, 122654); (125184, 125251);
   (127280, 127305); (127312, 127337); (127344, 127369)].

(** The characters that [str.lower] maps to one other character: every
    [step]-th code point from [first] to [last] is moved as [first] is
    moved to [target]. *)
Definition lower_table : list (N * N * N * N) :=
  [(65, 90, 1, 97); (192, 214, 1, 224); (216, 222, 1, 248); (256, 302, 2, 257);
   (306, 310, 2, 307); (313, 327, 2, 314); (330, 374, 2, 331); (376, 376, 1, 255);
   (377, 381, 2, 378); (385, 385, 1, 595); (386, 388, 2, 387); (390, 390, 1, 596);
   (391, 391, 1, 392); (393, 394, 1, 598); (395, 395, 1, 396); (398, 398, 1, 477);
   (399, 399, 1, 601); (400, 400, 1, 603); (401, 401, 1, 402); (403, 403, 1, 608);
   (404, 404, 1, 611); (406, 406, 1, 617); (407, 407, 1, 616); (408, 408, 1, 409);
   (412, 412, 1, 623); (413, 413, 1, 626); (415, 415, 1, 629); (416, 420, 2, 417);
   (422, 422, 1, 640); (423, 423, 1, 424); (425, 425, 1, 643); (428, 428, 1, 429);
   (430, 430, 1, 648); (431, 431, 1, 432); (433, 434, 1, 650); (435, 437, 2, 436);
   (439, 439, 1, 658); (440, 440, 1, 441); (444, 444, 1, 445); (452, 452, 1, 454);
   (453, 453, 1, 454); (455, 455, 1, 457); (456, 456, 1, 457); (458, 458, 1, 460);
   (459, 475, 2, 460); (478, 494, 2, 479); (497, 497, 1, 499); (498, 500, 2, 499);
   (502, 502, 1, 405); (503, 503, 1, 447); (504, 542, 2, 505); (544, 544, 1, 414);
   (546, 562, 2, 547); (570, 570, 1, 11365); (571, 571, 1, 572); (573, 573, 1, 410);
   (574, 574, 1, 11366); (577, 577, 1, 578); (579, 579, 1, 384); (580, 580, 1, 649);
   (581, 581, 1, 652); (582, 590, 2, 583); (880, 882, 2, 881); (886, 886, 1, 887);
   (895, 895, 1, 1011); (902, 902, 1, 940); (904, 906, 1, 941); (908, 908, 1, 972);
   (910, 911, 1, 973); (913, 929, 1, 945); (931, 939, 1, 963); (975, 975, 1, 983);
   (984, 1006, 2, 985); (1012, 1012, 1, 952); (1015, 1015, 1, 1016); (1017, 1017, 1, 1010);
   (1018, 1018, 1, 1019); (1021, 1023, 1, 891); (1024, 1039, 1, 1104); (1040, 1071, 1, 1072);
   (1120, 1152, 2, 1121); (1162, 1214, 2, 1163); (1216, 1216, 1, 1231); (1217, 1229, 2, 1218);
   (1232, 1326, 2, 1233); (1329, 1366, 1, 1377); (4256, 4293, 1, 11520); (4295, 4295, 1, 11559);
   (4301, 4301, 1, 11565); (5024, 5103, 1, 43888); (5104, 5109, 1, 5112); (7312, 7354, 1, 4304);
   (7357, 7359, 1, 4349); (7680, 7828, 2, 7681); (7838, 7838, 1, 223); (7840, 7934, 2, 7841);
   (7944, 7951, 1, 7936); (7960, 7965, 1, 7952); (7976, 7983, 1, 7968); (7992, 7999, 1, 7984);
   (8008, 8013, 1, 8000); (8025, 8031, 2, 8017); (8040, 8047, 1, 8032); (8072, 8079, 1, 8064);
   (8088, 8095, 1, 8080); (8104, 8111, 1, 8096); (8120, 8121, 1, 8112); (8122, 8123, 1, 8048);
   (8124, 8124, 1, 8115); (8136, 8139, 1, 8050); (8140, 8140, 1, 8131); (8152, 8153, 1, 8144);
   (8154, 8155, 1, 8054); (8168, 8169, 1, 8160); (8170, 8171, 1, 8058); (8172, 8172, 1, 8165);
   (8184, 8185, 1, 8056); (8186, 8187, 1, 8060); (8188, 8188, 1, 8179); (8486, 8486, 1, 969);
   (8490, 8490, 1, 107); (8491, 8491, 1, 229); (8498, 8498, 1, 8526); (8544, 8559, 1, 8560);
   (8579, 8579, 1, 8580); (9398, 9423, 1, 9424); (11264, 11311, 1, 11312);
   (11360, 11360, 1, 11361); (11362, 11362, 1, 619); (11363, 11363, 1, 7549);
   (11364, 11364, 1, 637); (11367, 11371, 2, 11368); (11373, 11373, 1, 593);
   (11374, 11374, 1, 625); (11375, 11375, 1, 592); (11376, 11376, 1, 594);
   (11378, 11378, 1, 11379); (11381, 11381, 1, 11382); (11390, 11391, 1, 575);
   (11392, 11490, 2, 11393); (11499, 11501, 2, 11500); (11506, 11506, 1, 11507);
   (42560, 42604, 2, 42561); (42624, 42650, 2, 42625); (42786, 42798, 2, 42787);
   (42802, 42862, 2, 42803); (42873, 42875, 2, 42874); (42877, 42877, 1, 7545);
   (42878, 42886, 2, 42879); (42891, 42891, 1, 42892); (42893, 42893, 1, 613);
   (42896, 42898, 2, 42897); (42902, 42920, 2, 42903); (42922, 42922, 1, 614);
   (42923, 42923, 1, 604); (42924, 42924, 1, 609); (42925, 42925, 1, 620);
   (42926, 42926, 1, 618); (42928, 42928, 1, 670); (42929, 42929, 1, 647);
   (42930, 42930, 1, 669); (42931, 42931, 1, 43859); (42932, 42946, 2, 42933);
   (42948, 42948, 1, 42900); (42949, 42949, 1, 642); (42950, 42950, 1, 7566);
   (42951, 42953, 2, 42952); (42960, 42960, 1, 42961); (42966, 42968, 2, 42967);
   (42997, 42997, 1, 42998); (65313, 65338, 1, 65345); (66560, 66599, 1, 66600);
   (66736, 66771, 1, 66776); (66928, 66938, 1, 66967); (66940, 66954, 1, 66979);
   (66956, 66962, 1, 66995); (66964, 66965, 1, 67003); (68736, 68786, 1, 68800);
   (71840, 71871, 1, 71872); (93760, 93791, 1, 93792); (125184, 125217, 1, 125218)].

(** The zeros of the decimal digits; the nine characters after a zero are
    the digits from one to nine. *)
Definition zero_table : list N :=
  [48; 1632; 1776; 1984; 2406; 2534; 2662; 2790; 2918; 3046; 3174; 3302; 3430; 3558; 3664; 3792;
   3872; 4160; 4240; 6112; 6160; 6470; 6608; 6784; 6800; 6992; 7088; 7232; 7248; 42528; 43216;
   43264; 43472; 43504; 43600; 44016; 65296; 66720; 68912; 69734; 69872; 69942; 70096; 70384;
   70736; 70864; 71248; 71360; 71472; 71904; 72016; 72784; 73040; 73120; 92768; 92864; 93008;
   120782; 120792; 120802; 120812; 120822; 123200; 123632; 125264; 130032].

Definition is_space (c : N) : bool := in_table space_table c.
Definition is_word (c : N) : bool := in_table word_table c.
Definition case_ignorable (c : N) : bool := in_table case_ignorable_table c.
Definition cased (c : N) : bool := in_table cased_table c.

(** The character that [lower] gives for a character of [lower_table]. *)
Definition lower_point (c : N) : option N :=
  match List.find (fun r => match r with
                            | (first, last, step, _) =>
                                (first <=? c) && (c <=? last) && ((c - first) mod step =? 0)
                            end)%bool lower_table with
  | Some (first, _, _, target) => Some (target + (c - first))
  | None => None
  end.

(** Whether the first character of [l] that the rule of the final sigma
    does not pass over is cased. *)
Fixpoint cased_first (l : list string) : bool :=
  match l with
  | [] => false
  | ch :: rest => if case_ignorable (ord ch) then cased_first rest else cased (ord ch)
  end.

(** A capital sigma is final when a cased character precedes it and none
    follows it; [before] holds the characters before it, the nearest
    first. *)
Definition final_sigma (before after : list string) : bool :=
  (cased_first before && negb (cased_first after))%bool.

Definition lower_char (before : list string) (ch : string) (after : list string) : string :=
  let c := ord ch in
  if c =? 931 then chr (if final_sigma before after then 962 else 963)
  else if c =? 304 then chr 105 +:+ chr 775
  else match lower_point c with
       | Some l => chr l
       | None => ch
       end.

Fixpoint lower_chars (before l : list string) : string :=
  match l with
  | [] => EmptyString
  | ch :: after => lower_char before ch after +:+ lower_chars (ch :: before) after
  end.

(** [s.lower()] *)
Definition lower (s : string) : string := lower_chars [] (chars s).

(** The pieces of a text between the characters that satisfy [sep]. *)
Fixpoint split_chars (sep : N -> bool) (l : list string) : list string :=
  match l with
  | [] => [EmptyString]
  | ch :: l' =>
      let r := split_chars sep l' in
      if sep (ord ch) then EmptyString :: r
      else match r with
           | h :: t => (ch +:+ h) :: t
           | [] => [ch]
           end
  end.

(** [s.split()] *)
Definition split (s : string) : list string :=
  List.filter nonempty (split_chars is_space (chars s)).

(** [re.findall(r"\w+", s)] *)
Definition findall_words (s : string) : list string :=
  List.filter nonempty (split_chars (fun c => negb (is_word c)) (chars s)).

Fixpoint lstrip_chars (l : list string) : list string :=
  match l with
  | ch :: l' => if is_space (ord ch) then lstrip_chars l' else l
  | [] => []
  end.

(** [s.strip()] *)
Definition strip (s : string) : string :=
  join_chars (List.rev (lstrip_chars (List.rev (lstrip_chars (chars s))))).

(** [unicodedata.decimal(ch)] *)
Definition decimal (c : N) : option N :=
  match List.find (fun zero => (zero <=? c) && (c <=? zero + 9))%bool zero_table with
  | Some zero => Some (c - zero)
  | None => None
  end.

(** The text that [int] parses in place of [s]: a character from 127 on
    stands for a space when it is white space, for the ASCII digit of its
    value when it is a decimal digit, and for a question mark otherwise. *)
Definition ascii_decimal_char (ch : string) : string :=
  let c := ord ch in
  if c <? 127 then ch
  else if is_space c then chr 32
  else match decimal c with
       | Some d => chr (48 + d)
       | None => chr 63
       end.

Definition ascii_decimal (s : string) : string :=
  join_chars (List.map ascii_decimal_char (chars s)).

End Unicode.

(** ** Python text operations: bytes and the ASCII range *)

Module Text.

Definition code (c : ascii) : nat := nat_of_ascii c.

Definition between (lo hi : nat) (c : ascii) : bool :=
  (Nat.leb lo (code c) && Nat.leb (code c) hi)%bool.

Definition is_upper : ascii -> bool := between 65 90.
Definition is_lower : ascii -> bool := between 97 122.
Definition is_digit : ascii -> bool := between 48 57.

(** [str.isspace] on the ASCII range: tab to carriage return, the four
    separators and space. *)
Definition is_space (c : ascii) : bool :=
  (between 9 13 c || between 28 32 c)%bool.

(** The class [\w] on the ASCII range. *)
Definition is_word (c : ascii) : bool :=
  (is_upper c || is_lower c || is_digit c || Ascii.eqb c "_")%bool.

Definition lower_char (c : ascii) : ascii :=
  if is_upper c then ascii_of_nat (code c + 32) else c.

(** [s.lower()] for the letters of the ASCII range. *)
Fixpoint lower (s : string) : string :=
  match s with
  | EmptyString => EmptyString
  | String c s' => String (lower_char c) (lower s')
  end.

Fixpoint rev_onto (s acc : string) : string :=
  match s with
  | EmptyString => acc
  | String c s' => rev_onto s' (String c acc)
  end.

Definition reverse (s : string) : string := rev_onto s EmptyString.

Fixpoint lstrip (s : string) : string :=
  match s with
  | String c s' => if is_space c then lstrip s' else s
  | EmptyString => EmptyString
  end.

Definition rstrip (s : string) : string := reverse (lstrip (reverse s)).

(** [s.strip()] for the white space of the ASCII range. *)
Definition strip (s : string) : string := rstrip (lstrip s).

(** [s.startswith(p)] *)
Definition starts_with (p s : string) : bool := String.prefix p s.

Fixpoint drop (n : nat) (s : string) : string :=
  match n, s with
  | S k, String _ s' => drop k s'
  | _, _ => s
  end.

Fixpoint take (n : nat) (s : string) : string :=
  match n, s with
  | S k, String c s' => String c (take k s')
  | _, _ => EmptyString
  end.

(** [needle in hay] *)
Fixpoint contains (needle hay : string) : bool :=
  match hay with
  | EmptyString => starts_with needle EmptyString
  | String _ hay' => (starts_with needle hay || contains needle hay')%bool
  end.

(** Occurrences of a non-empty [sub] found from left to right without
    overlap; [skip] characters of a match are still to be passed. *)
Fixpoint count_from (sub s : string) (skip : nat) : nat :=
  match s with
  | EmptyString => O
  | String _ s' =>
      match skip with
      | S k => count_from sub s' k
      | O =>
          if starts_with sub s
          then S (count_from sub s' (Nat.pred (String.length sub)))
          else count_from sub s' O
      end
  end.

(** [s.count(sub)] *)
Definition count (s sub : string) : nat :=
  match sub with
  | EmptyString => S (String.length s)
  | _ => count_from sub s O
  end.

(** The pieces of [s] between the characters that satisfy [sep]. *)
Fixpoint split_by (sep : ascii -> bool) (s : string) : list string :=
  match s with
  | EmptyString => [EmptyString]
  | String c s' =>
      let r := split_by sep s' in
      if sep c then EmptyString :: r
      else match r with
           | h :: t => String c h :: t
           | [] => [String c EmptyString]
           end
  end.

Definition nonempty (s : string) : bool :=
  match s with EmptyString => false | _ => true end.

(** [s.split(c)] for a one-character separator. *)
Definition split_on (c : ascii) (s : string) : list string :=
  split_by (Ascii.eqb c) s.

(** [s.split(sep)] for a separator of several characters. *)
Fixpoint split_str_from (sep s : string) (skip : nat) : list string :=
  match s with
  | EmptyString => [EmptyString]
  | String c s' =>
      match skip with
      | S k => split_str_from sep s' k
      | O =>
          if starts_with sep s
          then EmptyString :: split_str_from sep s' (Nat.pred (String.length sep))
          else match split_str_from sep s' O with
               | h :: t => String c h :: t
               | [] => [String c EmptyString]
               end
      end
  end.

Definition split_str (sep s : string) : list string := split_str_from sep s O.

(** [sep.join(l)] *)
Fixpoint join (sep : string) (l : list string) : string :=
  match l with
  | [] => EmptyString
  | [x] => x
  | x :: l' => x +:+ sep +:+ join sep l'
  end.

(** [s.replace(old, new)] for a non-empty [old]. *)
Fixpoint replace_from (old new s : string) (skip : nat) : string :=
  match s with
  | EmptyString => EmptyString
  | String c s' =>
      match skip with
      | S k => replace_from old new s' k
      | O =>
          if starts_with old s
          then new +:+ replace_from old new s' (Nat.pred (String.length old))
          else String c (replace_from old new s' O)
      end
  end.

Definition replace (old new s : string) : string :=
  match old with
  | EmptyString => s
  | _ => replace_from old new s O
  end.

Definition digit_val (c : ascii) : Z := Z.of_nat (code c - 48).

(** The digits that follow a digit already read; one underscore may
    separate two digits. *)
Fixpoint digits_after (s : string) (acc : Z) : option Z :=
  match s with
  | EmptyString => Some acc
  | String c s' =>
      if is_digit c then digits_after s' (10 * acc + digit_val c)
      else if Ascii.eqb c "_" then
        match s' with
        | String d s'' =>
            if is_digit d then digits_after s'' (10 * acc + digit_val d)
            else None
        | EmptyString => None
        end
      else None
  end.

Definition digits (s : string) : option Z :=
  match s with
  | String c s' => if is_digit c then digits_after s' (digit_val c) else None
  | EmptyString => None
  end.

(** The white space that the parser of [int] passes over at both ends. *)
Definition is_blank (c : ascii) : bool := (between 9 13 c || Ascii.eqb c " ")%bool.

Fixpoint lstrip_blank (s : string) : string :=
  match s with
  | String c s' => if is_blank c then lstrip_blank s' else s
  | EmptyString => EmptyString
  end.

Definition strip_blank (s : string) : string :=
  reverse (lstrip_blank (reverse (lstrip_blank s))).

(** [int(s)]: [None] stands for [ValueError]. *)
Definition int_of_string (s : string) : option Z :=
  match strip_blank (Unicode.ascii_decimal s) with
  | String "+" r => digits r
  | String "-" r => Z.opp <$> digits r
  | r => digits r
  end.

Fixpoint pos_digits (fuel : nat) (n : Z) (acc : string) : string :=
  match fuel with
  | O => acc
  | S f =>
      let acc' := String (ascii_of_nat (48 + Z.to_nat (n mod 10))) acc in
      if n <? 10 then acc' else pos_digits f (n / 10) acc'
  end.

(** [str(n)] for an integer. *)
Definition string_of_Z (n : Z) : string :=
  let d := pos_digits (S (Z.to_nat (Z.log2 (Z.abs n)))) (Z.abs n) EmptyString in
  if n <? 0 then String "-" d else d.

End Text.

(** ** [tools/search.py]: dates and the age computation *)

Record date : Type := { year : Z; month : Z; day : Z }.

(** The comparison of two pairs, as Python orders tuples. *)
Definition pair_lt (a b : Z * Z) : bool :=
  ((a.1 <? b.1) || ((a.1 =? b.1) && (a.2 <? b.2)))%bool.

(** The arithmetic of [compute_age] once the three fields are read. *)
Definition age_on (today : date) (y m d : Z) : Z :=
  year today - y - (if pair_lt (month today, day today) (m, d) then 1 else 0).

(** [compute_age(dob_iso)], the clock being the argument [today]. *)
Definition compute_age (today : date) (dob_iso : string) : result Z :=
  match Text.int_of_string <$> Text.split_on "-" dob_iso with
  | [Some y; Some m; Some d] => Ok (age_on today y m d)
  | _ => Raise ValueError
  end.

(** ** JSON values and the decoder [json.loads] *)

Inductive json : Type :=
| JNull
| JBool (b : bool)
| JNum (lexeme : string)
| JStr (s : string)
| JArr (items : list json)
| JObj (fields : list (string * json)).

Module Json.

(** The outcome of scanning a prefix of the input. *)
Inductive scan (A : Type) : Type :=
| Scanned (a : A) (rest : string)
| Malformed
| OutOfFuel.

Arguments Scanned {A} a rest.
Arguments Malformed {A}.
Arguments OutOfFuel {A}.

Definition dquote : ascii := "034"%char.
Definition backslash : ascii := "092"%char.

Definition is_json_space (c : ascii) : bool :=
  (Ascii.eqb c " " || Ascii.eqb c "009" || Ascii.eqb c "010" || Ascii.eqb c "013")%bool.

Fixpoint skip_ws (s : string) : string :=
  match s with
  | String c s' => if is_json_space c then skip_ws s' else s
  | EmptyString => EmptyString
  end.

Definition hex_val (c : ascii) : option N :=
  let n := N_of_ascii c in
  if Text.is_digit c then Some (n - 48)%N
  else if Text.between 97 102 c then Some (n - 87)%N
  else if Text.between 65 70 c then Some (n - 55)%N
  else None.

Definition hex4 (a b c d : ascii) : option N :=
  match hex_val a, hex_val b, hex_val c, hex_val d with
  | Some x, Some y, Some z, Some w => Some (((x * 16 + y) * 16 + z) * 16 + w)%N
  | _, _, _, _ => None
  end.

Definition byte (n : N) : ascii := ascii_of_N n.

(** The UTF-8 bytes of a code point. *)
Definition utf8 (cp : N) : string :=
  if (cp <? 128)%N then String (byte cp) EmptyString
  else if (cp <? 2048)%N then
    String (byte (192 + cp / 64)) (String (byte (128 + cp mod 64)) EmptyString)
  else if (cp <? 65536)%N then
    String (byte (224 + cp / 4096))
      (String (byte (128 + (cp / 64) mod 64))
         (String (byte (128 + cp mod 64)) EmptyString))
  else
    String (byte (240 + cp / 262144))
      (String (byte (128 + (cp / 4096) mod 64))
         (String (byte (128 + (cp / 64) mod 64))
            (String (byte (128 + cp mod 64)) EmptyString))).

Definition simple_escape (c : ascii) : option ascii :=
  if Ascii.eqb c dquote then Some dquote
  else if Ascii.eqb c backslash then Some backslash
  else if Ascii.eqb c "/" then Some "/"%char
  else if Ascii.eqb c "b" then Some "008"%char
  else if Ascii.eqb c "f" then Some "012"%char
  else if Ascii.eqb c "n" then Some "010"%char
  else if Ascii.eqb c "r" then Some "013"%char
  else if Ascii.eqb c "t" then Some "009"%char
  else None.

Definition is_high_surrogate (u : N) : bool := ((55296 <=? u) && (u <=? 56319))%N.
Definition is_low_surrogate (u : N) : bool := ((56320 <=? u) && (u <=? 57343))%N.

Definition prepend (p : string) (r : option (string * string)) : option (string * string) :=
  match r with
  | Some (s, rest) => Some (p +:+ s, rest)
  | None => None
  end.

(** The low half of a surrogate pair at the head of [s], when there is one. *)
Definition low_half (s : string) : option N :=
  match s with
  | String b (String u (String h1 (String h2 (String h3 (String h4 _))))) =>
      if (Ascii.eqb b backslash && Ascii.eqb u "u")%bool then
        match hex4 h1 h2 h3 h4 with
        | Some lo => if is_low_surrogate lo then Some lo else None
        | None => None
        end
      else None
  | _ => None
  end.

(** The body of a string literal, read after its opening quote (strict
    mode: a raw control character is an error). *)
Fixpoint scanstring (s : string) : option (string * string) :=
  match s with
  | EmptyString => None
  | String c r =>
      if Ascii.eqb c dquote then Some (EmptyString, r)
      else if Ascii.eqb c backslash then
        match r with
        | EmptyString => None
        | String e r1 =>
            if Ascii.eqb e "u" then
              match r1 with
              | String h1 (String h2 (String h3 (String h4 r2))) =>
                  match hex4 h1 h2 h3 h4 with
                  | None => None
                  | Some hi =>
                      match (if is_high_surrogate hi then low_half r2 else None), r2 with
                      | Some lo, String _ (String _ (String _ (String _ (String _ (String _ r3))))) =>
                          prepend (utf8 (65536 + (hi - 55296) * 1024 + (lo - 56320))%N)
                                  (scanstring r3)
                      | _, _ => prepend (utf8 hi) (scanstring r2)
                      end
                  end
              | _ => None
              end
            else
              match simple_escape e with
              | Some ch => prepend (String ch EmptyString) (scanstring r1)
              | None => None
              end
        end
      else if Nat.ltb (Text.code c) 32 then None
      else prepend (String c EmptyString) (scanstring r)
  end.

(** The longest run of digits at the head of [s], and what follows it. *)
Fixpoint span_digits (s : string) : string * string :=
  match s with
  | String c s' =>
      if Text.is_digit c
      then let (d, r) := span_digits s' in (String c d, r)
      else (EmptyString, s)
  | EmptyString => (EmptyString, EmptyString)
  end.

(** The integer part [0|[1-9]\d*]. *)
Definition scan_int (s : string) : option (string * string) :=
  match s with
  | String c s' =>
      if Ascii.eqb c "0" then Some (String c EmptyString, s')
      else if Text.is_digit c then
        let (d, r) := span_digits s' in Some (String c d, r)
      else None
  | EmptyString => None
  end.

(** The optional fraction [\.\d+]. *)
Definition scan_frac (s : string) : string * string :=
  match s with
  | String c s' =>
      if Ascii.eqb c "." then
        match span_digits s' with
        | (EmptyString, _) => (EmptyString, s)
        | (d, r) => (String c d, r)
        end
      else (EmptyString, s)
  | EmptyString => (EmptyString, s)
  end.

(** The optional exponent [[eE][-+]?\d+]. *)
Definition scan_exp (s : string) : string * string :=
  match s with
  | String e s' =>
      if (Ascii.eqb e "e" || Ascii.eqb e "E")%bool then
        match s' with
        | String sg s'' =>
            if (Ascii.eqb sg "-" || Ascii.eqb sg "+")%bool then
              match span_digits s'' with
              | (EmptyString, _) => (EmptyString, s)
              | (d, r) => (String e (String sg d), r)
              end
            else
              match span_digits s' with
              | (EmptyString, _) => (EmptyString, s)
              | (d, r) => (String e d, r)
              end
        | EmptyString => (EmptyString, s)
        end
      else (EmptyString, s)
  | EmptyString => (EmptyString, s)
  end.

(** A number at the head of [s]: its text and the rest. *)
Definition scan_number (s : string) : option (string * string) :=
  let (sign, s1) :=
    match s with
    | String c s' => if Ascii.eqb c "-" then (String c EmptyString, s') else (EmptyString, s)
    | EmptyString => (EmptyString, s)
    end in
  match scan_int s1 with
  | None => None
  | Some (i, s2) =>
      let (f, s3) := scan_frac s2 in
      let (e, s4) := scan_exp s3 in
      Some (sign +:+ i +:+ f +:+ e, s4)
  end.

Definition keyword (k : string) (v : json) (s : string) : option (json * string) :=
  if Text.starts_with k s then Some (v, Text.drop (String.length k) s) else None.

(** The first attempt that succeeds. *)
Fixpoint first_of (attempts : list (string -> option (json * string))) (s : string)
  : scan json :=
  match attempts with
  | [] => Malformed
  | f :: rest =>
      match f s with
      | Some (v, r) => Scanned v r
      | None => first_of rest s
      end
  end.

Definition scan_num (s : string) : option (json * string) :=
  match scan_number s with
  | Some (lex, r) => Some (JNum lex, r)
  | None => None
  end.

(** A value that is neither a string nor a container: the constants, a
    number, and the three names that the decoder accepts besides. *)
Definition scan_atom (s : string) : scan json :=
  first_of [keyword "null" JNull; keyword "true" (JBool true); keyword "false" (JBool false);
            scan_num;
            keyword "NaN" (JNum "NaN"); keyword "Infinity" (JNum "Infinity");
            keyword "-Infinity" (JNum "-Infinity")] s.

(** The recursive descent of the decoder.  [scan_members] starts after the
    opening quote of a key, [scan_items] at the first character of an
    item; both return the whole container. *)
Fixpoint scan_once (fuel : nat) (s : string) : scan json :=
  match fuel with
  | O => OutOfFuel
  | S f =>
      match s with
      | EmptyString => Malformed
      | String c r =>
          if Ascii.eqb c dquote then
            match scanstring r with
            | Some (str, r') => Scanned (JStr str) r'
            | None => Malformed
            end
          else if Ascii.eqb c "{" then
            match skip_ws r with
            | String c' r' =>
                if Ascii.eqb c' "}" then Scanned (JObj []) r'
                else if Ascii.eqb c' dquote then scan_members f r' []
                else Malformed
            | EmptyString => Malformed
            end
          else if Ascii.eqb c "[" then
            match skip_ws r with
            | String c' r' =>
                if Ascii.eqb c' "]" then Scanned (JArr []) r'
                else scan_items f (String c' r') []
            | EmptyString => scan_items f EmptyString []
            end
          else scan_atom s
      end
  end
with scan_members (fuel : nat) (s : string) (acc : list (string * json)) : scan json :=
  match fuel with
  | O => OutOfFuel
  | S f =>
      match scanstring s with
      | None => Malformed
      | Some (key, r) =>
          match skip_ws r with
          | String colon r1 =>
              if Ascii.eqb colon ":" then
                match scan_once f (skip_ws r1) with
                | Scanned v r2 =>
                    match skip_ws r2 with
                    | String c r3 =>
                        if Ascii.eqb c "}"
                        then Scanned (JObj (List.rev ((key, v) :: acc))) r3
                        else if Ascii.eqb c "," then
                          match skip_ws r3 with
                          | String c' r4 =>
                              if Ascii.eqb c' dquote
                              then scan_members f r4 ((key, v) :: acc)
                              else Malformed
                          | EmptyString => Malformed
                          end
                        else Malformed
                    | EmptyString => Malformed
                    end
                | Malformed => Malformed
                | OutOfFuel => OutOfFuel
                end
              else Malformed
          | EmptyString => Malformed
          end
      end
  end
with scan_items (fuel : nat) (s : string) (acc : list json) : scan json :=
  match fuel with
  | O => OutOfFuel
  | S f =>
      match scan_once f s with
      | Scanned v r =>
          match skip_ws r with
          | String c r1 =>
              if Ascii.eqb c "]" then Scanned (JArr (List.rev (v :: acc))) r1
              else if Ascii.eqb c "," then scan_items f (skip_ws r1) (v :: acc)
              else Malformed
          | EmptyString => Malformed
          end
      | Malformed => Malformed
      | OutOfFuel => OutOfFuel
      end
  end.

(** The fuel that the descent never exhausts on [s]. *)
Definition fuel_for (s : string) : nat := S (2 * String.length s).

(** [json.loads(s)]; the only exception is [JSONDecodeError]. *)
Definition loads (s : string) : result json :=
  let s0 := skip_ws s in
  match scan_once (fuel_for s0) s0 with
  | Scanned v r =>
      match skip_ws r with
      | EmptyString => Ok v
      | _ => Raise JSONDecodeError
      end
  | _ => Raise JSONDecodeError
  end.

(** [d.get(k)] on the dictionary built from the members: the last
    binding of a repeated key is the one kept. *)
Definition obj_get (k : string) (fields : list (string * json)) : option json :=
  snd <$> List.find (fun kv => String.eqb (fst kv) k) (List.rev fields).

(** [k in d] *)
Definition has_key (k : string) (fields : list (string * json)) : bool :=
  match obj_get k fields with Some _ => true | None => false end.

Definition q (s : string) : string :=
  String dquote s +:+ String dquote EmptyString.

End Json.

(** ** The system prompt *)

Module Prompt.

Definition dq : string := String "034" EmptyString.
Definition nl : string := String "010" EmptyString.
(** The bullet U+2022 in UTF-8. *)
Definition bullet : string := String "226" (String "128" (String "162" EmptyString)).

Definition unlines (l : list string) : string := Text.join nl l.

Definition access_two : string :=
  "access to two external tools:".

Definition access_one : string :=
  "access to an external tool:".

Definition tool_list_two : string :=
  unlines
    [ "            " +:+ bullet +:+ " get_current_weather(location: str) - allows you to get the current weather of a given location";
      "            " +:+ bullet +:+ " search_web(query: str) - use this tool whenever you need current information, recent events, real-time data, or when your knowledge might be outdated. This includes questions about people's current status, recent news, current events, or any information that changes frequently." ].

Definition tool_list_one : string :=
  "            " +:+ bullet +:+ " get_current_weather(location: str)".

Definition guidance_search : string :=
  unlines
    [ EmptyString;
      "        **When to use search_web:**";
      "        - Questions about current events, news, or recent happenings";
      "        - Information about people's current status, recent activities, or biographical details that may have changed";
      "        - Any query where your training data might be outdated";
      "        - Real-time information requests";
      "        - If you're unsure whether your information is current, use the search tool";
      "        ";
      "        **Important:** Even for seemingly basic questions like " +:+ dq +:+ "What is [person]'s birthday" +:+ dq +:+ " or biographical information, if there's any chance the information has changed or if you want to provide the most accurate, up-to-date response, use the search_web tool." ].

Definition example_two : string :=
  "(e.g. current weather, recent news, biographical information, current events)".

Definition example_one : string :=
  "(e.g. current weather)".

(** [construct_sys_prompt(enable_web_search)] *)
Definition construct_sys_prompt (enable_web_search : bool) : string :=
  let tool_access_description := if enable_web_search then access_two else access_one in
  let tool_list := if enable_web_search then tool_list_two else tool_list_one in
  let tool_usage_guidance := if enable_web_search then guidance_search else EmptyString in
  let tool_example := if enable_web_search then example_two else example_one in
  unlines
    [ "You are a helpful AI assistant with " +:+ tool_access_description;
      tool_list;
      tool_usage_guidance;
      EmptyString;
      "You **MUST** call the appropriate tool whenever you identify that you need information that could be:";
      "- Current or real-time data " +:+ tool_example;
      "- Information that changes frequently or might be outdated in your training data";
      "- Any query where using a tool would provide more accurate or up-to-date information";
      EmptyString;
      "**CRITICAL:** Before answering ANY question, ask yourself: " +:+ dq +:+ "Could this information have changed since my training? Would a search provide more current/accurate information?" +:+ dq +:+ " If yes, use the search_web tool.";
      EmptyString;
      "To call a tool, reply with **only** a JSON object of this exact form:";
      EmptyString;
      "{" +:+ dq +:+ "tool_call" +:+ dq +:+ ": {" +:+ dq +:+ "name" +:+ dq +:+ ": " +:+ dq +:+ "<tool_name>" +:+ dq +:+ ", " +:+ dq +:+ "arguments" +:+ dq +:+ ": {" +:+ dq +:+ "query" +:+ dq +:+ ": " +:+ dq +:+ "your search query" +:+ dq +:+ "} } }";
      EmptyString;
      "- No additional text or explanation should surround that JSON.  ";
      "- After the tool runs and returns its result, continue the conversation by providing your answer in natural language.";
      "- For search_web, make your query specific and focused on what the user is asking.";
      EmptyString;
      "If you are absolutely certain you do **not** need a tool (for basic math, general knowledge that doesn't change, etc.), you may answer directly in natural language.";
      EmptyString;
      "Remember: When in doubt, use the tool. It's better to search and get current information than to provide potentially outdated data." ].


(** The entry of a tool in the list of tools of a prompt: its bullet and
    its signature. *)
Definition entry_weather : string := bullet +:+ " get_current_weather(location: str)".
Definition entry_search : string := bullet +:+ " search_web(query: str)".

Definition advertises_weather (prompt : string) : bool := Text.contains entry_weather prompt.
Definition advertises_search (prompt : string) : bool := Text.contains entry_search prompt.

End Prompt.

(** ** Python values passed as the search flag *)

Inductive pyval : Type :=
| PyNone
| PyBool (b : bool)
| PyInt (z : Z)
| PyStr (s : string).

(** The truth value that [if v:] tests. *)
Definition truthy (v : pyval) : bool :=
  match v with
  | PyNone => false
  | PyBool b => b
  | PyInt z => negb (z =? 0)
  | PyStr s => Text.nonempty s
  end.

(** ** [MemoryStore]: the conversation store *)

Module MemoryStore.

(** What the Redis server holds: the lists and the expiry set on a key.
    The model has no clock, so that no key expires. *)
Record redis : Type := {
  lists : gmap string (list string);
  expiry : gmap string Z
}.

(** After [__init__]: the Redis client when the server answered the ping,
    the dictionary [_memory] otherwise. *)
Inductive t : Type :=
| Client (server : redis)
| InMemory (_memory : gmap string (list json)).

Definition base_key : string := "conversation".
Definition ttl : Z := 60 * 60 * 24 * 7.

Definition _key (user_id : string) : string := base_key +:+ ":" +:+ user_id.

(** The dictionary [{"role": role, "text": text}]. *)
Definition entry (role text : string) : json :=
  JObj [("role", JStr role); ("text", JStr text)].

Definition hex_digit (n : N) : ascii :=
  if (n <? 10)%N then ascii_of_N (48 + n) else ascii_of_N (87 + n).

Definition u_escape (cp : N) : string :=
  String Json.backslash
    (String "u"
       (String (hex_digit (cp / 4096))
          (String (hex_digit ((cp / 256) mod 16))
             (String (hex_digit ((cp / 16) mod 16))
                (String (hex_digit (cp mod 16)) EmptyString))))).

Definition short_escape (c : ascii) : string :=
  String Json.backslash (String c EmptyString).

(** The escape of one ASCII character in [json.dumps]. *)
Definition escape_char (c : ascii) : string :=
  if Ascii.eqb c Json.dquote then short_escape Json.dquote
  else if Ascii.eqb c Json.backslash then short_escape Json.backslash
  else if Ascii.eqb c "010" then short_escape "n"
  else if Ascii.eqb c "013" then short_escape "r"
  else if Ascii.eqb c "009" then short_escape "t"
  else if Ascii.eqb c "012" then short_escape "f"
  else if Ascii.eqb c "008" then short_escape "b"
  else if Text.between 32 126 c then String c EmptyString
  else u_escape (N_of_ascii c).

Definition cont (c : ascii) : option N :=
  if Text.between 128 191 c then Some (N_of_ascii c - 128)%N else None.

Definition escape_code_point (cp : N) : string :=
  if (cp <? 65536)%N then u_escape cp
  else
    let v := (cp - 65536)%N in
    u_escape (55296 + v / 1024) +:+ u_escape (56320 + v mod 1024).

(** [json.dumps] of a string, without the quotes: every character outside
    the printable ASCII range is written as an escape; a UTF-8 sequence is
    one character. *)
Fixpoint escape (s : string) : string :=
  match s with
  | EmptyString => EmptyString
  | String c r =>
      let n := N_of_ascii c in
      if (n <? 128)%N then escape_char c +:+ escape r
      else
        match r with
        | String c1 r1 =>
            match cont c1 with
            | None => u_escape n +:+ escape r
            | Some x1 =>
                if Text.between 192 223 c
                then escape_code_point ((n - 192) * 64 + x1) +:+ escape r1
                else
                  match r1 with
                  | String c2 r2 =>
                      match cont c2 with
                      | None => u_escape n +:+ escape r
                      | Some x2 =>
                          if Text.between 224 239 c
                          then escape_code_point (((n - 224) * 64 + x1) * 64 + x2) +:+ escape r2
                          else
                            match r2 with
                            | String c3 r3 =>
                                match cont c3 with
                                | None => u_escape n +:+ escape r
                                | Some x3 =>
                                    if Text.between 240 247 c
                                    then escape_code_point
                                           ((((n - 240) * 64 + x1) * 64 + x2) * 64 + x3)
                                         +:+ escape r3
                                    else u_escape n +:+ escape r
                                end
                            | EmptyString => u_escape n +:+ escape r
                            end
                      end
                  | EmptyString => u_escape n +:+ escape r
                  end
            end
        | EmptyString => u_escape n +:+ escape r
        end
  end.

(** [json.dumps({"role": role, "text": text})] *)
Definition dumps_entry (role text : string) : string :=
  "{" +:+ Json.q "role" +:+ ": " +:+ Json.q (escape role) +:+ ", "
      +:+ Json.q "text" +:+ ": " +:+ Json.q (escape text) +:+ "}".

(** The Redis commands that the store issues. *)
Definition rpush (key value : string) (r : redis) : redis :=
  {| lists := <[key := (default [] (lists r !! key) ++ [value])%list]> (lists r);
     expiry := expiry r |}.

Definition expire (key : string) (seconds : Z) (r : redis) : redis :=
  {| lists := lists r;
     expiry := match lists r !! key with
               | Some _ => <[key := seconds]> (expiry r)
               | None => expiry r
               end |}.

Definition lrange_all (key : string) (r : redis) : list string :=
  default [] (lists r !! key).

Definition delete_key (key : string) (r : redis) : redis :=
  {| lists := delete key (lists r); expiry := delete key (expiry r) |}.

(** [add_message(user_id, role, text)] *)
Definition add_message (user_id role text : string) (s : t) : t :=
  match s with
  | Client r =>
      let e := dumps_entry role text in
      Client (expire (_key user_id) ttl (rpush (_key user_id) e r))
  | InMemory m =>
      let m1 := match m !! user_id with
                | Some _ => m
                | None => <[user_id := []]> m
                end in
      InMemory (<[user_id := (default [] (m1 !! user_id) ++ [entry role text])%list]> m1)
  end.

Fixpoint loads_all (l : list string) : result (list json) :=
  match l with
  | [] => Ok []
  | e :: l' =>
      match Json.loads e with
      | Raise x => Raise x
      | Ok v =>
          match loads_all l' with
          | Raise x => Raise x
          | Ok vs => Ok (v :: vs)
          end
      end
  end.

(** [get_history(user_id)] *)
Definition get_history (user_id : string) (s : t) : result (list json) :=
  match s with
  | Client r => loads_all (lrange_all (_key user_id) r)
  | InMemory m => Ok (default [] (m !! user_id))
  end.

(** [clear_history(user_id)] *)
Definition clear_history (user_id : string) (s : t) : t :=
  match s with
  | Client r => Client (delete_key (_key user_id) r)
  | InMemory m =>
      match m !! user_id with
      | Some _ => InMemory (delete user_id m)
      | None => InMemory m
      end
  end.

(** The store that [__init__] builds when Redis is not reachable. *)
Definition fallback : t := InMemory ∅.

End MemoryStore.

(** ** [OllamaClient]: the client of the model server *)

Module OllamaClient.

(** What the request yields: [requests.post], [raise_for_status] and
    [resp.json()] raise [ReadTimeout], another [RequestException] whose
    text is given, or an exception of another class, or the body is
    decoded. *)
Inductive http_reply : Type :=
| ReadTimeout
| RequestException (text : string)
| OtherException (e : exn)
| Body (j : json).

Fixpoint digits_value (s : string) (acc : Z) : Z :=
  match s with
  | EmptyString => acc
  | String c s' => digits_value s' (10 * acc + Text.digit_val c)
  end.

(** The exponent of a number: the value of the text that [Json.scan_exp]
    returns. *)
Definition exponent (e : string) : Z :=
  match e with
  | String _ (String sg d) =>
      if Ascii.eqb sg "-" then - digits_value d 0
      else if Ascii.eqb sg "+" then digits_value d 0
      else digits_value (String sg d) 0
  | _ => 0
  end.

(** Whether the number that a lexeme denotes is zero: an integer whose
    digits are zeros, or a float that [float()] rounds to zero, which is the
    case of the decimals up to [2^-1075]. *)
Definition num_is_zero (lex : string) : bool :=
  let body := match lex with
              | String c r => if Ascii.eqb c "-" then r else lex
              | EmptyString => lex
              end in
  match Json.scan_int body with
  | None => false
  | Some (i, r1) =>
      let (f, r2) := Json.scan_frac r1 in
      let (e, _) := Json.scan_exp r2 in
      let d := digits_value (i +:+ Text.drop 1 f) 0 in
      let scale := exponent e - Z.of_nat (String.length (Text.drop 1 f)) in
      ((d =? 0) || ((scale <? 0) && (d * 2 ^ 1075 <=? 10 ^ (- scale))))%bool
  end.

(** The truth value of a decoded value. *)
Definition truthy_json (j : json) : bool :=
  match j with
  | JNull => false
  | JBool b => b
  | JNum lex => negb (num_is_zero lex)
  | JStr s => Text.nonempty s
  | JArr items => match items with [] => false | _ => true end
  | JObj fields => match fields with [] => false | _ => true end
  end.

(** [k in j] for a string [k]. *)
Definition key_in (k : string) (j : json) : result bool :=
  match j with
  | JObj fields => Ok (Json.has_key k fields)
  | JArr items =>
      Ok (List.existsb (fun x => match x with JStr s => String.eqb s k | _ => false end) items)
  | JStr s => Ok (Text.contains k s)
  | _ => Raise TypeError
  end.

(** [j[k]] for a string [k]. *)
Definition subscript (k : string) (j : json) : result json :=
  match j with
  | JObj fields =>
      match Json.obj_get k fields with
      | Some v => Ok v
      | None => Raise KeyError
      end
  | _ => Raise TypeError
  end.

(** [choices[0]["message"]]: the first item of a list, a character of a
    string (which has no keys); a dictionary decoded from JSON has no key
    [0]. *)
Definition first_message (choices : json) : result json :=
  match choices with
  | JArr (x :: _) => subscript "message" x
  | JArr [] => Raise IndexError
  | JObj _ => Raise KeyError
  | JStr (String _ _) => Raise TypeError
  | JStr EmptyString => Raise IndexError
  | _ => Raise TypeError
  end.

Definition timed_out : string := "Error: request timed out (model is taking too long).".
Definition unexpected_format : string := "Error: unexpected response format.".

(** [generate(messages)], given what the request yields.  The value
    returned is the content of the reply, which the server decides, or one
    of the three texts of the client. *)
Definition generate (reply : http_reply) : result json :=
  match reply with
  | ReadTimeout => Ok (JStr timed_out)
  | RequestException e => Ok (JStr ("Error: request failed: " +:+ e))
  | OtherException e => Raise e
  | Body j =>
      match key_in "choices" j with
      | Raise e => Raise e
      | Ok false => Ok (JStr unexpected_format)
      | Ok true =>
          match subscript "choices" j with
          | Raise e => Raise e
          | Ok choices =>
              if truthy_json choices then
                match first_message choices with
                | Raise e => Raise e
                | Ok message => subscript "content" message
                end
              else Ok (JStr unexpected_format)
          end
      end
  end.

End OllamaClient.

(** ** [langgraph_agent.py]: messages, tools and the agent *)

Inductive Message : Type :=
| HumanMessage (content : string)
| AIMessage (content : string)
| ToolMessage (content : string) (name : option string)
              (tool_call_id : string) (tool_input : json).

Definition content (m : Message) : string :=
  match m with
  | HumanMessage c => c
  | AIMessage c => c
  | ToolMessage c _ _ _ => c
  end.

Definition is_ai (m : Message) : bool :=
  match m with AIMessage _ => true | _ => false end.

Definition is_tool (m : Message) : bool :=
  match m with ToolMessage _ _ _ _ => true | _ => false end.

(** One message of the chat format that the model server accepts. *)
Record chat : Type := { chat_role : string; chat_content : string }.

(** The table [TOOLS]. *)
Inductive Tool : Type := GetCurrentWeather | SearchWeb.

Definition TOOLS (name : string) : option Tool :=
  if String.eqb name "get_current_weather" then Some GetCurrentWeather
  else if String.eqb name "search_web" then Some SearchWeb
  else None.

(** The body of the tool [get_current_weather]. *)
Definition get_current_weather (location : string) : string :=
  if Text.contains "chicago, il" (Text.lower location) then
    "It's 75 degrees Fahrenheit and sunny in Chicago, IL. There's a slight breeze."
  else if Text.contains "new york, ny" (Text.lower location) then
    "It's 80 degrees Fahrenheit and humid in New York, NY."
  else
    "Weather information not available for " +:+ location
      +:+ ". (Current date: Tuesday, July 29, 2025)".

(** What a turn obtains from outside the program.

    - [generate i] is the text that [OllamaClient.generate] returns on the
      [i]-th request of the agent (the content of the model or one of the
      error texts of the client); a request on which the client raises or
      returns a content that is no text makes the node raise, as
      [Agent._call_llm_node] has it, and is no request of these runs;
    - [invoke_kwargs i t args] and [invoke_input i t args] are the outcomes
      of [fn.invoke( **args)] and of [fn.invoke(args)] for the tool [t] at the
      [i]-th dispatch;
    - [uuid4 i] is the identifier drawn at the [i]-th dispatch;
    - [recursion_limit] is the number of node executions that the graph
      runner allows in one run (LangGraph stops a longer run with
      [GraphRecursionError]; [handle] leaves its default in place). *)
Record Oracles : Type := {
  generate : nat -> string;
  invoke_kwargs : nat -> Tool -> json -> result string;
  invoke_input : nat -> Tool -> json -> result string;
  uuid4 : nat -> string;
  recursion_limit : nat
}.

(** The state that a turn reads and writes: the two attributes of the agent
    that change, the requests posted to the model (oldest first) and the
    number of tool dispatches made. *)
Record state : Type := {
  memory : MemoryStore.t;
  search_global : pyval;
  sent : list (list chat);
  dispatched : nat
}.

(** [Agent.__init__], with the store that [MemoryStore()] produced. *)
Definition new_agent (store : MemoryStore.t) : state :=
  {| memory := store; search_global := PyStr "false"; sent := []; dispatched := O |}.

(** *** The monad of the agent: state and exceptions *)

Definition M (A : Type) : Type := state -> state * result A.

Definition ret {A} (a : A) : M A := fun s => (s, Ok a).
Definition raise {A} (e : exn) : M A := fun s => (s, Raise e).
Definition bind {A B} (c : M A) (k : A -> M B) : M B :=
  fun s => match c s with
           | (s', Ok a) => k a s'
           | (s', Raise e) => (s', Raise e)
           end.
Definition lift {A} (r : result A) : M A := fun s => (s, r).
Definition get_state : M state := fun s => (s, Ok s).
Definition put_state (s' : state) : M unit := fun _ => (s', Ok tt).

Notation "'do' x <- c ; k" := (bind c (fun x => k))
  (at level 10, x name, c at level 100, k at level 200).
Notation "'do_' c ; k" := (bind c (fun _ => k))
  (at level 10, c at level 100, k at level 200).

Module Agent.

(** [_format_messages_for_ollama]; an [AIMessage] built from a text has
    no tool calls. *)
Definition format_message (m : Message) : chat :=
  match m with
  | HumanMessage c => {| chat_role := "user"; chat_content := c |}
  | AIMessage c => {| chat_role := "assistant"; chat_content := c |}
  | ToolMessage c name _ _ =>
      {| chat_role := "user";
         chat_content := "Tool result for " +:+ default "None" name +:+ ": " +:+ c |}
  end.

Definition _format_messages_for_ollama (messages : list Message) : list chat :=
  format_message <$> messages.

(** [_parse_tool_call(llm_output)]: the name and the arguments of the
    directive. *)
Definition _parse_tool_call (llm_output : string) : option (json * json) :=
  match Json.loads llm_output with
  | Ok (JObj data) =>
      match Json.obj_get "tool_call" data with
      | Some (JObj tool_call) =>
          match Json.obj_get "name" tool_call, Json.obj_get "arguments" tool_call with
          | Some name, Some arguments => Some (name, arguments)
          | _, _ => None
          end
      | _ => None
      end
  | _ => None
  end.

(** The text after the first [</think>] of [s] and the white space that
    follows it. *)
Fixpoint after_close (s : string) : option string :=
  match s with
  | EmptyString => None
  | String _ s' =>
      if Text.starts_with "</think>" s
      then Some (Text.lstrip (Text.drop 8 s))
      else after_close s'
  end.

(** [re.sub(r"<think>.*?</think>\s*", "", s, flags=re.DOTALL)]; [skip]
    characters of a match are still to be dropped. *)
Fixpoint remove_think (s : string) (skip : nat) : string :=
  match s with
  | EmptyString => EmptyString
  | String c s' =>
      match skip with
      | S k => remove_think s' k
      | O =>
          if Text.starts_with "<think>" s then
            match after_close (Text.drop 7 s) with
            | Some rest =>
                remove_think s' (Nat.pred (String.length s - String.length rest))
            | None => String c (remove_think s' O)
            end
          else String c (remove_think s' O)
      end
  end.

(** Step 3 of [_call_llm_node]: the substitution, [strip] and the literal
    [replace]. *)
Definition clean (llm_out_raw : string) : string :=
  Text.replace ("<think>.*?</think>" +:+ String Json.backslash "s*") EmptyString
    (Text.strip (remove_think llm_out_raw O)).

Definition system_message (sys_prompt : string) : chat :=
  {| chat_role := "system"; chat_content := sys_prompt |}.

(** [_call_llm_node], [generated] being what the call
    [self.ollama_client.generate(payload)] yields: the value that it
    returns or the exception that it raises.  The flag is reset and the
    request is made before the outcome is known.  [re.sub] accepts a text
    and raises [TypeError] on any other value.  The list that the node
    returns is the list that it received with one [AIMessage] appended. *)
Definition _call_llm_node (generated : result json) (messages : list Message)
  : M (list Message) :=
  fun s =>
    let temp := truthy (search_global s) in
    let sys_prompt := Prompt.construct_sys_prompt temp in
    let payload := system_message sys_prompt :: _format_messages_for_ollama messages in
    let s' := {| memory := memory s;
                 search_global := PyStr "false";
                 sent := (sent s ++ [payload])%list;
                 dispatched := dispatched s |} in
    match generated with
    | Raise e => (s', Raise e)
    | Ok (JStr llm_out_raw) =>
        let llm_out := clean llm_out_raw in
        (s', Ok (messages ++ [AIMessage llm_out])%list)
    | Ok _ => (s', Raise TypeError)
    end.

(** The node in the runs that the oracles describe: the client returns the
    text [generate o i] on the [i]-th request. *)
Definition llm_node (o : Oracles) (messages : list Message) : M (list Message) :=
  fun s => _call_llm_node (Ok (JStr (generate o (List.length (sent s))))) messages s.

(** [TOOLS.get(name)] for a name read from JSON: a list or a dictionary
    cannot be a key. *)
Definition lookup_tool (name : json) : result (option Tool) :=
  match name with
  | JStr n => Ok (TOOLS n)
  | JArr _ | JObj _ => Raise TypeError
  | _ => Ok None
  end.

(** The [name] field of a [ToolMessage], which holds a string or [None]. *)
Definition message_name (name : json) : result (option string) :=
  match name with
  | JStr n => Ok (Some n)
  | JNull => Ok None
  | _ => Raise ValidationError
  end.

(** The [try]/[except TypeError] around the two calling conventions. *)
Definition invoke_tool (o : Oracles) (i : nat) (fn : Tool) (args : json) : result string :=
  match invoke_kwargs o i fn args with
  | Raise TypeError => invoke_input o i fn args
  | r => r
  end.

Definition not_found (name : json) : string :=
  "Tool " +:+ match name with JStr n => n | _ => "None" end +:+ " not found".

Definition count_dispatch : M nat :=
  fun s => ({| memory := memory s; search_global := search_global s;
               sent := sent s; dispatched := S (dispatched s) |},
            Ok (dispatched s)).

(** The body of the branch of [_call_tool_node] that found a directive, at
    the [i]-th dispatch: the tool message or the exception that leaves the
    node. *)
Definition dispatch (o : Oracles) (i : nat) (name args : json) : result Message :=
  match lookup_tool name with
  | Raise e => Raise e
  | Ok fn =>
      match (match fn with
             | Some f => invoke_tool o i f args
             | None => Ok (not_found name)
             end) with
      | Raise e => Raise e
      | Ok res =>
          match message_name name with
          | Raise e => Raise e
          | Ok n => Ok (ToolMessage res n (uuid4 o i) args)
          end
      end
  end.

(** [_call_tool_node] *)
Definition _call_tool_node (o : Oracles) (messages : list Message) : M (list Message) :=
  match last messages with
  | None => raise IndexError
  | Some last =>
      match is_ai last, _parse_tool_call (content last) with
      | true, Some (name, args) =>
          do i <- count_dispatch;
          do tool_msg <- lift (dispatch o i name args);
          ret (messages ++ [tool_msg])%list
      | _, _ => ret messages
      end
  end.

Inductive route : Type := ToTools | ToEnd.

(** [_should_continue] *)
Definition _should_continue (messages : list Message) : result route :=
  match last messages with
  | None => Raise IndexError
  | Some (AIMessage c) =>
      match Json.loads c with
      | Ok (JObj payload) =>
          Ok (if Json.has_key "tool_call" payload then ToTools else ToEnd)
      | Ok _ => Ok ToEnd
      | Raise _ => Ok (if Text.contains "tool_call" c then ToTools else ToEnd)
      end
  | Some _ => Ok ToEnd
  end.

(** The channel [messages] of [AgentState] is declared with the reducer
    [operator.add]: the graph stores the sum of the list that it holds
    and of the list that a node returns.  A node appends to the list that
    the graph holds and returns that same list, so that both operands are
    the list as the node left it. *)
Definition reduce_messages (returned : list Message) : list Message :=
  (returned ++ returned)%list.

(** The graph of [_build_graph], entered at [llm]: [llm] is followed by
    [tools] or by the end according to [_should_continue], and [tools] by
    [llm].  [budget] is the number of node executions left.  The result
    is the list that the last [llm] node returned. *)
Fixpoint run_llm (o : Oracles) (budget : nat) (channel : list Message) : M (list Message) :=
  match budget with
  | O => raise GraphRecursionError
  | S b =>
      do returned <- llm_node o channel;
      let channel1 := reduce_messages returned in
      do next <- lift (_should_continue channel1);
      match next with
      | ToEnd => ret returned
      | ToTools =>
          match b with
          | O => raise GraphRecursionError
          | S b' =>
              do returned2 <- _call_tool_node o channel1;
              run_llm o b' (reduce_messages returned2)
          end
      end
  end.

(** The [HumanMessage]s of the stored entries whose role is [user]. *)
Fixpoint user_messages (history : list json) : result (list Message) :=
  match history with
  | [] => Ok []
  | m :: rest =>
      match m with
      | JObj fields =>
          match Json.obj_get "role" fields with
          | None => Raise KeyError
          | Some (JStr "user") =>
              match Json.obj_get "text" fields with
              | None => Raise KeyError
              | Some (JStr t) =>
                  match user_messages rest with
                  | Ok l => Ok (HumanMessage t :: l)
                  | Raise e => Raise e
                  end
              | Some _ => Raise ValidationError
              end
          | Some _ => user_messages rest
          end
      | _ => Raise TypeError
      end
  end.

(** The content of the last [AIMessage] whose content is not empty. *)
Definition last_answer (all_msgs : list Message) : option string :=
  content <$> List.find (fun m => is_ai m && Text.nonempty (content m))%bool
                        (List.rev all_msgs).

Definition set_search (search : pyval) : M unit :=
  fun s => ({| memory := memory s; search_global := search;
               sent := sent s; dispatched := dispatched s |}, Ok tt).

Definition read_history (user_id : string) : M (list json) :=
  fun s => (s, MemoryStore.get_history user_id (memory s)).

Definition remember (user_id role text : string) : M unit :=
  fun s => ({| memory := MemoryStore.add_message user_id role text (memory s);
               search_global := search_global s;
               sent := sent s; dispatched := dispatched s |}, Ok tt).

(** [handle(prompt, search, user_id)]; the result is the value of the key
    [response]. *)
Definition handle (o : Oracles) (prompt : string) (search : pyval) (user_id : string)
  : M string :=
  do_ set_search search;
  do history <- read_history user_id;
  do old <- lift (user_messages history);
  let messages := (old ++ [HumanMessage prompt])%list in
  do_ remember user_id "user" prompt;
  do all_msgs <- run_llm o (recursion_limit o) messages;
  match last_answer all_msgs with
  | None => raise (RuntimeError "Stream completed but no AIMessage with content was found.")
  | Some response =>
      do_ remember user_id "assistant" response;
      ret response
  end.

(** [get_history(user_id)] of the agent. *)
Definition get_history (user_id : string) : M (list json) := read_history user_id.

End Agent.

(** ** [tools/search.py]: the knowledge resolver *)

Module Search.

Inductive intent : Type := entity_fact | fresh | definition | general.

Definition any_in (keys : list string) (ql : string) : bool :=
  List.existsb (fun k => Text.contains k ql) keys.

(** [detect_intent(q)] *)
Definition detect_intent (q : string) : intent :=
  let ql := Text.lower q in
  if any_in ["age"; "born"; "birthdate"; "founding date"; "founded"; "founded date"] ql
  then entity_fact
  else if any_in ["latest"; "newest"; "today"; "this week"; "just released"; "video"] ql
  then fresh
  else if any_in ["what is"; "define"; "meaning of"] ql
  then definition
  else general.

(** One result of the search service: [it.get("link")] and
    [it.get("snippet")]. *)
Record item : Type := { link : option string; snippet : option string }.

Inductive cse_reply : Type :=
| CseHttpError (details : string)
| CseFails (message : string)
| CseResult (items : list item) (next_page : bool).

(** A page as [extract_text] sees it: the text that [trafilatura.extract]
    returns and the texts of the [<p>] elements. *)
Record page : Type := { trafilatura_text : option string; paragraphs : list string }.

(** What the resolver obtains from outside.

    - [wikipedia_extract q]: the field [extract] of the summary of [q]
      (empty when the field is missing), [None] when the status is not 200
      or the request fails;
    - [wikidata_time name]: the [time] of the first [P569] claim of the
      first entity found for [name], [None] when there is none or a
      request fails;
    - [cse_build]: the text of the exception when the service cannot be
      built; [cse_execute q num start dateRestrict]: one request;
    - [fetch url]: the page, [None] when the request fails. *)
Record Env : Type := {
  GOOGLE_API_KEY : option string;
  GOOGLE_CSE_ID : option string;
  today : date;
  wikipedia_extract : string -> option string;
  wikidata_time : string -> option string;
  cse_build : option string;
  cse_execute : string -> Z -> Z -> option string -> cse_reply;
  fetch : string -> option page
}.

(** [not v] for a value read from the environment. *)
Definition unset (v : option string) : bool :=
  match v with
  | Some s => negb (Text.nonempty s)
  | None => true
  end.

(** [try_wikipedia_api(q, sentences)] *)
Definition try_wikipedia_api (env : Env) (q : string) (sentences : nat)
  : option (list string) :=
  match wikipedia_extract env q with
  | Some txt => Some (List.firstn sentences (Text.split_str ". " txt))
  | None => None
  end.

(** [try_wikidata_birthdate(name)]: the characters 1 to 10 of the time. *)
Definition try_wikidata_birthdate (env : Env) (name : string) : option string :=
  match wikidata_time env name with
  | Some dob => Some (Text.take 10 (Text.drop 1 dob))
  | None => None
  end.

(** The requests of [google_cse], page after page. *)
Fixpoint cse_pages (env : Env) (query : string) (num : Z) (dateRestrict : option string)
         (pages : nat) (start : Z) (results : list item) : list item * option string :=
  match pages with
  | O => (results, None)
  | S p =>
      match cse_execute env query num start dateRestrict with
      | CseHttpError d => ([], Some ("Google API error: " +:+ d))
      | CseFails m => ([], Some ("Search failed: " +:+ m))
      | CseResult items next =>
          let results' := (results ++ items)%list in
          if next then cse_pages env query num dateRestrict p (start + num) results'
          else (results', None)
      end
  end.

Definition missing_credentials : exn :=
  RuntimeError "Missing GOOGLE_API_KEY or GOOGLE_CSE_ID".

(** [google_cse(query, num, pages, dateRestrict)] *)
Definition google_cse (env : Env) (query : string) (num : Z) (pages : nat)
           (dateRestrict : option string) : result (list item * option string) :=
  if (unset (GOOGLE_API_KEY env) || unset (GOOGLE_CSE_ID env))%bool
  then Raise missing_credentials
  else
    match cse_build env with
    | Some m => Ok ([], Some ("Search failed: " +:+ m))
    | None => Ok (cse_pages env query num dateRestrict pages 1 [])
    end.

(** [extract_text(url)] *)
Definition extract_text (env : Env) (url : string) : string :=
  match fetch env url with
  | None => EmptyString
  | Some pg =>
      let long_ps := List.filter (fun p => Nat.ltb 80 (Unicode.len p)) (paragraphs pg) in
      let scraped := Text.join (String "010" EmptyString) (List.firstn 6 long_ps) in
      match trafilatura_text pg with
      | Some txt => if Nat.ltb 300 (Unicode.len txt) then txt else scraped
      | None => scraped
      end
  end.

(** The conversion of a Python integer to a float. *)
Definition float_of_nat (n : nat) : float :=
  PrimFloat.of_uint63 (Uint63.of_Z (Z.of_nat n)).

(** The double that the literal [0.3] denotes. *)
Definition bonus_weight : float := 0x1.3333333333333p-2%float.

(** The terms of a query: the list [q_terms] of [score_passage]. *)
Definition query_terms (q : string) : list string :=
  List.filter (fun t => Nat.ltb 2 (Unicode.len t)) (Unicode.findall_words (Unicode.lower q)).

Definition mem (x : string) (l : list string) : bool :=
  List.existsb (String.eqb x) l.

Definition sum (l : list nat) : nat := List.fold_right Nat.add O l.

(** The two integers that [score_passage] adds up: the occurrences of the
    terms and the number of terms that are one of the words of the text.
    A term is a well-formed text that is not empty, and [Text.count] finds
    it in the bytes of a well-formed text where [str.count] finds it in
    the characters: no character starts with a continuation byte. *)
Definition occurrences (q text : string) : nat :=
  let t := Unicode.lower text in
  sum ((fun term => Text.count t term) <$> query_terms q).

Definition presences (q text : string) : nat :=
  let t := Unicode.lower text in
  sum ((fun term => if mem term (Unicode.split t) then 1%nat else O) <$> query_terms q).

(** [score_passage(q, text)] *)
Definition score_passage (q text : string) : float :=
  (float_of_nat (occurrences q text) + bonus_weight * float_of_nat (presences q text))%float.

(** The stable sort of [list.sort(key=..., reverse=True)]: an element is
    placed after the elements of a strictly greater key and before the
    others. *)
Fixpoint insert_desc {A} (key : A -> float) (x : A) (l : list A) : list A :=
  match l with
  | [] => [x]
  | y :: l' =>
      if (key x <? key y)%float then y :: insert_desc key x l'
      else x :: l
  end.

Definition sort_desc {A} (key : A -> float) (l : list A) : list A :=
  List.fold_right (insert_desc key) [] l.

(** The paragraphs of the documents that are kept, in the order of the
    two loops of [top_passages]. *)
Definition kept_paragraphs (docs : list string) : list string :=
  List.filter (fun para => negb (Nat.ltb (Unicode.len para) 60))
    (List.flat_map (fun doc => Unicode.strip <$> Text.split_on "010" doc) docs).

Definition scored (q : string) (docs : list string) : list (float * string) :=
  (fun para => (score_passage q para, para)) <$> kept_paragraphs docs.

(** [top_passages(q, docs, k)] *)
Definition top_passages (q : string) (docs : list string) (k : nat) : list string :=
  snd <$> List.firstn k (sort_desc fst (scored q docs)).

Definition is_word_opt (c : option ascii) : bool :=
  match c with Some a => Text.is_word a | None => false end.

Definition head (s : string) : option ascii :=
  match s with String c _ => Some c | EmptyString => None end.

(** The length of the match of [\b(current|age|years old)\b] at the head
    of [s], the character before being [prev]; case is ignored. *)
Definition match_age_word (prev : option ascii) (s : string) : option nat :=
  if is_word_opt prev then None
  else
    let try (w : string) : bool :=
      let n := String.length w in
      (String.eqb (Text.lower (Text.take n s)) w
       && negb (is_word_opt (head (Text.drop n s))))%bool in
    if try "current" then Some 7%nat
    else if try "age" then Some 3%nat
    else if try "years old" then Some 9%nat
    else None.

(** [re.sub(r"\b(current|age|years old)\b", "", s, flags=re.I)] *)
Fixpoint remove_age_words (prev : option ascii) (s : string) (skip : nat) : string :=
  match s with
  | EmptyString => EmptyString
  | String c s' =>
      match skip with
      | S k => remove_age_words (Some c) s' k
      | O =>
          match match_age_word prev s with
          | Some n => remove_age_words (Some c) s' (Nat.pred n)
          | None => String c (remove_age_words (Some c) s' O)
          end
      end
  end.

(** The dictionary that [smart_search] returns. *)
Record answer : Type := { answer_text : string; citations : list string }.

Definition or_else (a b : string) : string := if Text.nonempty a then a else b.

Definition replace_char (a b : ascii) (s : string) : string :=
  Text.replace (String a EmptyString) (String b EmptyString) s.

(** Step 1 of [smart_search]: [None] when no fast path returns. *)
Definition fast_path (env : Env) (query : string) : option (result answer) :=
  match detect_intent query with
  | entity_fact =>
      match try_wikipedia_api env query 3 with
      | Some (s :: l) =>
          Some (Ok {| answer_text := Text.join " " (s :: l);
                      citations := ["https://en.wikipedia.org/wiki/"
                                      +:+ replace_char " " "_" query] |})
      | _ =>
          if Text.contains "age" (Text.lower query) then
            let name := Text.strip (remove_age_words None query O) in
            match try_wikidata_birthdate env (or_else name query) with
            | Some dob =>
                if Text.nonempty dob then
                  Some match compute_age (today env) dob with
                       | Ok age =>
                           Ok {| answer_text :=
                                   or_else name query +:+ " is " +:+ Text.string_of_Z age
                                     +:+ " years old (born " +:+ dob +:+ ").";
                                 citations := ["https://www.wikidata.org/"] |}
                       | Raise e => Raise e
                       end
                else None
            | None => None
            end
          else None
      end
  | _ => None
  end.

(** The links of the items, without repetition and in their order. *)
Definition collect_urls (items : list item) : list string :=
  List.fold_left
    (fun urls it =>
       match link it with
       | Some l => if (Text.nonempty l && negb (mem l urls))%bool
                   then (urls ++ [l])%list else urls
       | None => urls
       end)
    items [].

Definition snippets_of (items : list item) : list string :=
  List.flat_map
    (fun it => match snippet it with
               | Some s => if Text.nonempty s then [s] else []
               | None => []
               end)
    items.

(** Steps 2 and after of [smart_search]. *)
Definition recall (env : Env) (query : string) : result answer :=
  let dateRestrict := match detect_intent query with
                      | fresh => Some "d7"
                      | _ => None
                      end in
  match google_cse env query 10 2 dateRestrict with
  | Raise e => Raise e
  | Ok (items, err) =>
      match err with
      | Some e => Ok {| answer_text := e; citations := [] |}
      | None =>
          let urls := collect_urls items in
          let texts := List.filter Text.nonempty (extract_text env <$> List.firstn 12 urls) in
          match texts with
          | [] =>
              let snippets := snippets_of items in
              Ok {| answer_text :=
                      match snippets with
                      | [] => "No useful text extracted."
                      | _ => Text.join (String "010" (String "010" EmptyString))
                                       (List.firstn 5 snippets)
                      end;
                    citations := List.firstn 3 urls |}
          | _ =>
              let passages := top_passages query texts 6 in
              let synthesis := Text.join " " (List.firstn 3 passages) in
              Ok {| answer_text := or_else synthesis "No high-relevance passages found.";
                    citations := List.firstn 3 urls |}
          end
      end
  end.

(** [smart_search(query)] *)
Definition smart_search (env : Env) (query : string) : result answer :=
  match fast_path env query with
  | Some r => r
  | None => recall env query
  end.

End Search.

(** ** Traces of store operations and sample inputs *)

(** An operation of the store, for one user. *)
Inductive store_op : Type :=
| OpAdd (user_id role text : string)
| OpClear (user_id : string).

Definition op_user (op : store_op) : string :=
  match op with
  | OpAdd u _ _ => u
  | OpClear u => u
  end.

Definition writes (u : string) (op : store_op) : bool :=
  match op with
  | OpAdd v _ _ => String.eqb v u
  | OpClear _ => false
  end.

Definition apply_op (s : MemoryStore.t) (op : store_op) : MemoryStore.t :=
  match op with
  | OpAdd u role text => MemoryStore.add_message u role text s
  | OpClear u => MemoryStore.clear_history u s
  end.

Definition apply_ops (ops : list store_op) (s : MemoryStore.t) : MemoryStore.t :=
  List.fold_left apply_op ops s.

(** The strings of ASCII characters. *)
Definition is_ascii_char (c : ascii) : bool := (N_of_ascii c <? 128)%N.

Fixpoint is_ascii (s : string) : bool :=
  match s with
  | EmptyString => true
  | String c r => is_ascii_char c && is_ascii r
  end.

(** A byte that continues a UTF-8 sequence. *)
Definition cont_byte (c : ascii) : bool := Text.between 128 191 c.

Definition second_of_three (c c1 : ascii) : bool :=
  if Ascii.eqb c "224" then Text.between 160 191 c1
  else if Ascii.eqb c "237" then Text.between 128 159 c1
  else cont_byte c1.

Definition second_of_four (c c1 : ascii) : bool :=
  if Ascii.eqb c "240" then Text.between 144 191 c1
  else if Ascii.eqb c "244" then Text.between 128 143 c1
  else cont_byte c1.

(** The well-formed UTF-8 byte strings: shortest encodings of the code points
    up to 10FFFF, the surrogates excluded.  These are the encodings of the
    Python strings. *)
Fixpoint valid_utf8 (s : string) : bool :=
  match s with
  | EmptyString => true
  | String c r =>
      if is_ascii_char c then valid_utf8 r
      else
        match r with
        | String c1 r1 =>
            if Text.between 194 223 c then cont_byte c1 && valid_utf8 r1
            else
              match r1 with
              | String c2 r2 =>
                  if Text.between 224 239 c
                  then second_of_three c c1 && cont_byte c2 && valid_utf8 r2
                  else
                    match r2 with
                    | String c3 r3 =>
                        Text.between 240 244 c && second_of_four c c1
                        && cont_byte c2 && cont_byte c3 && valid_utf8 r3
                    | EmptyString => false
                    end
              | EmptyString => false
              end
        | EmptyString => false
        end
  end.

(** A message given by its role and its text survives the serialisation of
    the Redis branch. *)
Definition round_trips (e : string * string) : Prop :=
  Json.loads (MemoryStore.dumps_entry e.1 e.2) = Ok (MemoryStore.entry e.1 e.2).

Definition codec_ok (s : MemoryStore.t) (l : list (string * string)) : Prop :=
  match s with
  | MemoryStore.InMemory _ => True
  | MemoryStore.Client _ => Forall round_trips l
  end.

(** ** Scores as numbers *)

(** A value of the float specification that is a number and is not
    negative. *)
Definition nonneg_sf (x : spec_float) : Prop :=
  match x with
  | S754_nan => False
  | S754_zero s | S754_infinity s | S754_finite s _ _ => s = false
  end.

Definition number (x : float) : Prop := nonneg_sf (Prim2SF x).

(** The place of such a value in their order: zero, the finite values by
    exponent and mantissa, infinity. *)
Definition sf_rank (x : spec_float) : Z * Z * Z :=
  match x with
  | S754_finite _ m e => (1, e, Zpos m)
  | S754_infinity _ => (2, 0, 0)
  | _ => (0, 0, 0)
  end.

Definition rank (x : float) : Z * Z * Z := sf_rank (Prim2SF x).

Definition rank_lt (a b : Z * Z * Z) : Prop :=
  a.1.1 < b.1.1 \/ (a.1.1 = b.1.1 /\ (a.1.2 < b.1.2 \/ (a.1.2 = b.1.2 /\ a.2 < b.2))).

(** ** The ranking as the specification words it

    The score of the specification: the occurrences of the query terms plus
    0.3 for every distinct term that is one of the words of the text. *)
Module SpecWords.

Fixpoint distinct (l : list string) : list string :=
  match l with
  | [] => []
  | x :: l' => x :: List.filter (fun y => negb (String.eqb x y)) (distinct l')
  end.

Definition presences (q text : string) : nat :=
  let t := Unicode.lower text in
  Search.sum ((fun term => if Search.mem term (Unicode.split t) then 1%nat else O)
                <$> distinct (Search.query_terms q)).

Definition score_passage (q text : string) : float :=
  (Search.float_of_nat (Search.occurrences q text)
   + Search.bonus_weight * Search.float_of_nat (presences q text))%float.

Definition top_passages (q : string) (docs : list string) (k : nat) : list string :=
  snd <$> List.firstn k
            (Search.sort_desc fst
               ((fun para => (score_passage q para, para)) <$> Search.kept_paragraphs docs)).

End SpecWords.

(** Whether [_should_continue] sends a turn whose last message is the
    assistant text [c] to the tool node. *)
Definition routes_to_tools (c : string) : bool :=
  match Agent._should_continue [AIMessage c] with
  | Ok Agent.ToTools => true
  | _ => false
  end.

(** The text that the [i]-th request yields once [_call_llm_node] cleaned it. *)
Definition reply (o : Oracles) (i : nat) : string := Agent.clean (generate o i).

(** The system instruction of a request. *)
Definition instruction (payload : list chat) : option string :=
  chat_content <$> List.head payload.

(** The state after [_call_llm_node]. *)
Definition after_llm (messages : list Message) (s : state) : state :=
  {| memory := memory s;
     search_global := PyStr "false";
     sent := sent s
             ++ [Agent.system_message (Prompt.construct_sys_prompt (truthy (search_global s)))
                 :: Agent._format_messages_for_ollama messages];
     dispatched := dispatched s |}.

(** The state after a dispatch was counted. *)
Definition after_dispatch (s : state) : state :=
  {| memory := memory s; search_global := search_global s;
     sent := sent s; dispatched := S (dispatched s) |}.

Module Samples.

Import Json.

(** A directive for the weather tool, as text. *)
Definition directive (arguments : string) : string :=
  "{" +:+ q "tool_call" +:+ ": {" +:+ q "name" +:+ ": " +:+ q "get_current_weather"
      +:+ ", " +:+ q "arguments" +:+ ": " +:+ arguments +:+ "}}".

Definition weather_call : string :=
  directive ("{" +:+ q "location" +:+ ": " +:+ q "Chicago, IL" +:+ "}").

Definition empty_call : string := directive "{}".

(** A sentence that only mentions the token. *)
Definition prose : string := "I could make a tool_call here.".

(** The two calling conventions of the tool framework on the inputs of
    the examples.  A call with keyword arguments that do not name [input]
    fails with [TypeError]; a call with the mapping runs the tool when the
    mapping has its parameter and fails the validation otherwise. *)
Definition kwargs_call (i : nat) (t : Tool) (args : json) : result string :=
  Raise TypeError.

Definition input_call (i : nat) (t : Tool) (args : json) : result string :=
  match t, args with
  | GetCurrentWeather, JObj f =>
      match obj_get "location" f with
      | Some (JStr l) => Ok (get_current_weather l)
      | _ => Raise ValidationError
      end
  | _, _ => Raise ValidationError
  end.

Definition oracles (model : nat -> string) : Oracles :=
  {| generate := model;
     invoke_kwargs := kwargs_call;
     invoke_input := input_call;
     uuid4 := fun _ => "00000000-0000-4000-8000-000000000000";
     recursion_limit := 25 |}.

(** A model that asks for the weather six times and then answers. *)
Definition six_calls (i : nat) : string :=
  if Nat.ltb i 6 then weather_call else "It is sunny in Chicago.".

(** A model that asks for the weather for ever. *)
Definition always_calls (i : nat) : string := weather_call.

(** A model that asks once, then answers. *)
Definition one_call (i : nat) : string :=
  if Nat.ltb i 1 then weather_call else "It is sunny in Chicago.".

(** A model that asks for the weather without a location. *)
Definition calls_without_location (i : nat) : string := empty_call.

(** A fresh agent on the in-process store. *)
Definition agent0 : state := new_agent MemoryStore.fallback.

(** A resolver without credentials and without network. *)
Definition offline : Search.Env :=
  {| Search.GOOGLE_API_KEY := None;
     Search.GOOGLE_CSE_ID := None;
     Search.today := {| year := 2025; month := 8; day := 3 |};
     Search.wikipedia_extract := fun _ => None;
     Search.wikidata_time := fun _ => None;
     Search.cse_build := None;
     Search.cse_execute := fun _ _ _ _ => Search.CseFails "unreachable";
     Search.fetch := fun _ => None |}.

(** A query that repeats a term, and two paragraphs. *)
Definition repeated_query : string := "python python python python tutorial".

Definition about_python : string :=
  "python is a programming language that many people like to learn first".

Definition about_tutorials : string :=
  "the pythonic way is described in several tutorials that are found online".

(** A line of 59 characters, one of which takes three bytes. *)
Definition curly_line : string :=
  "It’s a line of fifty-nine characters, sixty-one bytes long.".

End Samples.

(** ** The tool [search_web] of [langgraph_agent.py] *)

Module WebSearch.

(** The outcome of [wikipedia.summary]. *)
Inductive summary_outcome : Type :=
| Summary (text : string)
| DisambiguationError (options : list string)
| PageError
| SummaryRaises (e : exn).

(** The outcome of building the search service and of its request: the
    text of an exception, or the value of [res.get("items", [])]. *)
Inductive search_outcome : Type :=
| SearchRaises (text : string)
| SearchItems (items : list Search.item).

(** What the tool obtains from outside.

    - [summary title sentences auto_suggest]: the call of
      [wikipedia.summary];
    - [api_key], [cse_id]: the two variables of the environment;
    - [search query]: the request for three results;
    - [page_paragraphs link]: the texts of the [<p>] elements of the page,
      [None] when the request or the parsing raises. *)
Record Env : Type := {
  summary : string -> Z -> bool -> summary_outcome;
  api_key : option string;
  cse_id : option string;
  search : string -> search_outcome;
  page_paragraphs : string -> option (list string)
}.

(** Step 2b: the first paragraph of the page that has more than 50
    characters once stripped.  A request without a link raises, like a
    request that fails, and the item is passed. *)
Definition scraped (env : Env) (it : Search.item) : option string :=
  match Search.link it with
  | Some l =>
      match page_paragraphs env l with
      | Some ps => List.find (fun t => Nat.ltb 50 (Unicode.len t)) (Unicode.strip <$> ps)
      | None => None
      end
  | None => None
  end.

(** What one item adds to [snippets]. *)
Definition item_text (env : Env) (it : Search.item) : option string :=
  match Search.snippet it with
  | Some s => if Text.nonempty s then Some s else scraped env it
  | None => scraped env it
  end.

(** The right single quotation mark U+2019 in UTF-8. *)
Definition apostrophe : string := String "226" (String "128" (String "153" EmptyString)).

(** Step 2 of [search_web]: the fallback to the search service. *)
Definition google_fallback (env : Env) (query : string) : string :=
  if (Search.unset (api_key env) || Search.unset (cse_id env))%bool
  then "No Google API key or CSE ID configured."
  else
    match search env query with
    | SearchRaises e => "Search failed: " +:+ e
    | SearchItems [] => "No results found."
    | SearchItems items =>
        match omap (item_text env) items with
        | [] => "Found a page, but couldn" +:+ apostrophe +:+ "t extract a summary."
        | snippets => Text.join (String "010" (String "010" EmptyString)) snippets
        end
    end.

(** [search_web(query, sentences)] *)
Definition search_web (env : Env) (query : string) (sentences : Z) : result string :=
  match summary env query sentences false with
  | Summary text => Ok text
  | DisambiguationError options =>
      match options with
      | [] => Raise IndexError
      | choice :: _ =>
          match summary env choice sentences true with
          | Summary text => Ok text
          | _ => Ok (google_fallback env query)
          end
      end
  | PageError => Ok (google_fallback env query)
  | SummaryRaises e => Raise e
  end.

End WebSearch.

(** ** Notions for the further properties *)

(** The test [m["role"] == "user"] of [handle] on a value read from JSON. *)
Definition is_user (v : json) : bool :=
  match v with JStr r => String.eqb r "user" | _ => false end.

(** The latest reply that is not empty among the replies to the requests
    [start], ..., [start + k]. *)
Fixpoint latest_reply (o : Oracles) (start k : nat) : option string :=
  if Text.nonempty (reply o (start + k)) then Some (reply o (start + k))
  else match k with
       | O => None
       | S k' => latest_reply o start k'
       end.

(** The state of an agent whose flag is set to [flag]. *)
Definition with_flag (flag : pyval) (s : state) : state :=
  {| memory := memory s; search_global := flag; sent := sent s; dispatched := dispatched s |}.

(** The directive of the system prompt, for a tool name and a query written
    as JSON string literals. *)
Definition prompt_directive (name query : string) : string :=
  "{" +:+ Json.q "tool_call" +:+ ": {" +:+ Json.q "name" +:+ ": "
      +:+ Json.q (MemoryStore.escape name) +:+ ", " +:+ Json.q "arguments" +:+ ": {"
      +:+ Json.q "query" +:+ ": " +:+ Json.q (MemoryStore.escape query) +:+ "} } }".

(** The order of dates. *)
Definition date_le (a b : date) : Prop :=
  year a < year b
  \/ (year a = year b
      /\ (month a < month b \/ (month a = month b /\ day a <= day b))).

(** A resolver with another search service, and with another way to fetch
    pages. *)
Definition with_execute (f : string -> Z -> Z -> option string -> Search.cse_reply)
           (env : Search.Env) : Search.Env :=
  {| Search.GOOGLE_API_KEY := Search.GOOGLE_API_KEY env;
     Search.GOOGLE_CSE_ID := Search.GOOGLE_CSE_ID env;
     Search.today := Search.today env;
     Search.wikipedia_extract := Search.wikipedia_extract env;
     Search.wikidata_time := Search.wikidata_time env;
     Search.cse_build := Search.cse_build env;
     Search.cse_execute := f;
     Search.fetch := Search.fetch env |}.

Definition with_fetch (g : string -> option Search.page) (env : Search.Env) : Search.Env :=
  {| Search.GOOGLE_API_KEY := Search.GOOGLE_API_KEY env;
     Search.GOOGLE_CSE_ID := Search.GOOGLE_CSE_ID env;
     Search.today := Search.today env;
     Search.wikipedia_extract := Search.wikipedia_extract env;
     Search.wikidata_time := Search.wikidata_time env;
     Search.cse_build := Search.cse_build env;
     Search.cse_execute := Search.cse_execute env;
     Search.fetch := g |}.

(** The restriction by date that [smart_search] asks for. *)
Definition date_restriction (query : string) : option string :=
  match Search.detect_intent query with
  | Search.fresh => Some "d7"
  | _ => None
  end.

(** A Redis server without keys. *)
Definition empty_server : MemoryStore.redis :=
  {| MemoryStore.lists := ∅; MemoryStore.expiry := ∅ |}.

Module Cases.

Import Json.

(** A directive for the search tool. *)
Definition search_call : string :=
  "{" +:+ q "tool_call" +:+ ": {" +:+ q "name" +:+ ": " +:+ q "search_web"
      +:+ ", " +:+ q "arguments" +:+ ": {" +:+ q "query" +:+ ": " +:+ q "Purdue University"
      +:+ "}}}".

(** A model that asks for a search, then answers. *)
Definition searches_once (i : nat) : string :=
  if Nat.ltb i 1 then search_call else "Purdue University is in West Lafayette.".

(** A tool framework in which the call with keyword arguments fails with
    [TypeError] and the call with the mapping returns a text. *)
Definition search_oracles : Oracles :=
  {| generate := searches_once;
     invoke_kwargs := fun _ _ _ => Raise TypeError;
     invoke_input := fun _ _ _ => Ok "Purdue University is a public university.";
     uuid4 := fun _ => "00000000-0000-4000-8000-000000000000";
     recursion_limit := 25 |}.

(** A model that asks for the weather and then replies with its thoughts
    alone. *)
Definition call_then_silence (i : nat) : string :=
  if Nat.ltb i 1 then Samples.weather_call else "<think>I have the weather.</think>".

(** A resolver with credentials whose search service serves one page and
    then fails. *)
Definition fails_on_second_page : Search.Env :=
  {| Search.GOOGLE_API_KEY := Some "key";
     Search.GOOGLE_CSE_ID := Some "cx";
     Search.today := {| year := 2025; month := 8; day := 3 |};
     Search.wikipedia_extract := fun _ => None;
     Search.wikidata_time := fun _ => None;
     Search.cse_build := None;
     Search.cse_execute :=
       fun _ _ start _ =>
         if start =? 1
         then Search.CseResult
                [{| Search.link := Some "https://example.org/a";
                    Search.snippet := Some "A first result." |}] true
         else Search.CseHttpError "quota exceeded";
     Search.fetch := fun _ => None |}.

(** A resolver for which Wikipedia answers with an empty extract. *)
Definition empty_extract : Search.Env :=
  {| Search.GOOGLE_API_KEY := None;
     Search.GOOGLE_CSE_ID := None;
     Search.today := {| year := 2025; month := 8; day := 3 |};
     Search.wikipedia_extract := fun _ => Some EmptyString;
     Search.wikidata_time := fun _ => None;
     Search.cse_build := None;
     Search.cse_execute := fun _ _ _ _ => Search.CseFails "unreachable";
     Search.fetch := fun _ => None |}.

(** A resolver with credentials whose search service returns the same link
    twice, with snippets, and whose pages cannot be fetched. *)
Definition repeated_links : Search.Env :=
  {| Search.GOOGLE_API_KEY := Some "key";
     Search.GOOGLE_CSE_ID := Some "cx";
     Search.today := {| year := 2025; month := 8; day := 3 |};
     Search.wikipedia_extract := fun _ => None;
     Search.wikidata_time := fun _ => None;
     Search.cse_build := None;
     Search.cse_execute :=
       fun _ _ _ _ =>
         Search.CseResult
           [{| Search.link := Some "https://example.org/a";
               Search.snippet := Some "A first result." |};
            {| Search.link := Some "https://example.org/a";
               Search.snippet := Some "The same page again." |};
            {| Search.link := Some "https://example.org/b"; Search.snippet := None |}] false;
     Search.fetch := fun _ => None |}.

(** A search service that answers as the one of [repeated_links] when it is
    asked without a restriction by date, and fails otherwise. *)
Definition unrestricted_only (q : string) (num start : Z) (dateRestrict : option string)
  : Search.cse_reply :=
  match dateRestrict with
  | None => Search.cse_execute repeated_links q num start dateRestrict
  | Some _ => Search.CseFails "never asked"
  end.

(** A way to fetch pages that knows one page, which no result links to. *)
Definition one_page (url : string) : option Search.page :=
  if String.eqb url "https://example.org/elsewhere"
  then Some {| Search.trafilatura_text := None; Search.paragraphs := [] |}
  else None.


End Cases.

(** * Properties *)

(** ** The age computation *)

Lemma pair_lt_spec (a b : Z * Z) :
  pair_lt a b = true <-> a.1 < b.1 \/ (a.1 = b.1 /\ a.2 < b.2).
Proof.
  unfold pair_lt.
  rewrite orb_true_iff, andb_true_iff, !Z.ltb_lt, Z.eqb_eq. tauto.
Qed.

Lemma age_on_cases (today : date) (y m d : Z) :
  age_on today y m d =
    if pair_lt (month today, day today) (m, d)
    then year today - y - 1 else year today - y.
Proof. unfold age_on. destruct (pair_lt _ _); lia. Qed.

Lemma compute_age_fields (today : date) (dob_iso : string) (y m d : Z) :
  Text.int_of_string <$> Text.split_on "-" dob_iso = [Some y; Some m; Some d] ->
  compute_age today dob_iso = Ok (age_on today y m d).
Proof. intros H. unfold compute_age. rewrite H. reflexivity. Qed.

Lemma fields_1961 :
  Text.int_of_string <$> Text.split_on "-" "1961-08-04" = [Some 1961; Some 8; Some 4].
Proof. reflexivity. Qed.

(** C6: for a date of birth whose fields read as [y], [m], [d] and for every
    current date, [compute_age] returns [today.year - y - 1] when
    [(today.month, today.day) < (m, d)] in the order of pairs, and
    [today.year - y] otherwise; for 1961-08-04 it returns 63 on 2025-08-03
    and 64 on 2025-08-04 and on every later day of 2025. *)
Theorem compute_age_tie_break (today : date) (dob_iso : string) (y m d : Z) :
  Text.int_of_string <$> Text.split_on "-" dob_iso = [Some y; Some m; Some d] ->
  compute_age today dob_iso =
    Ok (if pair_lt (month today, day today) (m, d)
        then year today - y - 1 else year today - y)
  /\ (pair_lt (month today, day today) (m, d) = true
      <-> month today < m \/ (month today = m /\ day today < d))
  /\ compute_age {| year := 2025; month := 8; day := 3 |} "1961-08-04" = Ok 63
  /\ (forall mo da : Z,
        8 < mo \/ (mo = 8 /\ 4 <= da) ->
        compute_age {| year := 2025; month := mo; day := da |} "1961-08-04" = Ok 64).
Proof.
  intros H. split; [|split; [|split]].
  - rewrite (compute_age_fields _ _ _ _ _ H). f_equal. apply age_on_cases.
  - apply (pair_lt_spec (month today, day today) (m, d)).
  - reflexivity.
  - intros mo da Hlater.
    rewrite (compute_age_fields _ _ _ _ _ fields_1961), age_on_cases. cbn [year month day].
    destruct (pair_lt (mo, da) (8, 4)) eqn:E; [|reflexivity].
    apply pair_lt_spec in E. cbn in E. lia.
Qed.

Lemma compute_age_tie_break_witness :
  Text.int_of_string <$> Text.split_on "-" "1961-08-04" = [Some 1961; Some 8; Some 4]
  /\ compute_age {| year := 2025; month := 12; day := 31 |} "1961-08-04" = Ok 64.
Proof.
  split; [reflexivity|].
  exact (proj1 (compute_age_tie_break {| year := 2025; month := 12; day := 31 |}
                  "1961-08-04" 1961 8 4 fields_1961)).
Defined.

(** ** The decoder

    Every scanning function consumes input, and [fuel_for] is enough fuel:
    the decoder reports a malformed text, never a lack of fuel. *)

Section DecoderFacts.

Import Json.
Local Open Scope nat_scope.

Lemma skip_ws_length (s : string) : String.length (skip_ws s) <= String.length s.
Proof.
  induction s as [|c s IH]; cbn; [lia|].
  destruct (is_json_space c); cbn; lia.
Qed.

Lemma prepend_some (p : string) (o : option (string * string)) (x r : string) :
  prepend p o = Some (x, r) -> exists x', o = Some (x', r).
Proof.
  destruct o as [[x' r']|]; cbn; [|discriminate].
  intros H. injection H as _ <-. eauto.
Qed.

Lemma scanstring_length_aux (n : nat) :
  forall s x r, String.length s <= n -> scanstring s = Some (x, r) -> String.length r < String.length s.
Proof.
  induction n as [|n IH]; intros s x r Hn H.
  - destruct s; [discriminate H|cbn in Hn; lia].
  - destruct s as [|c s]; [discriminate H|]. cbn [scanstring] in H. cbn [String.length] in *.
    destruct (Ascii.eqb c dquote).
    { injection H as _ <-. lia. }
    destruct (Ascii.eqb c backslash).
    + destruct s as [|e r1]; [discriminate H|]. cbn [String.length] in *.
      destruct (Ascii.eqb e "u").
      * destruct r1 as [|h1 [|h2 [|h3 [|h4 r2]]]]; try discriminate H.
        cbn [String.length] in *.
        destruct (hex4 h1 h2 h3 h4) as [hi|]; [|discriminate H].
        destruct (if is_high_surrogate hi then low_half r2 else None) as [lo|].
        -- destruct r2 as [|a1 [|a2 [|a3 [|a4 [|a5 [|a6 r3]]]]]];
             try (apply prepend_some in H as [x' H]; apply IH in H; cbn [String.length] in *; lia).
        -- apply prepend_some in H as [x' H]. apply IH in H; lia.
      * destruct (simple_escape e); [|discriminate H].
        apply prepend_some in H as [x' H]. apply IH in H; lia.
    + destruct (Nat.ltb (Text.code c) 32); [discriminate H|].
      apply prepend_some in H as [x' H]. apply IH in H; lia.
Qed.

Lemma scanstring_length (s x r : string) : scanstring s = Some (x, r) -> String.length r < String.length s.
Proof. apply (scanstring_length_aux (String.length s)). lia. Qed.

Lemma span_digits_length (s : string) : String.length (span_digits s).2 <= String.length s.
Proof.
  induction s as [|c s IH]; cbn; [lia|].
  destruct (Text.is_digit c); [|cbn; lia].
  destruct (span_digits s) as [d r]. cbn in *. lia.
Qed.

Lemma drop_length (n : nat) (s : string) : String.length (Text.drop n s) = String.length s - n.
Proof.
  revert s. induction n as [|n IH]; intros s; cbn; [lia|].
  destruct s as [|c s]; cbn; [reflexivity|]. apply IH.
Qed.

Lemma keyword_length (k : string) (v v' : json) (s r : string) :
  0 < String.length k -> 0 < String.length s -> keyword k v s = Some (v', r) -> String.length r < String.length s.
Proof.
  unfold keyword. intros Hk Hs. destruct (Text.starts_with k s); [|discriminate].
  intros H. injection H as _ <-. rewrite drop_length. lia.
Qed.

Lemma scan_frac_length (s : string) : String.length (scan_frac s).2 <= String.length s.
Proof.
  unfold scan_frac. destruct s as [|c s]; [cbn; lia|].
  destruct (Ascii.eqb c "."); [|cbn; lia].
  pose proof (span_digits_length s) as H.
  destruct (span_digits s) as [[|d0 d] r]; cbn in *; lia.
Qed.

Lemma scan_exp_length (s : string) : String.length (scan_exp s).2 <= String.length s.
Proof.
  unfold scan_exp. destruct s as [|e s]; [cbn; lia|].
  destruct (Ascii.eqb e "e" || Ascii.eqb e "E")%bool; [|cbn; lia].
  destruct s as [|sg s]; [cbn; lia|].
  destruct (Ascii.eqb sg "-" || Ascii.eqb sg "+")%bool.
  - pose proof (span_digits_length s) as H.
    destruct (span_digits s) as [[|d0 d] r]; cbn in *; lia.
  - pose proof (span_digits_length (String sg s)) as H.
    destruct (span_digits (String sg s)) as [[|d0 d] r]; cbn in *; lia.
Qed.

Lemma scan_int_length (s i r : string) : scan_int s = Some (i, r) -> String.length r < String.length s.
Proof.
  unfold scan_int. destruct s as [|c s]; [discriminate|].
  destruct (Ascii.eqb c "0").
  - intros H. injection H as _ <-. cbn. lia.
  - destruct (Text.is_digit c); [|discriminate].
    pose proof (span_digits_length s) as Hs.
    destruct (span_digits s) as [d r']. intros H. injection H as _ <-. cbn in *. lia.
Qed.

Lemma scan_number_length (s lex r : string) : scan_number s = Some (lex, r) -> String.length r < String.length s.
Proof.
  unfold scan_number.
  set (cut := match s with
              | String c s' =>
                  if Ascii.eqb c "-" then (String c EmptyString, s') else (EmptyString, s)
              | EmptyString => (EmptyString, s)
              end).
  assert (Hcut : String.length cut.2 <= String.length s).
  { subst cut. destruct s as [|c s']; [cbn; lia|]. destruct (Ascii.eqb c "-"); cbn; lia. }
  destruct cut as [sign s1]. cbn [snd] in Hcut.
  destruct (scan_int s1) as [[i s2]|] eqn:Ei; [|discriminate].
  apply scan_int_length in Ei.
  pose proof (scan_frac_length s2) as Hf. destruct (scan_frac s2) as [f s3]. cbn [snd] in Hf.
  pose proof (scan_exp_length s3) as He. destruct (scan_exp s3) as [e s4]. cbn [snd] in He.
  intros H. injection H as _ <-. lia.
Qed.

Lemma first_of_length (attempts : list (string -> option (json * string))) (s : string) :
  Forall (fun f => forall v r, f s = Some (v, r) -> String.length r < String.length s) attempts ->
  first_of attempts s <> OutOfFuel
  /\ forall v r, first_of attempts s = Scanned v r -> String.length r < String.length s.
Proof.
  induction 1 as [|f rest Hf _ IH]; cbn.
  - split; [discriminate|]. intros v r H. discriminate H.
  - destruct (f s) as [[v0 r0]|] eqn:E; [|exact IH].
    split; [discriminate|]. intros v r H. injection H as <- <-. apply (Hf v0 r0 eq_refl).
Qed.

Lemma scan_atom_length (s : string) :
  scan_atom s <> OutOfFuel /\ forall v r, scan_atom s = Scanned v r -> String.length r < String.length s.
Proof.
  unfold scan_atom. apply first_of_length.
  assert (Hk : forall k v0 v r, 0 < String.length k -> keyword k v0 s = Some (v, r) -> String.length r < String.length s).
  { intros k v0 v r Hk H. destruct s as [|c s'].
    - unfold keyword in H. destruct k; [cbn in Hk; lia|discriminate H].
    - eapply keyword_length; [exact Hk|cbn; lia|exact H]. }
  repeat constructor; try (intros v r; apply Hk; cbn; lia).
  intros v r H. unfold scan_num in H.
  destruct (scan_number s) as [[lex r']|] eqn:E; [|discriminate H].
  injection H as _ <-. eapply scan_number_length, E.
Qed.

Lemma scan_fuel (fuel : nat) :
  (forall s, 2 * String.length s + 1 <= fuel -> scan_once fuel s <> OutOfFuel)
  /\ (forall s v r, scan_once fuel s = Scanned v r -> String.length r < String.length s)
  /\ (forall s acc, 2 * String.length s + 2 <= fuel -> scan_members fuel s acc <> OutOfFuel)
  /\ (forall s acc v r, scan_members fuel s acc = Scanned v r -> String.length r < String.length s)
  /\ (forall s acc, 2 * String.length s + 2 <= fuel -> scan_items fuel s acc <> OutOfFuel)
  /\ (forall s acc v r, scan_items fuel s acc = Scanned v r -> String.length r < String.length s).
Proof.
  induction fuel as [|f (IH1 & IH2 & IH3 & IH4 & IH5 & IH6)].
  { repeat split; intros; try lia; discriminate. }
  assert (Hsk := skip_ws_length).
  repeat split.
  - (* scan_once never runs out *)
    intros s Hf. cbn [scan_once]. destruct s as [|c r]; [discriminate|].
    cbn [String.length] in Hf.
    destruct (Ascii.eqb c dquote).
    { destruct (scanstring r) as [[str r']|]; discriminate. }
    destruct (Ascii.eqb c "{").
    { pose proof (Hsk r). destruct (skip_ws r) as [|c' r']; [discriminate|].
      cbn [String.length] in *.
      destruct (Ascii.eqb c' "}"); [discriminate|].
      destruct (Ascii.eqb c' dquote); [|discriminate]. apply IH3. lia. }
    destruct (Ascii.eqb c "[").
    { pose proof (Hsk r). destruct (skip_ws r) as [|c' r'].
      - apply IH5. cbn. lia.
      - cbn [String.length] in *. destruct (Ascii.eqb c' "]"); [discriminate|].
        apply IH5. cbn [String.length]. lia. }
    apply scan_atom_length.
  - (* scan_once consumes *)
    intros s v r. cbn [scan_once]. destruct s as [|c r0]; [discriminate|].
    cbn [String.length].
    destruct (Ascii.eqb c dquote).
    { destruct (scanstring r0) as [[str r']|] eqn:E; [|discriminate].
      intros H. injection H as _ <-. apply scanstring_length in E. lia. }
    destruct (Ascii.eqb c "{").
    { pose proof (Hsk r0). destruct (skip_ws r0) as [|c' r']; [discriminate|].
      cbn [String.length] in *.
      destruct (Ascii.eqb c' "}"); [intros H'; injection H' as _ <-; lia|].
      destruct (Ascii.eqb c' dquote); [|discriminate].
      intros H'. apply IH4 in H'. lia. }
    destruct (Ascii.eqb c "[").
    { pose proof (Hsk r0). destruct (skip_ws r0) as [|c' r'].
      - intros H'. apply IH6 in H'. cbn in H'. lia.
      - cbn [String.length] in *.
        destruct (Ascii.eqb c' "]"); [intros H'; injection H' as _ <-; lia|].
        intros H'. apply IH6 in H'. cbn [String.length] in H'. lia. }
    intros H'. apply scan_atom_length in H'. exact H'.
  - (* scan_members never runs out *)
    intros s acc Hf. cbn [scan_members].
    destruct (scanstring s) as [[key r]|] eqn:Ek; [|discriminate].
    apply scanstring_length in Ek.
    pose proof (Hsk r). destruct (skip_ws r) as [|colon r1]; [discriminate|].
    cbn [String.length] in *.
    destruct (Ascii.eqb colon ":"); [|discriminate].
    pose proof (Hsk r1).
    pose proof (IH1 (skip_ws r1) ltac:(lia)) as Hv.
    destruct (scan_once f (skip_ws r1)) as [v r2| |] eqn:Ev; [|discriminate|congruence].
    apply IH2 in Ev.
    pose proof (Hsk r2). destruct (skip_ws r2) as [|c r3]; [discriminate|].
    cbn [String.length] in *.
    destruct (Ascii.eqb c "}"); [discriminate|].
    destruct (Ascii.eqb c ","); [|discriminate].
    pose proof (Hsk r3). destruct (skip_ws r3) as [|c' r4]; [discriminate|].
    cbn [String.length] in *.
    destruct (Ascii.eqb c' dquote); [|discriminate]. apply IH3. lia.
  - (* scan_members consumes *)
    intros s acc v r. cbn [scan_members].
    destruct (scanstring s) as [[key r0]|] eqn:Ek; [|discriminate].
    apply scanstring_length in Ek.
    pose proof (Hsk r0). destruct (skip_ws r0) as [|colon r1]; [discriminate|].
    cbn [String.length] in *.
    destruct (Ascii.eqb colon ":"); [|discriminate].
    pose proof (Hsk r1).
    destruct (scan_once f (skip_ws r1)) as [v2 r2| |] eqn:Ev; [|discriminate|discriminate].
    apply IH2 in Ev.
    pose proof (Hsk r2). destruct (skip_ws r2) as [|c r3]; [discriminate|].
    cbn [String.length] in *.
    destruct (Ascii.eqb c "}"); [intros H'; injection H' as _ <-; lia|].
    destruct (Ascii.eqb c ","); [|discriminate].
    pose proof (Hsk r3). destruct (skip_ws r3) as [|c' r4]; [discriminate|].
    cbn [String.length] in *.
    destruct (Ascii.eqb c' dquote); [|discriminate].
    intros H'. apply IH4 in H'. lia.
  - (* scan_items never runs out *)
    intros s acc Hf. cbn [scan_items].
    pose proof (IH1 s ltac:(lia)) as Hv.
    destruct (scan_once f s) as [v r| |] eqn:Ev; [|discriminate|congruence].
    apply IH2 in Ev.
    pose proof (Hsk r). destruct (skip_ws r) as [|c r1]; [discriminate|].
    cbn [String.length] in *.
    destruct (Ascii.eqb c "]"); [discriminate|].
    destruct (Ascii.eqb c ","); [|discriminate].
    pose proof (Hsk r1). apply IH5. lia.
  - (* scan_items consumes *)
    intros s acc v r. cbn [scan_items].
    destruct (scan_once f s) as [v0 r0| |] eqn:Ev; [|discriminate|discriminate].
    apply IH2 in Ev.
    pose proof (Hsk r0). destruct (skip_ws r0) as [|c r1]; [discriminate|].
    cbn [String.length] in *.
    destruct (Ascii.eqb c "]"); [intros H'; injection H' as _ <-; lia|].
    destruct (Ascii.eqb c ","); [|discriminate].
    pose proof (Hsk r1). intros H'. apply IH6 in H'. lia.
Qed.

(** The decoder never stops for lack of fuel. *)
Lemma loads_fuel (s : string) : scan_once (fuel_for s) s <> OutOfFuel.
Proof. apply scan_fuel. unfold fuel_for. lia. Qed.

End DecoderFacts.

(** ** Serialisation of the entries on the Redis branch *)

Lemma escape_char_scan (c : ascii) (rest : string) :
  is_ascii_char c = true ->
  Json.scanstring (MemoryStore.escape_char c +:+ rest)
  = Json.prepend (String c EmptyString) (Json.scanstring rest).
Proof.
  destruct c as [[] [] [] [] [] [] [] []]; intros H; try discriminate H; reflexivity.
Qed.

Lemma append_cons (x : ascii) (a b : string) : String x a +:+ b = String x (a +:+ b).
Proof. reflexivity. Qed.

Lemma append_assoc (a b c : string) : (a +:+ b) +:+ c = a +:+ (b +:+ c).
Proof.
  induction a as [|x a IH]; [reflexivity|].
  rewrite !append_cons. f_equal. exact IH.
Qed.

Lemma div_mod_unique (a b q r : N) :
  (r < b)%N -> a = (b * q + r)%N -> (a / b)%N = q /\ (a mod b)%N = r.
Proof.
  intros Hr Ha. split.
  - symmetry. apply (N.div_unique a b q r Hr Ha).
  - symmetry. apply (N.mod_unique a b q r Hr Ha).
Qed.

Lemma between_N (lo hi : nat) (c : ascii) :
  Text.between lo hi c = true <-> (N.of_nat lo <= N_of_ascii c <= N.of_nat hi)%N.
Proof.
  unfold Text.between, Text.code. rewrite andb_true_iff, !Nat.leb_le.
  unfold nat_of_ascii. lia.
Qed.

Lemma hex_val_digit (d : N) : (d < 16)%N -> Json.hex_val (MemoryStore.hex_digit d) = Some d.
Proof.
  intros H.
  assert (Hd : In d [0;1;2;3;4;5;6;7;8;9;10;11;12;13;14;15]%N).
  { cbn. lia. }
  cbn in Hd. repeat destruct Hd as [<-|Hd]; try reflexivity. contradiction.
Qed.

Lemma hex4_digits (cp : N) : (cp < 65536)%N ->
  Json.hex4 (MemoryStore.hex_digit (cp / 4096)) (MemoryStore.hex_digit ((cp / 256) mod 16))
            (MemoryStore.hex_digit ((cp / 16) mod 16)) (MemoryStore.hex_digit (cp mod 16))
  = Some cp.
Proof.
  intros H.
  destruct (div_mod_unique cp 16 (cp / 16) (cp mod 16)) as [_ _];
    [apply N.mod_lt; lia|apply N.div_mod'|].
  pose proof (N.div_mod' cp 16) as E0. pose proof (N.mod_lt cp 16 ltac:(lia)) as L0.
  pose proof (N.div_mod' (cp / 16) 16) as E1. pose proof (N.mod_lt (cp / 16) 16 ltac:(lia)) as L1.
  pose proof (N.div_mod' (cp / 16 / 16) 16) as E2.
  pose proof (N.mod_lt (cp / 16 / 16) 16 ltac:(lia)) as L2.
  assert (H256 : (cp / 256 = cp / 16 / 16)%N) by (rewrite N.Div0.div_div by lia; reflexivity).
  assert (H4096 : (cp / 4096 = cp / 16 / 16 / 16)%N) by (rewrite !N.Div0.div_div by lia; reflexivity).
  assert (Hq : (cp / 16 / 16 / 16 < 16)%N).
  { apply N.Div0.div_lt_upper_bound. apply N.Div0.div_lt_upper_bound.
    apply N.Div0.div_lt_upper_bound. lia. }
  unfold Json.hex4. rewrite H256, H4096.
  rewrite !hex_val_digit by assumption. f_equal.
  pose proof (N.div_mod' (cp / 16 / 16 / 16) 16) as E3.
  rewrite (N.mod_small _ _ Hq) in E3. lia.
Qed.

Lemma eqb_N (c : ascii) (k : N) :
  (k < 256)%N -> Ascii.eqb c (ascii_of_N k) = true <-> N_of_ascii c = k.
Proof.
  intros Hk. rewrite Ascii.eqb_eq. split.
  - intros ->. apply N_ascii_embedding. exact Hk.
  - intros <-. symmetry. apply ascii_N_embedding.
Qed.

(** One escape of a code point that is not the high half of a pair. *)
Lemma scan_u_escape (cp : N) (R : string) :
  (cp < 65536)%N -> Json.is_high_surrogate cp = false ->
  Json.scanstring (MemoryStore.u_escape cp +:+ R)
  = Json.prepend (Json.utf8 cp) (Json.scanstring R).
Proof.
  intros Hcp Hs. unfold MemoryStore.u_escape. rewrite !append_cons.
  change (EmptyString +:+ R) with R.
  cbn [Json.scanstring]. change (Ascii.eqb Json.backslash Json.dquote) with false.
  change (Ascii.eqb Json.backslash Json.backslash) with true.
  change (Ascii.eqb "u" "u") with true. cbv iota.
  rewrite (hex4_digits cp Hcp), Hs. reflexivity.
Qed.

Lemma low_half_u_escape (lo : N) (R : string) :
  (lo < 65536)%N -> Json.is_low_surrogate lo = true ->
  Json.low_half (MemoryStore.u_escape lo +:+ R) = Some lo.
Proof.
  intros Hlo Hs. unfold MemoryStore.u_escape. rewrite !append_cons.
  unfold Json.low_half.
  change (Ascii.eqb Json.backslash Json.backslash && Ascii.eqb "u" "u") with true. cbv iota.
  rewrite (hex4_digits lo Hlo), Hs. reflexivity.
Qed.

(** The two escapes of a surrogate pair. *)
Lemma scan_pair (hi lo : N) (R : string) :
  (hi < 65536)%N -> (lo < 65536)%N ->
  Json.is_high_surrogate hi = true -> Json.is_low_surrogate lo = true ->
  Json.scanstring (MemoryStore.u_escape hi +:+ MemoryStore.u_escape lo +:+ R)
  = Json.prepend (Json.utf8 (65536 + (hi - 55296) * 1024 + (lo - 56320)))
                 (Json.scanstring R).
Proof.
  intros Hhi Hlo Hh Hl.
  pose proof (low_half_u_escape lo R Hlo Hl) as Hlow.
  unfold MemoryStore.u_escape at 1. rewrite !append_cons.
  change (EmptyString +:+ ?x) with x.
  cbn [Json.scanstring]. change (Ascii.eqb Json.backslash Json.dquote) with false.
  change (Ascii.eqb Json.backslash Json.backslash) with true.
  change (Ascii.eqb "u" "u") with true. cbv iota.
  rewrite (hex4_digits hi Hhi), Hh, Hlow.
  unfold MemoryStore.u_escape. rewrite !append_cons. reflexivity.
Qed.

Lemma byte_code (c : ascii) : Json.byte (N_of_ascii c) = c.
Proof. apply ascii_N_embedding. Qed.

Lemma utf8_two (n x1 : N) :
  (194 <= n <= 223)%N -> (x1 < 64)%N ->
  Json.utf8 ((n - 192) * 64 + x1)
  = String (Json.byte n) (String (Json.byte (128 + x1)) EmptyString).
Proof.
  intros Hn Hx. unfold Json.utf8.
  set (cp := ((n - 192) * 64 + x1)%N).
  destruct (div_mod_unique cp 64 (n - 192) x1 Hx ltac:(subst cp; lia)) as [Hd Hm].
  replace (cp <? 128)%N with false by (symmetry; apply N.ltb_ge; subst cp; lia).
  replace (cp <? 2048)%N with true by (symmetry; apply N.ltb_lt; subst cp; lia).
  rewrite Hd, Hm. repeat f_equal. lia.
Qed.

Lemma utf8_three (n x1 x2 : N) :
  (224 <= n <= 239)%N -> (x1 < 64)%N -> (x2 < 64)%N ->
  (2048 <= ((n - 224) * 64 + x1) * 64 + x2)%N ->
  Json.utf8 (((n - 224) * 64 + x1) * 64 + x2)
  = String (Json.byte n)
      (String (Json.byte (128 + x1)) (String (Json.byte (128 + x2)) EmptyString)).
Proof.
  intros Hn Hx1 Hx2 Hlow. unfold Json.utf8.
  set (cp := (((n - 224) * 64 + x1) * 64 + x2)%N) in *.
  destruct (div_mod_unique cp 64 ((n - 224) * 64 + x1) x2 Hx2 ltac:(subst cp; lia)) as [Hd Hm].
  destruct (div_mod_unique ((n - 224) * 64 + x1) 64 (n - 224) x1 Hx1 ltac:(lia)) as [Hd1 Hm1].
  destruct (div_mod_unique cp 4096 (n - 224) (x1 * 64 + x2) ltac:(lia) ltac:(subst cp; lia))
    as [Hd2 _].
  replace (cp <? 128)%N with false by (symmetry; apply N.ltb_ge; lia).
  replace (cp <? 2048)%N with false by (symmetry; apply N.ltb_ge; lia).
  replace (cp <? 65536)%N with true by (symmetry; apply N.ltb_lt; subst cp; lia).
  rewrite Hd, Hm, Hm1, Hd2. repeat f_equal. lia.
Qed.

Lemma utf8_four (n x1 x2 x3 : N) :
  (240 <= n <= 244)%N -> (x1 < 64)%N -> (x2 < 64)%N -> (x3 < 64)%N ->
  (65536 <= (((n - 240) * 64 + x1) * 64 + x2) * 64 + x3)%N ->
  Json.utf8 ((((n - 240) * 64 + x1) * 64 + x2) * 64 + x3)
  = String (Json.byte n)
      (String (Json.byte (128 + x1))
         (String (Json.byte (128 + x2)) (String (Json.byte (128 + x3)) EmptyString))).
Proof.
  intros Hn Hx1 Hx2 Hx3 Hlow. unfold Json.utf8.
  set (cp := ((((n - 240) * 64 + x1) * 64 + x2) * 64 + x3)%N) in *.
  destruct (div_mod_unique cp 64 (((n - 240) * 64 + x1) * 64 + x2) x3 Hx3
              ltac:(subst cp; lia)) as [Hd Hm].
  destruct (div_mod_unique (((n - 240) * 64 + x1) * 64 + x2) 64 ((n - 240) * 64 + x1) x2 Hx2
              ltac:(lia)) as [_ Hm1].
  destruct (div_mod_unique cp 4096 ((n - 240) * 64 + x1) (x2 * 64 + x3) ltac:(lia)
              ltac:(subst cp; lia)) as [Hd2 _].
  destruct (div_mod_unique ((n - 240) * 64 + x1) 64 (n - 240) x1 Hx1 ltac:(lia)) as [_ Hm2].
  destruct (div_mod_unique cp 262144 (n - 240) ((x1 * 64 + x2) * 64 + x3) ltac:(lia)
              ltac:(subst cp; lia)) as [Hd3 _].
  replace (cp <? 128)%N with false by (symmetry; apply N.ltb_ge; lia).
  replace (cp <? 2048)%N with false by (symmetry; apply N.ltb_ge; lia).
  replace (cp <? 65536)%N with false by (symmetry; apply N.ltb_ge; lia).
  rewrite Hd, Hm, Hm1, Hd2, Hm2, Hd3. repeat f_equal. lia.
Qed.

Lemma cont_some (c : ascii) :
  cont_byte c = true ->
  MemoryStore.cont c = Some (N_of_ascii c - 128)%N
  /\ (128 <= N_of_ascii c <= 191)%N.
Proof.
  unfold cont_byte, MemoryStore.cont. intros H. rewrite H. split; [reflexivity|].
  apply between_N in H. cbn in H. lia.
Qed.

(** The escapes of one character of two, three and four bytes. *)
Lemma scan_two (c c1 : ascii) (R : string) :
  Text.between 194 223 c = true -> cont_byte c1 = true ->
  Json.scanstring
    (MemoryStore.escape_code_point ((N_of_ascii c - 192) * 64 + (N_of_ascii c1 - 128)) +:+ R)
  = Json.prepend (String c (String c1 EmptyString)) (Json.scanstring R).
Proof.
  intros Hc Hc1. apply between_N in Hc. cbn in Hc.
  apply cont_some in Hc1 as [_ Hc1].
  set (n := N_of_ascii c) in *. set (x1 := (N_of_ascii c1 - 128)%N).
  assert (Hx1 : (x1 < 64)%N) by (subst x1; lia).
  unfold MemoryStore.escape_code_point.
  replace (_ <? 65536)%N with true by (symmetry; apply N.ltb_lt; lia).
  rewrite scan_u_escape.
  - rewrite utf8_two by lia. subst n x1.
    replace (128 + (N_of_ascii c1 - 128))%N with (N_of_ascii c1) by lia.
    rewrite !byte_code. reflexivity.
  - lia.
  - unfold Json.is_high_surrogate. apply andb_false_iff. left. apply N.leb_gt. lia.
Qed.

Lemma scan_three (c c1 c2 : ascii) (R : string) :
  Text.between 224 239 c = true -> second_of_three c c1 = true -> cont_byte c2 = true ->
  Json.scanstring
    (MemoryStore.escape_code_point
       (((N_of_ascii c - 224) * 64 + (N_of_ascii c1 - 128)) * 64 + (N_of_ascii c2 - 128)) +:+ R)
  = Json.prepend (String c (String c1 (String c2 EmptyString))) (Json.scanstring R).
Proof.
  intros Hc Hc1 Hc2. apply between_N in Hc. cbn in Hc.
  apply cont_some in Hc2 as [_ Hc2].
  assert (H1 : (128 <= N_of_ascii c1 <= 191)%N
               /\ (N_of_ascii c = 224 -> 160 <= N_of_ascii c1)%N
               /\ (N_of_ascii c = 237 -> N_of_ascii c1 <= 159)%N).
  { unfold second_of_three in Hc1.
    destruct (Ascii.eqb c "224") eqn:E1.
    - apply (eqb_N c 224) in E1; [|lia]. apply between_N in Hc1. cbn in Hc1. lia.
    - destruct (Ascii.eqb c "237") eqn:E2.
      + apply (eqb_N c 237) in E2; [|lia]. apply between_N in Hc1. cbn in Hc1. lia.
      + apply cont_some in Hc1 as [_ Hc1].
        assert (N_of_ascii c <> 224%N).
        { intros E. apply (eqb_N c 224) in E; [|lia]. cbn in E. congruence. }
        assert (N_of_ascii c <> 237%N).
        { intros E. apply (eqb_N c 237) in E; [|lia]. cbn in E. congruence. }
        lia. }
  destruct H1 as (Hr1 & Hlo & Hsur).
  set (n := N_of_ascii c) in *.
  set (x1 := (N_of_ascii c1 - 128)%N). set (x2 := (N_of_ascii c2 - 128)%N).
  assert (Hx1 : (x1 < 64)%N) by (subst x1; lia).
  assert (Hx2 : (x2 < 64)%N) by (subst x2; lia).
  assert (Hmin : (2048 <= ((n - 224) * 64 + x1) * 64 + x2)%N) by (subst x1; lia).
  unfold MemoryStore.escape_code_point.
  replace (_ <? 65536)%N with true by (symmetry; apply N.ltb_lt; lia).
  rewrite scan_u_escape.
  - rewrite utf8_three by lia. subst n x1 x2.
    replace (128 + (N_of_ascii c1 - 128))%N with (N_of_ascii c1) by lia.
    replace (128 + (N_of_ascii c2 - 128))%N with (N_of_ascii c2) by lia.
    rewrite !byte_code. reflexivity.
  - lia.
  - unfold Json.is_high_surrogate. apply andb_false_iff.
    destruct (N.le_gt_cases 237%N n) as [Hge|Hlt].
    + destruct (N.eq_dec n 237%N) as [E|E].
      * left. apply N.leb_gt. specialize (Hsur E). subst x1. lia.
      * right. apply N.leb_gt. lia.
    + left. apply N.leb_gt. lia.
Qed.

Lemma scan_four (c c1 c2 c3 : ascii) (R : string) :
  Text.between 240 244 c = true -> second_of_four c c1 = true ->
  cont_byte c2 = true -> cont_byte c3 = true ->
  Json.scanstring
    (MemoryStore.escape_code_point
       ((((N_of_ascii c - 240) * 64 + (N_of_ascii c1 - 128)) * 64 + (N_of_ascii c2 - 128)) * 64
        + (N_of_ascii c3 - 128)) +:+ R)
  = Json.prepend (String c (String c1 (String c2 (String c3 EmptyString)))) (Json.scanstring R).
Proof.
  intros Hc Hc1 Hc2 Hc3. apply between_N in Hc. cbn in Hc.
  apply cont_some in Hc2 as [_ Hc2]. apply cont_some in Hc3 as [_ Hc3].
  assert (H1 : (128 <= N_of_ascii c1 <= 191)%N
               /\ (N_of_ascii c = 240 -> 144 <= N_of_ascii c1)%N
               /\ (N_of_ascii c = 244 -> N_of_ascii c1 <= 143)%N).
  { unfold second_of_four in Hc1.
    destruct (Ascii.eqb c "240") eqn:E1.
    - apply (eqb_N c 240) in E1; [|lia]. apply between_N in Hc1. cbn in Hc1. lia.
    - destruct (Ascii.eqb c "244") eqn:E2.
      + apply (eqb_N c 244) in E2; [|lia]. apply between_N in Hc1. cbn in Hc1. lia.
      + apply cont_some in Hc1 as [_ Hc1].
        assert (N_of_ascii c <> 240%N).
        { intros E. apply (eqb_N c 240) in E; [|lia]. cbn in E. congruence. }
        assert (N_of_ascii c <> 244%N).
        { intros E. apply (eqb_N c 244) in E; [|lia]. cbn in E. congruence. }
        lia. }
  destruct H1 as (Hr1 & Hlo & Hhi).
  set (n := N_of_ascii c) in *.
  set (x1 := (N_of_ascii c1 - 128)%N). set (x2 := (N_of_ascii c2 - 128)%N).
  set (x3 := (N_of_ascii c3 - 128)%N).
  assert (Hx1 : (x1 < 64)%N) by (subst x1; lia).
  assert (Hx2 : (x2 < 64)%N) by (subst x2; lia).
  assert (Hx3 : (x3 < 64)%N) by (subst x3; lia).
  set (cp := ((((n - 240) * 64 + x1) * 64 + x2) * 64 + x3)%N).
  assert (Hmin : (65536 <= cp)%N) by (subst cp x1; lia).
  assert (Hmax : (cp < 1114112)%N) by (subst cp x1; lia).
  unfold MemoryStore.escape_code_point.
  replace (cp <? 65536)%N with false by (symmetry; apply N.ltb_ge; lia).
  cbv zeta.
  pose proof (N.div_mod' (cp - 65536) 1024) as Ev.
  pose proof (N.mod_lt (cp - 65536) 1024 ltac:(lia)) as Lv.
  assert (Lq : ((cp - 65536) / 1024 < 1024)%N)
    by (apply N.Div0.div_lt_upper_bound; lia).
  rewrite append_assoc, scan_pair.
  2-5: clear -Ev Lv Lq Hmin Hmax; clearbody cp;
       generalize dependent ((cp - 65536) / 1024)%N;
       generalize dependent ((cp - 65536) mod 1024)%N; intros.
  - replace (65536 + (55296 + (cp - 65536) / 1024 - 55296) * 1024
             + (56320 + (cp - 65536) mod 1024 - 56320))%N with cp.
    2:{ clear -Ev Lv Lq Hmin. clearbody cp.
        generalize dependent ((cp - 65536) / 1024)%N.
        generalize dependent ((cp - 65536) mod 1024)%N. intros. lia. }
    subst cp. rewrite utf8_four by (try lia; exact Hmin). subst n x1 x2 x3.
    replace (128 + (N_of_ascii c1 - 128))%N with (N_of_ascii c1) by lia.
    replace (128 + (N_of_ascii c2 - 128))%N with (N_of_ascii c2) by lia.
    replace (128 + (N_of_ascii c3 - 128))%N with (N_of_ascii c3) by lia.
    rewrite !byte_code. reflexivity.
  - lia.
  - lia.
  - unfold Json.is_high_surrogate. apply andb_true_iff. split; apply N.leb_le; lia.
  - unfold Json.is_low_surrogate. apply andb_true_iff. split; apply N.leb_le; lia.
Qed.

Lemma prepend_scanned (p s rest : string) :
  Json.prepend p (Some (s, rest)) = Some (p +:+ s, rest).
Proof. reflexivity. Qed.

Lemma scanstring_escape_aux (n : nat) :
  forall s rest, (String.length s <= n)%nat -> valid_utf8 s = true ->
    Json.scanstring (MemoryStore.escape s +:+ String Json.dquote rest) = Some (s, rest).
Proof.
  induction n as [|n IH]; intros s rest Hn Hv.
  { destruct s; [reflexivity|cbn in Hn; lia]. }
  destruct s as [|c r]; [reflexivity|].
  cbn [valid_utf8 MemoryStore.escape] in *. cbn [String.length] in Hn.
  unfold is_ascii_char in Hv.
  destruct (N_of_ascii c <? 128)%N eqn:Ea.
  { rewrite append_assoc, (escape_char_scan c _ Ea), (IH r rest ltac:(lia) Hv). reflexivity. }
  destruct r as [|c1 r1]; [discriminate Hv|]. cbn [String.length] in Hn.
  destruct (Text.between 194 223 c) eqn:E2.
  { apply andb_true_iff in Hv as [Hc1 Hv].
    rewrite (proj1 (cont_some c1 Hc1)).
    replace (Text.between 192 223 c) with true.
    2:{ symmetry. apply between_N. apply between_N in E2. cbn in *. lia. }
    rewrite append_assoc, (scan_two c c1 _ E2 Hc1), (IH r1 rest ltac:(lia) Hv). reflexivity. }
  destruct r1 as [|c2 r2]; [discriminate Hv|]. cbn [String.length] in Hn.
  assert (E2' : Text.between 192 223 c = false).
  { destruct (Text.between 192 223 c) eqn:E; [|reflexivity].
    apply between_N in E. cbn in E.
    destruct (Text.between 224 239 c) eqn:E3.
    - apply between_N in E3. cbn in E3. lia.
    - destruct r2 as [|c3 r3]; [discriminate Hv|].
      apply andb_true_iff in Hv as [Hv _]. apply andb_true_iff in Hv as [Hv _].
      apply andb_true_iff in Hv as [Hv _]. apply andb_true_iff in Hv as [Hv _].
      apply between_N in Hv. cbn in Hv. lia. }
  destruct (Text.between 224 239 c) eqn:E3.
  { apply andb_true_iff in Hv as [Hv Hr2]. apply andb_true_iff in Hv as [Hc1 Hc2].
    assert (Hcont1 : cont_byte c1 = true).
    { unfold second_of_three in Hc1. destruct (Ascii.eqb c "224"), (Ascii.eqb c "237");
        try exact Hc1; apply between_N in Hc1; apply between_N; cbn in *; lia. }
    rewrite (proj1 (cont_some c1 Hcont1)), E2', (proj1 (cont_some c2 Hc2)).
    rewrite append_assoc, (scan_three c c1 c2 _ E3 Hc1 Hc2), (IH r2 rest ltac:(lia) Hr2).
    reflexivity. }
  destruct r2 as [|c3 r3]; [discriminate Hv|]. cbn [String.length] in Hn.
  apply andb_true_iff in Hv as [Hv Hr3]. apply andb_true_iff in Hv as [Hv Hc3].
  apply andb_true_iff in Hv as [Hv Hc2]. apply andb_true_iff in Hv as [Hc Hc1].
  assert (Hcont1 : cont_byte c1 = true).
  { unfold second_of_four in Hc1. destruct (Ascii.eqb c "240"), (Ascii.eqb c "244");
      try exact Hc1; apply between_N in Hc1; apply between_N; cbn in *; lia. }
  rewrite (proj1 (cont_some c1 Hcont1)), E2', (proj1 (cont_some c2 Hc2)),
    (proj1 (cont_some c3 Hc3)).
  replace (Text.between 240 247 c) with true.
  2:{ symmetry. apply between_N. apply between_N in Hc. cbn in *. lia. }
  rewrite append_assoc, (scan_four c c1 c2 c3 _ Hc Hc1 Hc2 Hc3), (IH r3 rest ltac:(lia) Hr3).
  reflexivity.
Qed.

Lemma scanstring_escape (s rest : string) :
  valid_utf8 s = true ->
  Json.scanstring (MemoryStore.escape s +:+ String Json.dquote rest) = Some (s, rest).
Proof. apply (scanstring_escape_aux (String.length s)). lia. Qed.

Lemma ascii_valid (s : string) : is_ascii s = true -> valid_utf8 s = true.
Proof.
  induction s as [|c s IH]; [reflexivity|]. cbn.
  intros H. apply andb_true_iff in H as [Hc Hs]. rewrite Hc. apply IH, Hs.
Qed.

Lemma fuel_four (s : string) :
  (2 <= String.length s)%nat -> exists f, Json.fuel_for s = S (S (S (S f))).
Proof.
  intros H. unfold Json.fuel_for. exists (2 * String.length s - 3)%nat. lia.
Qed.

Lemma scanstring_escape_quote (s rest : string) :
  valid_utf8 s = true ->
  Json.scanstring (MemoryStore.escape s +:+ String "034" rest) = Some (s, rest).
Proof. apply scanstring_escape. Qed.

Lemma scanstring_role (rest : string) :
  Json.scanstring (String "r" (String "o" (String "l" (String "e" (String "034" rest)))))
  = Some ("role", rest).
Proof. reflexivity. Qed.

Lemma scanstring_text (rest : string) :
  Json.scanstring (String "t" (String "e" (String "x" (String "t" (String "034" rest)))))
  = Some ("text", rest).
Proof. reflexivity. Qed.


Ltac eval_chars :=
  cbn [Json.skip_ws Json.is_json_space Ascii.eqb Bool.eqb orb andb Json.dquote].

Lemma scan_once_object (f : nat) (s : string) :
  Json.scan_once (S f) (String "{" (String "034" s)) = Json.scan_members f s [].
Proof. reflexivity. Qed.

Lemma scan_once_string (f : nat) (s : string) :
  Json.scan_once (S f) (String "034" s)
  = match Json.scanstring s with
    | Some (str, r') => Json.Scanned (JStr str) r'
    | None => Json.Malformed
    end.
Proof. reflexivity. Qed.

Lemma scan_member_string (f : nat) (s key val V rest : string) (acc : list (string * json)) :
  Json.scanstring s = Some (key, String ":" (String " " (String "034" V))) ->
  Json.scanstring V = Some (val, rest) ->
  Json.scan_members (S (S f)) s acc
  = match rest with
    | String "}" r3 => Json.Scanned (JObj (List.rev ((key, JStr val) :: acc))) r3
    | String "," (String " " (String "034" r4)) =>
        Json.scan_members (S f) r4 ((key, JStr val) :: acc)
    | _ => Json.scan_members (S (S f)) s acc
    end.
Proof.
  intros H1 H2.
  destruct rest as [|c r3]; [reflexivity|].
  destruct (Ascii.eqb c "}") eqn:E1.
  - apply Ascii.eqb_eq in E1 as ->.
    cbn [Json.scan_members]. rewrite H1. eval_chars.
    rewrite scan_once_string, H2. reflexivity.
  - destruct (Ascii.eqb c ",") eqn:E2.
    + apply Ascii.eqb_eq in E2 as ->.
      destruct r3 as [|c1 r3]; [reflexivity|].
      destruct (Ascii.eqb c1 " ") eqn:E3.
      * apply Ascii.eqb_eq in E3 as ->.
        destruct r3 as [|c2 r4]; [reflexivity|].
        destruct (Ascii.eqb c2 "034") eqn:E4.
        -- apply Ascii.eqb_eq in E4 as ->.
           cbn [Json.scan_members]. rewrite H1. eval_chars.
           rewrite scan_once_string, H2. reflexivity.
        -- destruct c2 as [[] [] [] [] [] [] [] []]; try discriminate E4; reflexivity.
      * destruct c1 as [[] [] [] [] [] [] [] []]; try discriminate E3; reflexivity.
    + destruct c as [[] [] [] [] [] [] [] []]; try discriminate E1; try discriminate E2; reflexivity.
Qed.

Lemma scan_entry (f : nat) (role text : string) :
  valid_utf8 role = true -> valid_utf8 text = true ->
  Json.scan_once (S (S (S (S f)))) (MemoryStore.dumps_entry role text)
  = Json.Scanned (MemoryStore.entry role text) EmptyString.
Proof.
  intros Hr Ht. unfold MemoryStore.dumps_entry, Json.q.
  rewrite !append_assoc.
  repeat (rewrite ?append_cons; change (EmptyString +:+ ?x) with x).
  rewrite scan_once_object.
  rewrite (scan_member_string _ _ "role" role _ _ [] (scanstring_role _)
             (scanstring_escape_quote role _ Hr)).
  rewrite (scan_member_string _ _ "text" text _ _ _ (scanstring_text _)
             (scanstring_escape_quote text _ Ht)).
  reflexivity.
Qed.

Lemma loads_dumps_entry (role text : string) :
  valid_utf8 role = true -> valid_utf8 text = true ->
  Json.loads (MemoryStore.dumps_entry role text) = Ok (MemoryStore.entry role text).
Proof.
  intros Hr Ht. unfold Json.loads.
  assert (Hs : Json.skip_ws (MemoryStore.dumps_entry role text)
               = MemoryStore.dumps_entry role text) by reflexivity.
  rewrite Hs.
  destruct (fuel_four (MemoryStore.dumps_entry role text)) as [f ->].
  { unfold MemoryStore.dumps_entry, Json.q. rewrite !append_assoc.
    repeat (rewrite ?append_cons; change (EmptyString +:+ ?x) with x).
    cbn [String.length]. lia. }
  rewrite (scan_entry f role text Hr Ht). reflexivity.
Qed.

(** A message of well-formed UTF-8 text survives [json.dumps] and
    [json.loads]. *)
Lemma utf8_round_trips (role text : string) :
  valid_utf8 role = true -> valid_utf8 text = true -> round_trips (role, text).
Proof. intros Hr Ht. exact (loads_dumps_entry role text Hr Ht). Qed.

(** In particular a message of ASCII characters does. *)
Lemma ascii_round_trips (role text : string) :
  is_ascii role = true -> is_ascii text = true -> round_trips (role, text).
Proof. intros Hr Ht. apply utf8_round_trips; apply ascii_valid; assumption. Qed.

(** ** The conversation store *)

Section StoreFacts.

Import MemoryStore.

Lemma key_inj (u v : string) : _key u = _key v -> u = v.
Proof. unfold _key, base_key. cbn. intros H. injection H. auto. Qed.

Lemma loads_all_app (l1 l2 : list string) (h1 h2 : list json) :
  loads_all l1 = Ok h1 -> loads_all l2 = Ok h2 ->
  loads_all (l1 ++ l2) = Ok (h1 ++ h2).
Proof.
  revert h1. induction l1 as [|e l1 IH]; intros h1 H1 H2; cbn in *.
  - injection H1 as <-. exact H2.
  - destruct (Json.loads e) as [v|]; [|discriminate].
    destruct (loads_all l1) as [vs|] eqn:E; [|discriminate].
    injection H1 as <-. rewrite (IH vs eq_refl H2). reflexivity.
Qed.

Lemma lrange_rpush (k v : string) (r : redis) :
  lrange_all k (expire k ttl (rpush k v r)) = lrange_all k r ++ [v].
Proof. unfold lrange_all, expire, rpush. cbn. rewrite lookup_insert_eq. reflexivity. Qed.

Lemma lrange_rpush_ne (k k' v : string) (r : redis) :
  k <> k' -> lrange_all k' (expire k ttl (rpush k v r)) = lrange_all k' r.
Proof.
  intros Hne. unfold lrange_all, expire, rpush. cbn.
  rewrite lookup_insert_ne by exact Hne. reflexivity.
Qed.

Lemma lrange_delete (k : string) (r : redis) : lrange_all k (delete_key k r) = [].
Proof. unfold lrange_all, delete_key. cbn. rewrite lookup_delete_eq. reflexivity. Qed.

Lemma lrange_delete_ne (k k' : string) (r : redis) :
  k <> k' -> lrange_all k' (delete_key k r) = lrange_all k' r.
Proof.
  intros Hne. unfold lrange_all, delete_key. cbn.
  rewrite lookup_delete_ne by exact Hne. reflexivity.
Qed.

(** One append, on either backend. *)
Lemma get_history_add (s : t) (u role text : string) (h : list json) :
  codec_ok s [(role, text)] ->
  get_history u s = Ok h ->
  get_history u (add_message u role text s) = Ok (h ++ [entry role text]).
Proof.
  destruct s as [r|m]; cbn [codec_ok get_history add_message]; intros Hc Hh.
  - rewrite lrange_rpush. apply loads_all_app; [exact Hh|].
    apply Forall_cons in Hc as [Hrt _]. unfold round_trips in Hrt. cbn in Hrt.
    cbn [loads_all]. rewrite Hrt. reflexivity.
  - injection Hh as <-.
    destruct (m !! u) as [l|] eqn:E; rewrite lookup_insert_eq.
    + rewrite E. reflexivity.
    + rewrite lookup_insert_eq. reflexivity.
Qed.

Lemma get_history_add_ne (s : t) (u v role text : string) :
  v <> u -> get_history u (add_message v role text s) = get_history u s.
Proof.
  intros Hne. destruct s as [r|m]; cbn [get_history add_message].
  - rewrite lrange_rpush_ne; [reflexivity|]. intros H. apply Hne, key_inj, H.
  - destruct (m !! v); rewrite !lookup_insert_ne by exact Hne; reflexivity.
Qed.

Lemma get_history_clear (s : t) (u : string) :
  get_history u (clear_history u s) = Ok [].
Proof.
  destruct s as [r|m]; cbn [get_history clear_history].
  - rewrite lrange_delete. reflexivity.
  - destruct (m !! u) eqn:E; cbn [get_history].
    + rewrite lookup_delete_eq. reflexivity.
    + rewrite E. reflexivity.
Qed.

Lemma get_history_clear_ne (s : t) (u v : string) :
  v <> u -> get_history u (clear_history v s) = get_history u s.
Proof.
  intros Hne. destruct s as [r|m]; cbn [get_history clear_history].
  - rewrite lrange_delete_ne; [reflexivity|]. intros H. apply Hne, key_inj, H.
  - destruct (m !! v); cbn [get_history]; [|reflexivity].
    rewrite lookup_delete_ne by exact Hne. reflexivity.
Qed.

Lemma codec_ok_add (s : t) (u role text : string) (l : list (string * string)) :
  codec_ok (add_message u role text s) l <-> codec_ok s l.
Proof. destruct s; reflexivity. Qed.

Lemma codec_ok_clear (s : t) (u : string) (l : list (string * string)) :
  codec_ok (clear_history u s) l <-> codec_ok s l.
Proof. destruct s as [r|m]; cbn; [reflexivity|]. destruct (m !! u); reflexivity. Qed.

Lemma codec_ok_cons (s : t) (x : string * string) (l : list (string * string)) :
  codec_ok s (x :: l) -> codec_ok s [x] /\ codec_ok s l.
Proof.
  destruct s; cbn; [|tauto].
  intros H. apply Forall_cons in H as [Hx Hl]. split; [repeat constructor|]; assumption.
Qed.

Lemma get_history_others (ops : list store_op) (s : t) (u : string) :
  Forall (fun op => op_user op <> u) ops ->
  get_history u (apply_ops ops s) = get_history u s.
Proof.
  unfold apply_ops. revert s.
  induction ops as [|op ops IH]; intros s Hall; cbn; [reflexivity|].
  apply Forall_cons in Hall as [Hop Hall]. rewrite (IH _ Hall).
  destruct op; cbn in *.
  - apply get_history_add_ne, Hop.
  - apply get_history_clear_ne, Hop.
Qed.

End StoreFacts.

(** A conversation store for the examples: a Redis server without keys. *)
Lemma empty_server_round_trips :
  codec_ok (MemoryStore.Client {| MemoryStore.lists := ∅; MemoryStore.expiry := ∅ |})
           [("user", "What is the weather in Chicago, IL?");
            ("assistant", "It's 75 degrees Fahrenheit and sunny.");
            ("user", "Thanks!")].
Proof. cbn. repeat constructor; vm_compute; reflexivity. Qed.

(** C9: the history of a user is append-only and keeps its order.  After the
    messages [A], [B], [C] are appended for [u], a read returns what was
    there before followed by [A], [B], [C] with their roles and texts, and
    exactly [A], [B], [C] when the history was cleared before; a read after
    a clear returns the empty list; appends and clears for other users leave
    the history of [u] as it was.  On the Redis branch the messages pass
    through [json.dumps] and [json.loads]; [codec_ok] says that [A], [B] and
    [C] survive it, which [utf8_round_trips] shows for every message of
    well-formed UTF-8 text, and is void for the in-process store. *)
Theorem history_append_only (s : MemoryStore.t) (u : string) (A B C : string * string) :
  codec_ok s [A; B; C] ->
  let add e := MemoryStore.add_message u e.1 e.2 in
  let msg e := MemoryStore.entry e.1 e.2 in
  (forall h : list json,
      MemoryStore.get_history u s = Ok h ->
      MemoryStore.get_history u (add C (add B (add A s))) = Ok (h ++ [msg A; msg B; msg C]))
  /\ MemoryStore.get_history u (add C (add B (add A (MemoryStore.clear_history u s))))
     = Ok [msg A; msg B; msg C]
  /\ MemoryStore.get_history u (MemoryStore.clear_history u s) = Ok []
  /\ (forall ops : list store_op,
        Forall (fun op => op_user op <> u) ops ->
        MemoryStore.get_history u (apply_ops ops s) = MemoryStore.get_history u s).
Proof.
  intros Hc add msg.
  assert (Happend : forall s0 h, codec_ok s0 [A; B; C] ->
            MemoryStore.get_history u s0 = Ok h ->
            MemoryStore.get_history u (add C (add B (add A s0)))
            = Ok (h ++ [msg A; msg B; msg C])).
  { intros s0 h Hc0 Hh. unfold add.
    destruct A as [ra ta], B as [rb tb], C as [rc tc]. cbn [fst snd] in *.
    apply codec_ok_cons in Hc0 as [Ha Hc0].
    apply codec_ok_cons in Hc0 as [Hb Hc0].
    rewrite (get_history_add _ u rc tc ((h ++ [msg (ra, ta)]) ++ [msg (rb, tb)])).
    - rewrite <- !app_assoc. reflexivity.
    - rewrite !codec_ok_add. exact Hc0.
    - apply get_history_add; [rewrite codec_ok_add; exact Hb|].
      apply get_history_add; [exact Ha|exact Hh]. }
  split; [|split; [|split]].
  - intros h Hh. apply Happend; assumption.
  - apply (Happend _ []); [|apply get_history_clear].
    rewrite codec_ok_clear. exact Hc.
  - apply get_history_clear.
  - intros ops Hops. apply get_history_others, Hops.
Qed.

Lemma history_append_only_witness :
  let s := MemoryStore.Client {| MemoryStore.lists := ∅; MemoryStore.expiry := ∅ |} in
  let A := ("user", "What is the weather in Chicago, IL?") in
  let B := ("assistant", "It's 75 degrees Fahrenheit and sunny.") in
  let C := ("user", "Thanks!") in
  codec_ok s [A; B; C]
  /\ MemoryStore.get_history "default"
       (MemoryStore.add_message "default" C.1 C.2
          (MemoryStore.add_message "default" B.1 B.2
             (MemoryStore.add_message "default" A.1 A.2
                (MemoryStore.clear_history "default" s))))
     = Ok [MemoryStore.entry A.1 A.2; MemoryStore.entry B.1 B.2; MemoryStore.entry C.1 C.2].
Proof.
  split; [exact empty_server_round_trips|].
  exact (proj1 (proj2 (history_append_only _ "default" _ _ _ empty_server_round_trips))).
Defined.

Lemma unwritten_user_absent (ops : list store_op) (u : string) (m : gmap string (list json)) :
  m !! u = None ->
  Forall (fun op => writes u op = false) ops ->
  exists m', apply_ops ops (MemoryStore.InMemory m) = MemoryStore.InMemory m' /\ m' !! u = None.
Proof.
  unfold apply_ops. revert m.
  induction ops as [|op ops IH]; intros m Hm Hall; cbn [fold_left].
  - exists m. split; [reflexivity|exact Hm].
  - apply Forall_cons in Hall as [Hop Hall].
    destruct op as [v role text|v]; cbn [apply_op].
    + cbn in Hop. apply String.eqb_neq in Hop.
      cbn [MemoryStore.add_message]. apply IH; [|exact Hall].
      destruct (m !! v); rewrite !lookup_insert_ne by exact Hop; exact Hm.
    + cbn [MemoryStore.clear_history].
      destruct (m !! v); apply IH; try exact Hall; try exact Hm.
      rewrite lookup_delete. case_decide; [reflexivity|exact Hm].
Qed.

(** C10: in the in-process store, for a user for whom nothing was ever
    appended, [get_history] returns the empty list and [clear_history]
    returns normally and leaves the store as it is. *)
Theorem fallback_unknown_user (ops : list store_op) (u : string) :
  Forall (fun op => writes u op = false) ops ->
  let s := apply_ops ops MemoryStore.fallback in
  MemoryStore.get_history u s = Ok [] /\ MemoryStore.clear_history u s = s.
Proof.
  intros Hall s.
  destruct (unwritten_user_absent ops u ∅ (lookup_empty u) Hall) as (m' & Hs & Hm').
  subst s. unfold MemoryStore.fallback. rewrite Hs.
  cbn [MemoryStore.get_history MemoryStore.clear_history]. rewrite Hm'. split; reflexivity.
Qed.

Lemma fallback_unknown_user_witness :
  let ops := [OpAdd "bob" "user" "hi"; OpClear "alice"; OpAdd "bob" "assistant" "hello"] in
  Forall (fun op => writes "alice" op = false) ops
  /\ MemoryStore.get_history "alice" (apply_ops ops MemoryStore.fallback) = Ok []
  /\ MemoryStore.clear_history "alice" (apply_ops ops MemoryStore.fallback)
     = apply_ops ops MemoryStore.fallback.
Proof.
  assert (H : Forall (fun op => writes "alice" op = false)
                [OpAdd "bob" "user" "hi"; OpClear "alice"; OpAdd "bob" "assistant" "hello"])
    by (repeat constructor).
  split; [exact H|]. exact (fallback_unknown_user _ "alice" H).
Defined.

(** ** The nodes of the graph *)

Section AgentFacts.

Import Agent.

Variable o : Oracles.

Lemma llm_node_eq (messages : list Message) (s : state) :
  llm_node o messages s
  = (after_llm messages s, Ok (messages ++ [AIMessage (reply o (List.length (sent s)))])).
Proof. reflexivity. Qed.

Lemma last_reduce (l : list Message) (m : Message) :
  last (reduce_messages (l ++ [m])) = Some m.
Proof. unfold reduce_messages. rewrite app_assoc. apply last_snoc. Qed.

Lemma should_continue_ai (l : list Message) (c : string) :
  last l = Some (AIMessage c) ->
  _should_continue l = Ok (if routes_to_tools c then ToTools else ToEnd).
Proof.
  intros Hl. unfold routes_to_tools, _should_continue. rewrite Hl. cbn [last].
  destruct (Json.loads c) as [[| | | | |payload]|]; try reflexivity.
  - destruct (Json.has_key "tool_call" payload); reflexivity.
  - destruct (Text.contains "tool_call" c); reflexivity.
Qed.

Lemma tool_node_eq (l : list Message) (c : string) (s : state) :
  last l = Some (AIMessage c) ->
  _call_tool_node o l s
  = match _parse_tool_call c with
    | None => (s, Ok l)
    | Some (name, args) =>
        (after_dispatch s,
         match dispatch o (dispatched s) name args with
         | Ok tool_msg => Ok (l ++ [tool_msg])
         | Raise e => Raise e
         end)
    end.
Proof.
  intros Hl. unfold _call_tool_node. rewrite Hl. cbn [is_ai content].
  destruct (_parse_tool_call c) as [[name args]|]; [|reflexivity].
  unfold bind, count_dispatch, lift, ret.
  destruct (dispatch o (dispatched s) name args); reflexivity.
Qed.

Lemma run_llm_step (b : nat) (channel : list Message) (s : state) :
  run_llm o (S b) channel s
  = let c := reply o (List.length (sent s)) in
    let returned := channel ++ [AIMessage c] in
    let s1 := after_llm channel s in
    if routes_to_tools c then
      match b with
      | O => (s1, Raise GraphRecursionError)
      | S b' =>
          match _call_tool_node o (reduce_messages returned) s1 with
          | (s2, Ok returned2) => run_llm o b' (reduce_messages returned2) s2
          | (s2, Raise e) => (s2, Raise e)
          end
      end
    else (s1, Ok returned).
Proof.
  cbn zeta. cbn [run_llm]. unfold bind at 1. rewrite llm_node_eq.
  unfold bind at 1. unfold lift.
  rewrite (should_continue_ai _ _ (last_reduce _ _)).
  destruct (routes_to_tools _); [|reflexivity].
  destruct b as [|b']; [reflexivity|].
  unfold bind. destruct (_call_tool_node _ _ _) as [s2 [r2|e]]; reflexivity.
Qed.

(** No node writes to the store. *)
Lemma tool_node_memory (l : list Message) (s : state) :
  memory (_call_tool_node o l s).1 = memory s.
Proof.
  unfold _call_tool_node. destruct (last l) as [m|]; [|reflexivity].
  destruct (is_ai m); [|reflexivity].
  destruct (_parse_tool_call (content m)) as [[name args]|]; [|reflexivity].
  unfold bind, count_dispatch, lift, ret.
  destruct (dispatch o (dispatched s) name args); reflexivity.
Qed.

Lemma tool_node_sent (l : list Message) (s : state) :
  sent (_call_tool_node o l s).1 = sent s
  /\ search_global (_call_tool_node o l s).1 = search_global s.
Proof.
  unfold _call_tool_node. destruct (last l) as [m|]; [|split; reflexivity].
  destruct (is_ai m); [|split; reflexivity].
  destruct (_parse_tool_call (content m)) as [[name args]|]; [|split; reflexivity].
  unfold bind, count_dispatch, lift, ret.
  destruct (dispatch o (dispatched s) name args); split; reflexivity.
Qed.

Lemma run_llm_memory (budget : nat) :
  forall (channel : list Message) (s : state),
    memory (run_llm o budget channel s).1 = memory s.
Proof.
  induction budget as [budget IH] using lt_wf_ind. intros channel s.
  destruct budget as [|b]; [reflexivity|].
  rewrite run_llm_step. cbn zeta.
  destruct (routes_to_tools _); [|reflexivity].
  destruct b as [|b']; [reflexivity|].
  pose proof (tool_node_memory (reduce_messages (channel ++ [AIMessage (reply o (List.length (sent s)))]))
                (after_llm channel s)) as Ht.
  destruct (_call_tool_node _ _ _) as [s2 [r2|e]]; cbn [fst] in *.
  - rewrite IH by lia. exact Ht.
  - exact Ht.
Qed.

End AgentFacts.

(** ** One turn *)

Section TurnFacts.

Import Agent.

Variable o : Oracles.

(** Enough budget: [k] tool round trips, then the answer. *)
Lemma run_llm_round_trips (k : nat) :
  forall (budget : nat) (channel : list Message) (s : state),
    (forall i, (i < k)%nat ->
               routes_to_tools (reply o (List.length (sent s) + i)) = true) ->
    routes_to_tools (reply o (List.length (sent s) + k)) = false ->
    (forall i j name args, (i < k)%nat ->
       _parse_tool_call (reply o (List.length (sent s) + i)) = Some (name, args) ->
       is_ok (dispatch o j name args) = true) ->
    (2 * k + 1 <= budget)%nat ->
    exists s' pre,
      run_llm o budget channel s
      = (s', Ok (pre ++ [AIMessage (reply o (List.length (sent s) + k))]))
      /\ List.length (sent s') = (List.length (sent s) + k + 1)%nat.
Proof.
  induction k as [|k IH]; intros budget channel s Hcalls Hlast Hok Hb.
  - destruct budget as [|b]; [lia|].
    rewrite run_llm_step. cbn zeta. rewrite Nat.add_0_r in Hlast. rewrite Hlast.
    exists (after_llm channel s), channel. rewrite Nat.add_0_r. split; [reflexivity|].
    cbn [after_llm sent]. rewrite length_app. cbn. lia.
  - destruct budget as [|[|b]]; [lia|lia|].
    rewrite run_llm_step. cbn zeta.
    pose proof (Hcalls O ltac:(lia)) as H0. rewrite Nat.add_0_r in H0. rewrite H0.
    set (c := reply o (List.length (sent s))) in *.
    set (s1 := after_llm channel s).
    assert (Hlen : List.length (sent s1) = S (List.length (sent s))).
    { subst s1. cbn [after_llm sent]. rewrite length_app. cbn. lia. }
    rewrite (tool_node_eq o _ c s1 (last_reduce _ _)).
    assert (Hnext : forall s2 ch2, sent s2 = sent s1 ->
              exists s' pre,
                run_llm o b ch2 s2
                = (s', Ok (pre ++ [AIMessage (reply o (List.length (sent s) + S k))]))
                /\ List.length (sent s') = (List.length (sent s) + S k + 1)%nat).
    { intros s2 ch2 Hs2.
      destruct (IH b ch2 s2) as (s' & pre & Hrun & Hl).
      - intros i Hi. rewrite Hs2, Hlen.
        replace (S (List.length (sent s)) + i)%nat with (List.length (sent s) + S i)%nat by lia.
        apply Hcalls. lia.
      - rewrite Hs2, Hlen.
        replace (S (List.length (sent s)) + k)%nat with (List.length (sent s) + S k)%nat by lia.
        exact Hlast.
      - intros i j name args Hi Hp. rewrite Hs2, Hlen in Hp.
        replace (S (List.length (sent s)) + i)%nat with (List.length (sent s) + S i)%nat in Hp by lia.
        apply (Hok (S i) j name args); [lia|exact Hp].
      - lia.
      - rewrite Hs2, Hlen in Hrun, Hl.
        replace (S (List.length (sent s)) + k)%nat with (List.length (sent s) + S k)%nat
          in Hrun by lia.
        exists s', pre. split; [exact Hrun|lia]. }
    destruct (_parse_tool_call c) as [[name args]|] eqn:Hp.
    + pose proof (Hok O (dispatched s1) name args ltac:(lia)) as Hd.
      rewrite Nat.add_0_r in Hd. specialize (Hd Hp).
      destruct (dispatch o (dispatched s1) name args) as [t|e]; [|discriminate].
      apply Hnext. reflexivity.
    + apply Hnext. reflexivity.
Qed.

(** Not enough budget: the runner stops the turn with its exception. *)
Lemma run_llm_out_of_budget (k : nat) :
  forall (budget : nat) (channel : list Message) (s : state),
    (forall i, (i < k)%nat ->
               routes_to_tools (reply o (List.length (sent s) + i)) = true) ->
    (forall i j name args, (i < k)%nat ->
       _parse_tool_call (reply o (List.length (sent s) + i)) = Some (name, args) ->
       is_ok (dispatch o j name args) = true) ->
    (budget < 2 * k + 1)%nat ->
    exists s', run_llm o budget channel s = (s', Raise GraphRecursionError).
Proof.
  induction k as [|k IH]; intros budget channel s Hcalls Hok Hb.
  - destruct budget as [|b]; [|lia]. exists s. reflexivity.
  - destruct budget as [|[|b]].
    + exists s. reflexivity.
    + rewrite run_llm_step. cbn zeta.
      pose proof (Hcalls O ltac:(lia)) as H0. rewrite Nat.add_0_r in H0. rewrite H0.
      eexists. reflexivity.
    + rewrite run_llm_step. cbn zeta.
      pose proof (Hcalls O ltac:(lia)) as H0. rewrite Nat.add_0_r in H0. rewrite H0.
      set (c := reply o (List.length (sent s))) in *.
      set (s1 := after_llm channel s).
      assert (Hlen : List.length (sent s1) = S (List.length (sent s))).
      { subst s1. cbn [after_llm sent]. rewrite length_app. cbn. lia. }
      rewrite (tool_node_eq o _ c s1 (last_reduce _ _)).
      assert (Hnext : forall s2 ch2, sent s2 = sent s1 ->
                exists s', run_llm o b ch2 s2 = (s', Raise GraphRecursionError)).
      { intros s2 ch2 Hs2. apply IH.
        - intros i Hi. rewrite Hs2, Hlen.
          replace (S (List.length (sent s)) + i)%nat with (List.length (sent s) + S i)%nat by lia.
          apply Hcalls. lia.
        - intros i j name args Hi Hp. rewrite Hs2, Hlen in Hp.
          replace (S (List.length (sent s)) + i)%nat with (List.length (sent s) + S i)%nat in Hp by lia.
          apply (Hok (S i) j name args); [lia|exact Hp].
        - lia. }
      destruct (_parse_tool_call c) as [[name args]|] eqn:Hp.
      * pose proof (Hok O (dispatched s1) name args ltac:(lia)) as Hd.
        rewrite Nat.add_0_r in Hd. specialize (Hd Hp).
        destruct (dispatch o (dispatched s1) name args) as [t|e]; [|discriminate].
        apply Hnext. reflexivity.
      * apply Hnext. reflexivity.
Qed.

(** The state in which the graph is started. *)
Lemma handle_eq (prompt : string) (search : pyval) (u : string) (s : state) :
  handle o prompt search u s
  = let s1 := {| memory := memory s; search_global := search;
                 sent := sent s; dispatched := dispatched s |} in
    match MemoryStore.get_history u (memory s) with
    | Raise e => (s1, Raise e)
    | Ok history =>
        match user_messages history with
        | Raise e => (s1, Raise e)
        | Ok old =>
            let s2 := {| memory := MemoryStore.add_message u "user" prompt (memory s);
                         search_global := search;
                         sent := sent s; dispatched := dispatched s |} in
            match run_llm o (recursion_limit o) (old ++ [HumanMessage prompt]) s2 with
            | (s3, Raise e) => (s3, Raise e)
            | (s3, Ok all_msgs) =>
                match last_answer all_msgs with
                | None =>
                    (s3, Raise (RuntimeError
                                  "Stream completed but no AIMessage with content was found."))
                | Some response =>
                    ({| memory := MemoryStore.add_message u "assistant" response (memory s3);
                        search_global := search_global s3;
                        sent := sent s3; dispatched := dispatched s3 |},
                     Ok response)
                end
            end
        end
    end.
Proof.
  unfold handle, bind, set_search, read_history, lift, remember. cbn [memory search_global sent dispatched].
  destruct (MemoryStore.get_history u (memory s)) as [history|e]; [|reflexivity].
  destruct (user_messages history) as [old|e]; [|reflexivity].
  cbn zeta.
  destruct (run_llm _ _ _ _) as [s3 [all_msgs|e]]; [|reflexivity].
  destruct (last_answer all_msgs); reflexivity.
Qed.

Lemma last_answer_snoc (pre : list Message) (c : string) :
  Text.nonempty c = true -> last_answer (pre ++ [AIMessage c]) = Some c.
Proof.
  intros Hc. unfold last_answer. rewrite rev_app_distr. cbn. rewrite Hc. reflexivity.
Qed.

End TurnFacts.

(** C1, as the code has it: the turn makes as many round trips between the
    model and the tools as the model asks for; the program sets no bound of
    its own.  Let the first [k] replies be sent to the tool node and no
    dispatch raise.  When the next reply is not sent to the tools and is not
    empty, the turn makes [k] round trips and returns that reply, for every
    [k] that the step budget of the graph runner admits ([2 * k + 1] node
    executions).  When the budget is below [2 * k + 1], whatever the later
    replies are, the run outlasts the budget: the runner stops it with
    [GraphRecursionError] and no answer is returned. *)
Theorem turn_round_trips_unbounded
        (o : Oracles) (s : state) (prompt : string) (search : pyval) (u : string)
        (k : nat) (history : list json) (old : list Message) :
  MemoryStore.get_history u (memory s) = Ok history ->
  Agent.user_messages history = Ok old ->
  (forall i, (i < k)%nat -> routes_to_tools (reply o (List.length (sent s) + i)) = true) ->
  (forall i j name args, (i < k)%nat ->
     Agent._parse_tool_call (reply o (List.length (sent s) + i)) = Some (name, args) ->
     is_ok (Agent.dispatch o j name args) = true) ->
  (routes_to_tools (reply o (List.length (sent s) + k)) = false ->
   Text.nonempty (reply o (List.length (sent s) + k)) = true ->
   (2 * k + 1 <= recursion_limit o)%nat ->
   exists s', Agent.handle o prompt search u s
              = (s', Ok (reply o (List.length (sent s) + k)))
              /\ List.length (sent s') = (List.length (sent s) + k + 1)%nat)
  /\ ((recursion_limit o < 2 * k + 1)%nat ->
      exists s', Agent.handle o prompt search u s = (s', Raise GraphRecursionError)).
Proof.
  intros Hh Hold Hcalls Hok.
  rewrite handle_eq, Hh, Hold. cbn zeta.
  set (s2 := {| memory := MemoryStore.add_message u "user" prompt (memory s);
                search_global := search; sent := sent s; dispatched := dispatched s |}).
  split.
  - intros Hlast Hne Hb.
    destruct (run_llm_round_trips o k (recursion_limit o) (old ++ [HumanMessage prompt]) s2)
      as (s3 & pre & Hrun & Hlen); try assumption.
    rewrite Hrun, (last_answer_snoc _ _ Hne).
    eexists. split; [reflexivity|]. exact Hlen.
  - intros Hb.
    destruct (run_llm_out_of_budget o k (recursion_limit o) (old ++ [HumanMessage prompt]) s2)
      as (s3 & Hrun); try assumption.
    rewrite Hrun. exists s3. reflexivity.
Qed.

Lemma six_calls_routed (i : nat) :
  (i < 6)%nat -> routes_to_tools (reply (Samples.oracles Samples.six_calls) i) = true.
Proof.
  intros Hi. do 6 (destruct i as [|i]; [vm_compute; reflexivity|]). lia.
Qed.

Lemma six_calls_dispatch (i j : nat) (name args : json) :
  (i < 6)%nat ->
  Agent._parse_tool_call (reply (Samples.oracles Samples.six_calls) i) = Some (name, args) ->
  is_ok (Agent.dispatch (Samples.oracles Samples.six_calls) j name args) = true.
Proof.
  intros Hi Hp.
  assert (Hc : Agent._parse_tool_call (reply (Samples.oracles Samples.six_calls) i)
               = Some (JStr "get_current_weather", JObj [("location", JStr "Chicago, IL")])).
  { do 6 (destruct i as [|i]; [vm_compute; reflexivity|]). lia. }
  rewrite Hc in Hp. injection Hp as <- <-. reflexivity.
Qed.

Lemma always_calls_routed (i : nat) :
  routes_to_tools (reply (Samples.oracles Samples.always_calls) i) = true.
Proof. vm_compute. reflexivity. Qed.

Lemma always_calls_dispatch (i j : nat) (name args : json) :
  Agent._parse_tool_call (reply (Samples.oracles Samples.always_calls) i) = Some (name, args) ->
  is_ok (Agent.dispatch (Samples.oracles Samples.always_calls) j name args) = true.
Proof.
  intros Hp.
  change (reply (Samples.oracles Samples.always_calls) i)
    with (Agent.clean Samples.weather_call) in Hp.
  vm_compute in Hp. injection Hp as <- <-. reflexivity.
Qed.

Lemma turn_round_trips_unbounded_witness :
  (exists s',
      Agent.handle (Samples.oracles Samples.six_calls) "What is the weather in Chicago?"
                   (PyBool false) "default" Samples.agent0
      = (s', Ok "It is sunny in Chicago.")
      /\ List.length (sent s') = 7%nat)
  /\ (exists s',
        Agent.handle (Samples.oracles Samples.always_calls) "What is the weather in Chicago?"
                     (PyBool false) "default" Samples.agent0
        = (s', Raise GraphRecursionError)).
Proof.
  split.
  - exact (proj1 (turn_round_trips_unbounded
                    (Samples.oracles Samples.six_calls) Samples.agent0
                    "What is the weather in Chicago?" (PyBool false) "default" 6 [] []
                    eq_refl eq_refl six_calls_routed six_calls_dispatch)
                 eq_refl eq_refl ltac:(cbn; lia)).
  - exact (proj2 (turn_round_trips_unbounded
                    (Samples.oracles Samples.always_calls) Samples.agent0
                    "What is the weather in Chicago?" (PyBool false) "default" 13 [] []
                    eq_refl eq_refl
                    (fun i _ => always_calls_routed (0 + i))
                    (fun i j name args _ => always_calls_dispatch (0 + i) j name args))
                 ltac:(cbn; lia)).
Defined.

(** C1 fails on the code: a model that asks six times is served six times
    before its seventh reply is returned, and for a model that never stops
    asking the turn ends with the exception of the runner. *)
Lemma six_round_trips_counterexample :
  let served := Agent.handle (Samples.oracles Samples.six_calls)
                  "What is the weather in Chicago?" (PyBool false) "default" Samples.agent0 in
  let endless := Agent.handle (Samples.oracles Samples.always_calls)
                   "What is the weather in Chicago?" (PyBool false) "default" Samples.agent0 in
  served.2 = Ok "It is sunny in Chicago."
  /\ dispatched served.1 = 6%nat
  /\ List.length (sent served.1) = 7%nat
  /\ endless.2 = Raise GraphRecursionError.
Proof.
  cbv zeta.
  assert (Hserved :
            let served := Agent.handle (Samples.oracles Samples.six_calls)
                            "What is the weather in Chicago?" (PyBool false) "default"
                            Samples.agent0 in
            (served.2, dispatched served.1, List.length (sent served.1))
            = (Ok "It is sunny in Chicago.", 6%nat, 7%nat))
    by (vm_compute; reflexivity).
  cbv zeta in Hserved.
  split; [exact (f_equal (fun x => x.1.1) Hserved)|].
  split; [exact (f_equal (fun x => x.1.2) Hserved)|].
  split; [exact (f_equal snd Hserved)|].
  rewrite handle_eq. change (MemoryStore.get_history "default" (memory Samples.agent0)) with (Ok (@nil json)).
    cbv iota beta zeta. change (Agent.user_messages []) with (Ok (@nil Message)).
    cbv iota beta zeta.
    destruct (run_llm_out_of_budget (Samples.oracles Samples.always_calls) 13
                (recursion_limit (Samples.oracles Samples.always_calls))
                ([] ++ [HumanMessage "What is the weather in Chicago?"])
                {| memory := MemoryStore.add_message "default" "user"
                               "What is the weather in Chicago?" (memory Samples.agent0);
                   search_global := PyBool false;
                   sent := sent Samples.agent0;
                   dispatched := dispatched Samples.agent0 |})
      as (s' & Hrun).
    + intros i _. vm_compute. reflexivity.
    + intros i j name args _ Hp.
      change (reply (Samples.oracles Samples.always_calls) _)
        with (Agent.clean Samples.weather_call) in Hp.
      vm_compute in Hp. injection Hp as <- <-. reflexivity.
    + cbn. lia.
    + rewrite Hrun. reflexivity.
Qed.

(** ** The tool node *)

(** C3, as the code has it: the dispatch catches one exception only, the
    [TypeError] of the call with keyword arguments, and then calls the tool
    again with the mapping as its input.  Every other exception of the first
    call and every exception of the second call leaves [_call_tool_node];
    a tool message is produced when a call returns, with the returned text
    as its content, and when the name is not in the table, with a content
    that says so. *)
Theorem dispatch_catches_type_error_only
        (o : Oracles) (l : list Message) (c name : string) (args : json) (s : state) :
  last l = Some (AIMessage c) ->
  Agent._parse_tool_call c = Some (JStr name, args) ->
  let i := dispatched s in
  let tool_message res := ToolMessage res (Some name) (uuid4 o i) args in
  (Agent._call_tool_node o l s).2
  = match TOOLS name with
    | None => Ok (l ++ [tool_message ("Tool " +:+ name +:+ " not found")])
    | Some fn =>
        match invoke_kwargs o i fn args with
        | Ok res => Ok (l ++ [tool_message res])
        | Raise TypeError =>
            match invoke_input o i fn args with
            | Ok res => Ok (l ++ [tool_message res])
            | Raise e => Raise e
            end
        | Raise e => Raise e
        end
    end.
Proof.
  intros Hl Hp i tool_message. rewrite (tool_node_eq o l c s Hl), Hp. cbn [snd].
  unfold Agent.dispatch, Agent.lookup_tool, Agent.message_name, Agent.invoke_tool, Agent.not_found.
  fold i. destruct (TOOLS name) as [fn|]; [|reflexivity].
  destruct (invoke_kwargs o i fn args) as [res|[]]; try reflexivity.
  destruct (invoke_input o i fn args); reflexivity.
Qed.

Lemma dispatch_catches_type_error_only_witness :
  let l := [HumanMessage "What is the weather in Chicago?"; AIMessage Samples.weather_call] in
  last l = Some (AIMessage Samples.weather_call)
  /\ Agent._parse_tool_call Samples.weather_call
     = Some (JStr "get_current_weather", JObj [("location", JStr "Chicago, IL")])
  /\ (Agent._call_tool_node (Samples.oracles Samples.one_call) l Samples.agent0).2
     = Ok (l ++ [ToolMessage
                   "It's 75 degrees Fahrenheit and sunny in Chicago, IL. There's a slight breeze."
                   (Some "get_current_weather")
                   "00000000-0000-4000-8000-000000000000"
                   (JObj [("location", JStr "Chicago, IL")])]).
Proof.
  cbv zeta. split; [reflexivity|]. split; [vm_compute; reflexivity|].
  rewrite (dispatch_catches_type_error_only (Samples.oracles Samples.one_call)
             [HumanMessage "What is the weather in Chicago?"; AIMessage Samples.weather_call]
             Samples.weather_call "get_current_weather"
             (JObj [("location", JStr "Chicago, IL")]) Samples.agent0 eq_refl
             ltac:(vm_compute; reflexivity)).
  reflexivity.
Defined.

(** C3 fails on the code: a directive for the weather tool without a
    location makes the second call raise, and the exception leaves the
    node. *)
Lemma tool_failure_escapes_counterexample :
  Agent._parse_tool_call Samples.empty_call = Some (JStr "get_current_weather", JObj [])
  /\ (Agent._call_tool_node (Samples.oracles Samples.calls_without_location)
        [HumanMessage "What is the weather?"; AIMessage Samples.empty_call] Samples.agent0).2
     = Raise ValidationError
  /\ (Agent.handle (Samples.oracles Samples.calls_without_location)
        "What is the weather?" (PyBool false) "default" Samples.agent0).2
     = Raise ValidationError.
Proof. vm_compute. repeat split; reflexivity. Qed.

(** C4, as the code has it: [_call_llm_node] appends exactly one assistant
    message when the client returns a text, which is the case of every
    request of a run that the oracles describe; when the client raises, the
    node raises the same exception, and when the client returns a content
    that is no text the node raises [TypeError]: in both cases nothing is
    appended.  [_call_tool_node], entered after an assistant message,
    appends exactly one tool message when the text of that message parses
    as a directive and the dispatch returns; it raises and appends nothing
    when the dispatch raises; it appends nothing and returns the list as it
    was when the text does not parse as a directive, which is the case of
    every turn sent to the tools by the substring test. *)
Theorem nodes_append
        (o : Oracles) (l : list Message) (c : string) (s : state) :
  last l = Some (AIMessage c) ->
  (forall (r : OllamaClient.http_reply) (l0 : list Message) (s0 : state),
      (Agent._call_llm_node (OllamaClient.generate r) l0 s0).2
      = match OllamaClient.generate r with
        | Ok (JStr text) => Ok (l0 ++ [AIMessage (Agent.clean text)])
        | Ok _ => Raise TypeError
        | Raise e => Raise e
        end)
  /\ (forall (l0 : list Message) (s0 : state),
        (Agent.llm_node o l0 s0).2
        = Ok (l0 ++ [AIMessage (reply o (List.length (sent s0)))]))
  /\ match Agent._parse_tool_call c with
     | None => (Agent._call_tool_node o l s).2 = Ok l
     | Some (name, args) =>
         match Agent.dispatch o (dispatched s) name args with
         | Ok tool_msg =>
             is_tool tool_msg = true
             /\ (Agent._call_tool_node o l s).2 = Ok (l ++ [tool_msg])
         | Raise e => (Agent._call_tool_node o l s).2 = Raise e
         end
     end
  /\ (Json.loads c = Raise JSONDecodeError ->
      Agent._parse_tool_call c = None
      /\ routes_to_tools c = Text.contains "tool_call" c).
Proof.
  intros Hl. split.
  { intros r l0 s0. unfold Agent._call_llm_node.
    destruct (OllamaClient.generate r) as [[]|e]; reflexivity. }
  split; [reflexivity|]. split.
  - rewrite (tool_node_eq o l c s Hl).
    destruct (Agent._parse_tool_call c) as [[name args]|]; [|reflexivity].
    cbn [snd].
    destruct (Agent.dispatch o (dispatched s) name args) as [t|e] eqn:Hd; [|reflexivity].
    split; [|reflexivity].
    unfold Agent.dispatch in Hd.
    destruct (Agent.lookup_tool name) as [fn|]; [|discriminate].
    destruct (match fn with Some f => _ | None => _ end); [|discriminate].
    destruct (Agent.message_name name); [|discriminate].
    injection Hd as <-. reflexivity.
  - intros Hj. unfold Agent._parse_tool_call, routes_to_tools, Agent._should_continue.
    cbn [last]. rewrite Hj. split; [reflexivity|].
    destruct (Text.contains "tool_call" c); reflexivity.
Qed.

Lemma nodes_append_witness :
  let l := [HumanMessage "What is the weather in Chicago?"; AIMessage Samples.weather_call] in
  last l = Some (AIMessage Samples.weather_call)
  /\ (Agent._call_tool_node (Samples.oracles Samples.one_call) l Samples.agent0).2
     = Ok (l ++ [ToolMessage
                   "It's 75 degrees Fahrenheit and sunny in Chicago, IL. There's a slight breeze."
                   (Some "get_current_weather")
                   "00000000-0000-4000-8000-000000000000"
                   (JObj [("location", JStr "Chicago, IL")])]).
Proof.
  cbv zeta. split; [reflexivity|].
  pose proof (proj1 (proj2 (proj2 (nodes_append (Samples.oracles Samples.one_call)
             [HumanMessage "What is the weather in Chicago?"; AIMessage Samples.weather_call]
             Samples.weather_call Samples.agent0 eq_refl)))) as H.
  vm_compute in H. vm_compute. exact (proj2 H).
Defined.

(** C4 fails on the code: an assistant text that only mentions the token is
    sent to the tool node by the substring test, and the node appends
    nothing; and a reply of the server whose first choice has a message
    without content, or with the content [null], makes [_call_llm_node]
    raise, the messages being left as they were. *)
Lemma substring_fallback_appends_nothing_counterexample :
  let l := [HumanMessage "Which tools do you have?"; AIMessage Samples.prose] in
  let reply_with (message : json) :=
    OllamaClient.Body (JObj [("choices", JArr [JObj [("message", message)]])]) in
  Json.loads Samples.prose = Raise JSONDecodeError
  /\ Agent._should_continue l = Ok Agent.ToTools
  /\ Agent._call_tool_node (Samples.oracles Samples.one_call) l Samples.agent0
     = (Samples.agent0, Ok l)
  /\ (Agent._call_llm_node (OllamaClient.generate (reply_with (JObj [])))
        [HumanMessage "Which tools do you have?"] Samples.agent0).2
     = Raise KeyError
  /\ (Agent._call_llm_node (OllamaClient.generate (reply_with (JObj [("content", JNull)])))
        [HumanMessage "Which tools do you have?"] Samples.agent0).2
     = Raise TypeError.
Proof. vm_compute. repeat split; reflexivity. Qed.

(** ** What a turn commits to the store *)

(** C8, as the code has it: [handle] appends the prompt of the user to the
    store before the graph is started; no node of the graph writes to the
    store; when the graph has finished and an answer was found, that answer
    alone is appended, as one assistant message (the tool messages and the
    other assistant messages of the turn are never stored); when the turn
    fails after the prompt was appended, the prompt stays in the store; when
    reading the history or building the messages from it raises, which
    happens before the prompt is appended, the store is left as it was. *)
Theorem handle_commits
        (o : Oracles) (prompt : string) (search : pyval) (u : string) (s : state) :
  let outcome := Agent.handle o prompt search u s in
  let with_prompt := MemoryStore.add_message u "user" prompt (memory s) in
  match MemoryStore.get_history u (memory s) with
  | Raise _ => memory outcome.1 = memory s
  | Ok history =>
      match Agent.user_messages history with
      | Raise _ => memory outcome.1 = memory s
      | Ok _ =>
          match outcome.2 with
          | Ok response =>
              memory outcome.1 = MemoryStore.add_message u "assistant" response with_prompt
          | Raise _ => memory outcome.1 = with_prompt
          end
      end
  end
  /\ (forall (budget : nat) (channel : list Message) (s0 : state),
        memory (Agent.run_llm o budget channel s0).1 = memory s0).
Proof.
  cbv zeta. split; [|intros; apply run_llm_memory].
  rewrite handle_eq. cbv zeta.
  destruct (MemoryStore.get_history u (memory s)) as [history|e]; [|reflexivity].
  destruct (Agent.user_messages history) as [old|e]; [|reflexivity].
  match goal with
  | |- context [Agent.run_llm o ?b ?ch ?s2] =>
      pose proof (run_llm_memory o b ch s2) as Hm;
      destruct (Agent.run_llm o b ch s2) as [s3 [all_msgs|e]]
  end; cbn [fst snd memory] in *.
  - destruct (Agent.last_answer all_msgs); cbn [fst snd memory]; rewrite ?Hm; reflexivity.
  - exact Hm.
Qed.

(** C8 fails on the code: in a turn that a tool failure ends, the machine
    never reaches its end, and the store holds the prompt all the same. *)
Lemma prompt_committed_before_done_counterexample :
  let outcome := Agent.handle (Samples.oracles Samples.calls_without_location)
                   "What is the weather?" (PyBool false) "default" Samples.agent0 in
  MemoryStore.get_history "default" (memory Samples.agent0) = Ok []
  /\ outcome.2 = Raise ValidationError
  /\ MemoryStore.get_history "default" (memory outcome.1)
     = Ok [MemoryStore.entry "user" "What is the weather?"].
Proof. vm_compute. repeat split; reflexivity. Qed.

(** ** The search flag *)

Lemma advertised_tools (b : bool) :
  Prompt.advertises_search (Prompt.construct_sys_prompt b) = b
  /\ Prompt.advertises_weather (Prompt.construct_sys_prompt b) = true.
Proof. destruct b; vm_compute; split; reflexivity. Qed.

(** The requests of a run: the first one carries the instruction that the
    flag selects, the later ones the instruction with the search tool. *)
Lemma run_llm_instructions (o : Oracles) (budget : nat) :
  forall (channel : list Message) (s : state),
    (0 < budget)%nat ->
    exists p rest,
      sent (Agent.run_llm o budget channel s).1 = sent s ++ p :: rest
      /\ instruction p = Some (Prompt.construct_sys_prompt (truthy (search_global s)))
      /\ Forall (fun p' => instruction p' = Some (Prompt.construct_sys_prompt true)) rest.
Proof.
  induction budget as [budget IH] using lt_wf_ind. intros channel s Hb.
  destruct budget as [|b]; [lia|].
  rewrite run_llm_step. cbv zeta.
  set (p := Agent.system_message (Prompt.construct_sys_prompt (truthy (search_global s)))
            :: Agent._format_messages_for_ollama channel).
  assert (Hs1 : sent (after_llm channel s) = sent s ++ [p]) by reflexivity.
  destruct (routes_to_tools _).
  - destruct b as [|b'].
    + exists p, []. cbn [fst]. rewrite Hs1. repeat split. constructor.
    + pose proof (tool_node_sent o
                    (Agent.reduce_messages (channel ++ [AIMessage (reply o (List.length (sent s)))]))
                    (after_llm channel s)) as [Hsent Hflag].
      destruct (Agent._call_tool_node _ _ _) as [s2 [r2|e]]; cbn [fst] in *.
      * destruct b' as [|b''].
        -- exists p, []. cbn [Agent.run_llm raise fst]. rewrite Hsent, Hs1.
           repeat split. constructor.
        -- destruct (IH (S b'') ltac:(lia) (Agent.reduce_messages r2) s2 ltac:(lia))
             as (p' & rest & Hrun & Hp' & Hrest).
           exists p, (p' :: rest). rewrite Hrun, Hsent, Hs1, <- app_assoc.
           repeat split. constructor; [|exact Hrest].
           rewrite Hp', Hflag. reflexivity.
      * exists p, []. rewrite Hsent, Hs1. repeat split. constructor.
  - exists p, []. cbn [fst]. rewrite Hs1. repeat split. constructor.
Qed.

(** C2, what the code does: the first request of a turn advertises the
    search tool exactly when the flag of the call is a true value for
    Python, and the string ["false"], the default of [handle], is one;
    every later request of the same turn advertises it; the weather tool is
    advertised in every request. *)
Theorem search_flag_by_truthiness
        (o : Oracles) (prompt : string) (search : pyval) (u : string) (s : state)
        (history : list json) (old : list Message) :
  MemoryStore.get_history u (memory s) = Ok history ->
  Agent.user_messages history = Ok old ->
  (0 < recursion_limit o)%nat ->
  (exists p rest,
      sent (Agent.handle o prompt search u s).1 = sent s ++ p :: rest
      /\ instruction p = Some (Prompt.construct_sys_prompt (truthy search))
      /\ Forall (fun p' => instruction p' = Some (Prompt.construct_sys_prompt true)) rest)
  /\ (forall b : bool,
        Prompt.advertises_search (Prompt.construct_sys_prompt b) = b
        /\ Prompt.advertises_weather (Prompt.construct_sys_prompt b) = true)
  /\ truthy (PyStr "false") = true
  /\ truthy (PyBool false) = false.
Proof.
  intros Hh Hold Hb. split; [|split; [exact advertised_tools|split; reflexivity]].
  rewrite handle_eq, Hh, Hold. cbv zeta.
  match goal with
  | |- context [Agent.run_llm o ?b ?ch ?s2] =>
      destruct (run_llm_instructions o b ch s2 Hb) as (p & rest & Hrun & Hp & Hrest);
      destruct (Agent.run_llm o b ch s2) as [s3 [all_msgs|e]]
  end; cbn [fst sent search_global] in *.
  - exists p, rest. destruct (Agent.last_answer all_msgs); cbn [fst sent]; repeat split; assumption.
  - exists p, rest. repeat split; assumption.
Qed.

Lemma search_flag_by_truthiness_witness :
  exists p rest,
    sent (Agent.handle (Samples.oracles Samples.one_call) "What is the weather in Chicago?"
            (PyStr "false") "default" Samples.agent0).1
    = sent Samples.agent0 ++ p :: rest
    /\ instruction p = Some (Prompt.construct_sys_prompt (truthy (PyStr "false")))
    /\ Forall (fun p' => instruction p' = Some (Prompt.construct_sys_prompt true)) rest.
Proof.
  exact (proj1 (search_flag_by_truthiness (Samples.oracles Samples.one_call)
                  "What is the weather in Chicago?" (PyStr "false") "default" Samples.agent0
                  [] [] eq_refl eq_refl ltac:(cbn; lia))).
Defined.

(** ** Floating-point scores

    The scores are sums and products of floats that come from natural
    numbers: they are numbers, not NaN, and the comparisons of the sort are
    those of a total order. *)

Section Rounding.
Variables prec emax : Z.

Lemma shr_1_nonneg mrs : 0 <= shr_m mrs -> 0 <= shr_m (shr_1 mrs).
Proof.
  destruct mrs as [m r s]. cbn. intros H.
  destruct m as [|p|p]; cbn; try lia; destruct p; cbn; lia.
Qed.

Lemma iter_pos_nonneg (n : positive) :
  forall mrs, 0 <= shr_m mrs -> 0 <= shr_m (@SpecFloat.iter_pos shr_record shr_1 n mrs).
Proof.
  induction n as [n IH|n IH|]; intros mrs H; cbn.
  - apply IH, IH, shr_1_nonneg, H.
  - apply IH, IH, H.
  - apply shr_1_nonneg, H.
Qed.

Lemma shr_nonneg mrs e n : 0 <= shr_m mrs -> 0 <= shr_m (shr mrs e n).1.
Proof.
  intros H. unfold shr. destruct n; cbn; try exact H. apply iter_pos_nonneg, H.
Qed.

Lemma shr_fexp_nonneg m e l : 0 <= m -> 0 <= shr_m (shr_fexp prec emax m e l).1.
Proof.
  intros H. unfold shr_fexp. apply shr_nonneg.
  destruct l as [|[]]; cbn; exact H.
Qed.

Lemma round_nearest_even_nonneg mx lx : 0 <= mx -> 0 <= round_nearest_even mx lx.
Proof.
  intros H. unfold round_nearest_even. destruct lx as [|[]]; try lia.
  destruct (Z.even mx); lia.
Qed.

Lemma binary_round_aux_nonneg mx ex lx :
  0 <= mx -> nonneg_sf (binary_round_aux prec emax false mx ex lx).
Proof.
  intros H. unfold binary_round_aux.
  pose proof (shr_fexp_nonneg mx ex lx H) as H1.
  destruct (shr_fexp prec emax mx ex lx) as [mrs' e']. cbn [fst] in H1.
  pose proof (shr_fexp_nonneg _ e' loc_Exact
                (round_nearest_even_nonneg _ (loc_of_shr_record mrs') H1)) as H2.
  destruct (shr_fexp prec emax _ e' loc_Exact) as [mrs'' e'']. cbn [fst] in H2.
  destruct (shr_m mrs'') as [|p|p]; cbn; try reflexivity; try lia.
  destruct (e'' <=? emax - prec); reflexivity.
Qed.

Lemma binary_normalize_nonneg m e : 0 <= m -> nonneg_sf (binary_normalize prec emax m e false).
Proof.
  intros H. unfold binary_normalize. destruct m as [|p|p]; [reflexivity| |lia].
  unfold binary_round. destruct (shl_align _ _ _) as [mz ez].
  apply binary_round_aux_nonneg. lia.
Qed.

Lemma SFmul_nonneg x y : nonneg_sf x -> nonneg_sf y ->
  (exists m e, x = S754_finite false m e) -> nonneg_sf (SFmul prec emax x y).
Proof.
  intros Hx Hy (m & e & ->).
  destruct y as [s|s| |s m' e']; cbn in *; subst; try reflexivity; try contradiction.
  apply binary_round_aux_nonneg. lia.
Qed.

Lemma SFadd_nonneg x y : nonneg_sf x -> nonneg_sf y -> nonneg_sf (SFadd prec emax x y).
Proof.
  intros Hx Hy.
  destruct x as [s|s| |s m e], y as [s'|s'| |s' m' e']; cbn in *; subst;
    try reflexivity; try contradiction; try discriminate.
  all: try (apply binary_normalize_nonneg; unfold cond_Zopp; lia).
Qed.
End Rounding.

Lemma float_of_nat_nonneg n : nonneg_sf (Prim2SF (Search.float_of_nat n)).
Proof.
unfold Search.float_of_nat. rewrite of_uint63_spec.
apply binary_normalize_nonneg. apply Uint63.to_Z_bounded.
Qed.

Lemma score_nonneg q t : nonneg_sf (Prim2SF (Search.score_passage q t)).
Proof.
unfold Search.score_passage. rewrite add_spec, mul_spec.
apply SFadd_nonneg; [apply float_of_nat_nonneg|].
apply SFmul_nonneg; [reflexivity|apply float_of_nat_nonneg|].
eexists _, _. reflexivity.
Qed.

Section Order.

Lemma SFcompare_nonneg (x y : spec_float) :
  nonneg_sf x -> nonneg_sf y ->
  exists c, SFcompare x y = Some c
            /\ (c = Lt <-> rank_lt (sf_rank x) (sf_rank y))
            /\ (c = Gt <-> rank_lt (sf_rank y) (sf_rank x)).
Proof.
  intros Hx Hy. unfold rank_lt.
  destruct x as [s|s| |s m e], y as [s'|s'| |s' m' e']; cbn in *; subst;
    try contradiction;
    try (eexists; split; [reflexivity|]; cbn; split; split; intros H;
         try discriminate; try reflexivity; lia).
  change (Pos.compare_cont Eq m m') with (Pos.compare m m').
  eexists; split; [reflexivity|].
  destruct (Z.compare_spec e e'), (Pos.compare_spec m m'); cbn;
    split; split; intros Hc; try discriminate; try reflexivity; lia.
Qed.

Lemma ltb_rank (a b : float) :
  number a -> number b -> ((a <? b)%float = true <-> rank_lt (rank a) (rank b)).
Proof.
  intros Ha Hb. rewrite FloatAxioms.ltb_spec. unfold SFltb, rank.
  destruct (SFcompare_nonneg _ _ Ha Hb) as (c & -> & Hlt & _).
  rewrite <- Hlt. destruct c; split; intros H; try discriminate; reflexivity.
Qed.

Lemma leb_rank (a b : float) :
  number a -> number b -> ((a <=? b)%float = true <-> ~ rank_lt (rank b) (rank a)).
Proof.
  intros Ha Hb. rewrite FloatAxioms.leb_spec. unfold SFleb, rank.
  destruct (SFcompare_nonneg _ _ Ha Hb) as (c & -> & _ & Hgt).
  rewrite <- Hgt. destruct c; split; intros H; try discriminate; try reflexivity.
  exfalso. apply H. reflexivity.
Qed.

Lemma eqb_not_ltb (a b v : float) :
  number a -> number b ->
  (a =? v)%float = true -> (b =? v)%float = true -> (a <? b)%float = false.
Proof.
  unfold number. rewrite !FloatAxioms.eqb_spec, FloatAxioms.ltb_spec. unfold SFeqb, SFltb.
  destruct (Prim2SF a) as [s|s| |s m e], (Prim2SF b) as [s'|s'| |s' m' e'],
           (Prim2SF v) as [t|t| |t n f]; cbn; intros Ha Hb; subst;
    try contradiction; try discriminate; try reflexivity;
    try (destruct t; discriminate).
  destruct t; try discriminate.
  change (Pos.compare_cont Eq m n) with (Pos.compare m n).
  change (Pos.compare_cont Eq m' n) with (Pos.compare m' n).
  change (Pos.compare_cont Eq m m') with (Pos.compare m m').
  destruct (Z.compare_spec e f), (Z.compare_spec e' f); try discriminate.
  destruct (Pos.compare_spec m n), (Pos.compare_spec m' n); try discriminate.
  intros _ _. subst. rewrite Z.compare_refl, Pos.compare_refl. reflexivity.
Qed.

End Order.

Section Sorting.

Context {A : Type} (key : A -> float).

Abbreviation numbers := (Forall (fun x => number (key x))).
Abbreviation desc := (StronglySorted (fun a b => (key b <=? key a)%float = true)).

Lemma insert_desc_perm (x : A) (l : list A) :
  Permutation (Search.insert_desc key x l) (x :: l).
Proof.
  induction l as [|y l IH]; cbn; [reflexivity|].
  destruct (key x <? key y)%float; [|reflexivity].
  rewrite IH. apply perm_swap.
Qed.

Lemma sort_desc_perm (l : list A) : Permutation (Search.sort_desc key l) l.
Proof.
  induction l as [|x l IH]; cbn; [reflexivity|].
  rewrite insert_desc_perm. constructor. exact IH.
Qed.

Lemma insert_desc_sorted (x : A) (l : list A) :
  number (key x) -> numbers l -> desc l -> desc (Search.insert_desc key x l).
Proof.
  intros Hx Hl Hs. induction l as [|y l IH]; cbn.
  - constructor; constructor.
  - apply Forall_cons in Hl as [Hy Hl].
    apply StronglySorted_inv in Hs as [Hs Hall].
    destruct (key x <? key y)%float eqn:E.
    + constructor; [apply IH; assumption|].
      rewrite (insert_desc_perm x l). constructor; [|exact Hall].
      apply leb_rank; try assumption. apply ltb_rank in E; try assumption.
      unfold rank_lt in *. lia.
    + assert (Hxy : (key y <=? key x)%float = true).
      { apply leb_rank; try assumption. intros H.
        apply ltb_rank in H; try assumption. congruence. }
      constructor; [constructor; assumption|].
      constructor; [exact Hxy|].
      rewrite Forall_forall in Hall, Hl |- *. intros z Hz.
      specialize (Hall z Hz). specialize (Hl z Hz).
      apply leb_rank in Hall, Hxy; try assumption.
      apply leb_rank; try assumption. unfold rank_lt in *. lia.
Qed.

Lemma sort_desc_sorted (l : list A) : numbers l -> desc (Search.sort_desc key l).
Proof.
  intros Hl. induction l as [|x l IH]; cbn; [constructor|].
  apply Forall_cons in Hl as [Hx Hl].
  apply insert_desc_sorted; [exact Hx| |apply IH, Hl].
  rewrite (sort_desc_perm l). exact Hl.
Qed.

Lemma insert_desc_stable (v : float) (x : A) (l : list A) :
  number (key x) -> numbers l ->
  List.filter (fun p => (key p =? v)%float) (Search.insert_desc key x l)
  = List.filter (fun p => (key p =? v)%float) (x :: l).
Proof.
  intros Hx Hl. induction l as [|y l IH]; [reflexivity|].
  apply Forall_cons in Hl as [Hy Hl]. cbn [Search.insert_desc].
  destruct (key x <? key y)%float eqn:E; [|reflexivity].
  cbn [List.filter] in *. rewrite (IH Hl).
  destruct (key x =? v)%float eqn:Ex, (key y =? v)%float eqn:Ey; try reflexivity.
  rewrite (eqb_not_ltb _ _ v Hx Hy Ex Ey) in E. discriminate.
Qed.

Lemma sort_desc_stable (v : float) (l : list A) :
  numbers l ->
  List.filter (fun p => (key p =? v)%float) (Search.sort_desc key l)
  = List.filter (fun p => (key p =? v)%float) l.
Proof.
  intros Hl. induction l as [|x l IH]; [reflexivity|].
  apply Forall_cons in Hl as [Hx Hl]. cbn [Search.sort_desc fold_right].
  fold (Search.sort_desc key l).
  rewrite insert_desc_stable; [|exact Hx|rewrite (sort_desc_perm l); exact Hl].
  cbn [List.filter]. rewrite (IH Hl). reflexivity.
Qed.

End Sorting.

(** ** Passage ranking *)

Lemma sum_indicator {A : Type} (p : A -> bool) (l : list A) :
  Search.sum ((fun x => if p x then 1%nat else O) <$> l) = List.length (List.filter p l).
Proof.
  induction l as [|x l IH]; cbn; [reflexivity|].
  unfold Search.sum in IH. destruct (p x); cbn; rewrite IH; reflexivity.
Qed.

Lemma kept_paragraphs_spec (docs : list string) (para : string) :
  In para (Search.kept_paragraphs docs)
  <-> (60 <= Unicode.len para)%nat
      /\ exists doc line, In doc docs /\ In line (Text.split_on "010" doc)
                          /\ para = Unicode.strip line.
Proof.
  unfold Search.kept_paragraphs. rewrite filter_In, in_flat_map. split.
  - intros [(doc & Hdoc & Hpara) Hlen].
    apply list_elem_of_In, list_elem_of_fmap in Hpara as (line & -> & Hline).
    apply list_elem_of_In in Hline.
    split; [|exists doc, line; auto].
    apply negb_true_iff, Nat.ltb_ge in Hlen. exact Hlen.
  - intros [Hlen (doc & line & Hdoc & Hline & ->)]. split.
    + exists doc. split; [exact Hdoc|].
      apply list_elem_of_In, list_elem_of_fmap. exists line.
      split; [reflexivity|apply list_elem_of_In, Hline].
    + apply negb_true_iff, Nat.ltb_ge. exact Hlen.
Qed.

Lemma scored_numbers (q : string) (docs : list string) :
  Forall (fun p => number p.1) (Search.scored q docs).
Proof.
  unfold Search.scored. induction (Search.kept_paragraphs docs) as [|para l IH]; cbn.
  - constructor.
  - constructor; [apply score_nonneg|exact IH].
Qed.

(** The paragraphs and their scores, written with the operations of Python
    only. *)
Lemma scored_eq (q : string) (docs : list string) :
  let terms := List.filter (fun t => Nat.ltb 2 (Unicode.len t))
                           (Unicode.findall_words (Unicode.lower q)) in
  let score (para : string) : float :=
    (Search.float_of_nat (Search.sum (Text.count (Unicode.lower para) <$> terms))
     + 0x1.3333333333333p-2
       * Search.float_of_nat
           (List.length
              (List.filter (fun term => Search.mem term (Unicode.split (Unicode.lower para)))
                           terms)))%float in
  let paragraphs :=
    List.filter (fun para => Nat.leb 60 (Unicode.len para))
                (List.flat_map (fun doc => Unicode.strip <$> Text.split_on "010" doc) docs) in
  Search.kept_paragraphs docs = paragraphs
  /\ Search.scored q docs = (fun para => (score para, para)) <$> paragraphs.
Proof.
  cbv zeta.
  assert (Hk : Search.kept_paragraphs docs
               = List.filter (fun para => Nat.leb 60 (Unicode.len para))
                   (List.flat_map (fun doc => Unicode.strip <$> Text.split_on "010" doc) docs)).
  { unfold Search.kept_paragraphs. apply filter_ext. intros para.
    destruct (Nat.leb_spec 60 (Unicode.len para)) as [H|H].
    - apply negb_true_iff, Nat.ltb_ge, H.
    - apply negb_false_iff, Nat.ltb_lt, H. }
  split; [exact Hk|].
  unfold Search.scored. rewrite <- Hk. apply list_fmap_ext. intros _ para _.
  unfold Search.score_passage, Search.presences. rewrite sum_indicator. reflexivity.
Qed.

(** C7, as the code has it: [top_passages] splits every document on line
    breaks, strips each line and keeps those of 60 characters or more;
    the terms of the query are the words ([\w+]) of three characters or
    more of the query in lower case; the score of a paragraph is the float
    sum of the occurrences of the terms in the paragraph in lower case and
    of 0.3 times the number of terms, each counted as often as the query
    repeats it, that are one of the blank-separated words of the paragraph
    in lower case; the result is the first [k] paragraphs of the stable
    arrangement by decreasing score: a permutation of the scored
    paragraphs, in which no paragraph follows one of a smaller score and
    paragraphs of equal score keep the order in which they were met.
    Characters, white space, words and lower case are those of Python on
    [str].  Being a function of the query and of the documents, the result
    is deterministic. *)
Theorem top_passages_ranking (q : string) (docs : list string) (k : nat) :
  let terms := List.filter (fun t => Nat.ltb 2 (Unicode.len t))
                           (Unicode.findall_words (Unicode.lower q)) in
  let score (para : string) : float :=
    (Search.float_of_nat (Search.sum (Text.count (Unicode.lower para) <$> terms))
     + 0x1.3333333333333p-2
       * Search.float_of_nat
           (List.length
              (List.filter (fun term => Search.mem term (Unicode.split (Unicode.lower para)))
                           terms)))%float in
  let paragraphs :=
    List.filter (fun para => Nat.leb 60 (Unicode.len para))
                (List.flat_map (fun doc => Unicode.strip <$> Text.split_on "010" doc) docs) in
  let scored := (fun para => (score para, para)) <$> paragraphs in
  let ranked := Search.sort_desc fst scored in
  Search.top_passages q docs k = (List.firstn k ranked).*2
  /\ Permutation ranked scored
  /\ StronglySorted (fun a b => (b.1 <=? a.1)%float = true) ranked
  /\ (forall v : float,
        List.filter (fun p => (p.1 =? v)%float) ranked
        = List.filter (fun p => (p.1 =? v)%float) scored)
  /\ (forall para : string,
        In para paragraphs
        <-> (60 <= Unicode.len para)%nat
            /\ exists doc line, In doc docs /\ In line (Text.split_on "010" doc)
                                /\ para = Unicode.strip line)
  /\ Search.query_terms q = terms
  /\ (forall text : string, Search.score_passage q text = score text)
  /\ (List.length (Search.top_passages q docs k) <= k)%nat.
Proof.
  cbv zeta. destruct (scored_eq q docs) as [Hk Hs]. cbv zeta in Hk, Hs.
  rewrite <- Hs, <- Hk.
  split; [reflexivity|]. split; [apply sort_desc_perm|].
  split; [apply (sort_desc_sorted fst), scored_numbers|].
  split; [intros v; apply (sort_desc_stable fst), scored_numbers|].
  split; [apply kept_paragraphs_spec|].
  split; [reflexivity|].
  split.
  - intros text. unfold Search.score_passage, Search.presences.
    rewrite sum_indicator. reflexivity.
  - unfold Search.top_passages. rewrite length_fmap, length_firstn. lia.
Qed.

(** Characters and bytes: a line of 59 characters is discarded whatever
    the number of its bytes, and a letter with an accent is part of a
    word. *)
Lemma ranking_counts_characters :
  String.length Samples.curly_line = 61%nat
  /\ Unicode.len Samples.curly_line = 59%nat
  /\ Search.top_passages "fifty-nine characters" [Samples.curly_line] 6 = []
  /\ Search.query_terms "Le CAFÉ, ééé, où ?" = ["café"; "ééé"].
Proof. vm_compute. repeat split; reflexivity. Qed.

(** C7 fails on the code: for a query that repeats a term, the bonus is
    counted once per repetition, not once per distinct term, and the first
    passage is not the one that the score of the specification ranks
    first. *)
Lemma repeated_term_bonus_counterexample :
  let q := Samples.repeated_query in
  let docs := [Samples.about_tutorials; Samples.about_python] in
  Search.presences q Samples.about_python = 4%nat
  /\ SpecWords.presences q Samples.about_python = 1%nat
  /\ (SpecWords.score_passage q Samples.about_python
      <? Search.score_passage q Samples.about_python)%float = true
  /\ Search.top_passages q docs 1 = [Samples.about_python]
  /\ SpecWords.top_passages q docs 1 = [Samples.about_tutorials].
Proof. vm_compute. repeat split; reflexivity. Qed.

(** ** The resolver without credentials *)

(** C5, as the code has it: when one of the two credentials is absent or
    empty and no fast path returns, [google_cse] raises [RuntimeError] with
    the text that names the missing configuration, and the exception leaves
    [smart_search]: the resolver returns no answer at all, neither the
    text nor a silent empty result. *)
Theorem missing_credentials_raise (env : Search.Env) (query : string) :
  (Search.unset (Search.GOOGLE_API_KEY env) || Search.unset (Search.GOOGLE_CSE_ID env))%bool
  = true ->
  Search.fast_path env query = None ->
  Search.smart_search env query
  = Raise (RuntimeError "Missing GOOGLE_API_KEY or GOOGLE_CSE_ID")
  /\ (forall num pages dateRestrict,
        Search.google_cse env query num pages dateRestrict
        = Raise (RuntimeError "Missing GOOGLE_API_KEY or GOOGLE_CSE_ID")).
Proof.
  intros Hcred Hfast.
  assert (Hcse : forall num pages dateRestrict,
             Search.google_cse env query num pages dateRestrict
             = Raise (RuntimeError "Missing GOOGLE_API_KEY or GOOGLE_CSE_ID")).
  { intros. unfold Search.google_cse. rewrite Hcred. reflexivity. }
  split; [|exact Hcse].
  unfold Search.smart_search. rewrite Hfast. unfold Search.recall. rewrite Hcse. reflexivity.
Qed.

Lemma missing_credentials_raise_witness :
  (Search.unset (Search.GOOGLE_API_KEY Samples.offline)
   || Search.unset (Search.GOOGLE_CSE_ID Samples.offline))%bool = true
  /\ Search.fast_path Samples.offline "Barack Obama current age" = None
  /\ Search.smart_search Samples.offline "Barack Obama current age"
     = Raise (RuntimeError "Missing GOOGLE_API_KEY or GOOGLE_CSE_ID").
Proof.
  split; [reflexivity|]. split; [vm_compute; reflexivity|].
  exact (proj1 (missing_credentials_raise Samples.offline "Barack Obama current age"
                  eq_refl ltac:(vm_compute; reflexivity))).
Defined.

(** C5 fails on the code: without credentials a general query gets no
    answer; the resolver ends with the exception. *)
Lemma no_answer_without_credentials_counterexample :
  Search.detect_intent "quantum computing basics" = Search.general
  /\ Search.fast_path Samples.offline "quantum computing basics" = None
  /\ Search.smart_search Samples.offline "quantum computing basics"
     = Raise (RuntimeError "Missing GOOGLE_API_KEY or GOOGLE_CSE_ID")
  /\ is_ok (Search.smart_search Samples.offline "quantum computing basics") = false.
Proof. vm_compute. repeat split; reflexivity. Qed.

(** ** The search flag at the default of [handle] *)

(** C2 at the failing input: in a turn with one tool round trip, the flag
    ["false"] (the default of [handle]) makes both requests advertise the
    search tool, and the flag [False] makes the second request advertise
    it. *)
Theorem string_false_flag_advertises_search :
  let advertised flag :=
    (fun p => Prompt.advertises_search <$> instruction p)
      <$> sent (Agent.handle (Samples.oracles Samples.one_call)
                  "What is the weather in Chicago?" flag "default" Samples.agent0).1 in
  advertised (PyStr "false") = [Some true; Some true]
  /\ advertised (PyBool false) = [Some false; Some true]
  /\ advertised (PyBool true) = [Some true; Some true].
Proof. vm_compute. repeat split; reflexivity. Qed.

(** * Further properties *)

(** ** Facts on texts *)


Lemma length_append (a b : string) :
  String.length (a +:+ b) = (String.length a + String.length b)%nat.
Proof. induction a as [|c a IH]; [reflexivity|]. rewrite append_cons. cbn. rewrite IH. reflexivity. Qed.

Lemma starts_with_iff (p s : string) :
  Text.starts_with p s = true <-> exists b, s = p +:+ b.
Proof.
  unfold Text.starts_with. revert s. induction p as [|a p IH]; intros s.
  - split; [intros _; exists s; reflexivity|destruct s; reflexivity].
  - destruct s as [|c s]; cbn [String.prefix].
    + split; [discriminate|]. intros [b Hb]. rewrite append_cons in Hb. discriminate.
    + destruct (Ascii.ascii_dec a c) as [->|Hne].
      * rewrite IH. split; intros [b Hb]; exists b.
        -- rewrite append_cons, Hb. reflexivity.
        -- rewrite append_cons in Hb. injection Hb. auto.
      * split; [discriminate|]. intros [b Hb]. rewrite append_cons in Hb.
        injection Hb as H _. congruence.
Qed.

Lemma contains_iff (n s : string) :
  Text.contains n s = true <-> exists a b, s = a +:+ n +:+ b.
Proof.
  induction s as [|c s IH]; cbn [Text.contains].
  - rewrite starts_with_iff. split.
    + intros [b Hb]. exists EmptyString, b. exact Hb.
    + intros (a & b & H). destruct a; [exists b; exact H|].
      rewrite append_cons in H. discriminate.
  - rewrite orb_true_iff, starts_with_iff, IH. split.
    + intros [[b Hb]|(a & b & H)].
      * exists EmptyString, b. exact Hb.
      * exists (String c a), b. rewrite append_cons, H. reflexivity.
    + intros (a & b & H). destruct a as [|c' a].
      * left. exists b. exact H.
      * right. rewrite append_cons in H. injection H as _ H. exists a, b. exact H.
Qed.


Lemma lower_app (a b : string) : Text.lower (a +:+ b) = Text.lower a +:+ Text.lower b.
Proof.
  induction a as [|c a IH]; [reflexivity|].
  rewrite append_cons. cbn [Text.lower]. rewrite IH, append_cons. reflexivity.
Qed.

(** ** The router and the parser *)

Lemma parsed_routes (c : string) (x : json * json) :
  Agent._parse_tool_call c = Some x -> routes_to_tools c = true.
Proof.
  unfold Agent._parse_tool_call, routes_to_tools, Agent._should_continue. cbn [last].
  destruct (Json.loads c) as [[| | | | |data]|]; try discriminate.
  unfold Json.has_key.
  destruct (Json.obj_get "tool_call" data); [reflexivity|discriminate].
Qed.

(** X1: a reply that the tool node can read as a directive is always sent to
    the tool node: whenever [_parse_tool_call] finds a name and arguments in
    the text of the last assistant message, [_should_continue] answers
    [tools]. *)
Theorem parsed_directive_is_routed (l : list Message) (c : string) (name args : json) :
  Agent._parse_tool_call c = Some (name, args) ->
  Agent._should_continue (l ++ [AIMessage c]) = Ok Agent.ToTools.
Proof.
  intros Hp. rewrite (should_continue_ai _ c (last_snoc _ _)).
  rewrite (parsed_routes c _ Hp). reflexivity.
Qed.

Lemma parsed_directive_is_routed_witness :
  Agent._should_continue ([HumanMessage "What is the weather in Chicago?"]
                            ++ [AIMessage Samples.weather_call])
  = Ok Agent.ToTools.
Proof.
  exact (parsed_directive_is_routed [HumanMessage "What is the weather in Chicago?"]
           Samples.weather_call (JStr "get_current_weather")
           (JObj [("location", JStr "Chicago, IL")]) ltac:(vm_compute; reflexivity)).
Defined.

(** ** The history that a turn replays *)

Lemma user_messages_step (fields : list (string * json)) (rest : list json) :
  Agent.user_messages (JObj fields :: rest)
  = match Json.obj_get "role" fields with
    | None => Raise KeyError
    | Some v =>
        if is_user v then
          match Json.obj_get "text" fields with
          | None => Raise KeyError
          | Some (JStr t) =>
              match Agent.user_messages rest with
              | Ok l => Ok (HumanMessage t :: l)
              | Raise e => Raise e
              end
          | Some _ => Raise ValidationError
          end
        else Agent.user_messages rest
    end.
Proof.
  cbn [Agent.user_messages].
  destruct (Json.obj_get "role" fields) as [[| | |r| |]|]; try reflexivity.
  unfold is_user.
  destruct r as [|c1 r]; [reflexivity|].
  destruct c1 as [[] [] [] [] [] [] [] []]; try reflexivity.
  destruct r as [|c2 r]; [reflexivity|].
  destruct c2 as [[] [] [] [] [] [] [] []]; try reflexivity.
  destruct r as [|c3 r]; [reflexivity|].
  destruct c3 as [[] [] [] [] [] [] [] []]; try reflexivity.
  destruct r as [|c4 r]; [reflexivity|].
  destruct c4 as [[] [] [] [] [] [] [] []]; try reflexivity.
  destruct r; reflexivity.
Qed.

Lemma user_messages_human (history : list json) :
  forall old, Agent.user_messages history = Ok old -> Forall (fun m => is_ai m = false) old.
Proof.
  induction history as [|m rest IH]; intros old H.
  - injection H as <-. constructor.
  - destruct m as [| | | | |fields]; try discriminate H.
    rewrite user_messages_step in H.
    destruct (Json.obj_get "role" fields) as [v|]; [|discriminate].
    destruct (is_user v); [|apply IH, H].
    destruct (Json.obj_get "text" fields) as [[| | |t| |]|]; try discriminate.
    destruct (Agent.user_messages rest) as [l|]; [|discriminate].
    injection H as <-. constructor; [reflexivity|apply IH; reflexivity].
Qed.

Lemma user_messages_entries (entries : list (string * string)) :
  Agent.user_messages ((fun e => MemoryStore.entry e.1 e.2) <$> entries)
  = Ok (HumanMessage <$> (List.filter (fun e => String.eqb e.1 "user") entries).*2).
Proof.
  induction entries as [|[r t] l IH]; [reflexivity|].
  cbn [fmap list_fmap fst snd]. unfold MemoryStore.entry at 1.
  rewrite user_messages_step.
  change (Json.obj_get "role" [("role", JStr r); ("text", JStr t)]) with (Some (JStr r)).
  change (Json.obj_get "text" [("role", JStr r); ("text", JStr t)]) with (Some (JStr t)).
  cbn [is_user List.filter fst]. fold (@fmap list _ _ _ (fun e : string * string => MemoryStore.entry e.1 e.2) l).
  rewrite IH. destruct (String.eqb r "user"); reflexivity.
Qed.

Section MoreTurnFacts.

Import Agent.

Variable o : Oracles.

Lemma run_llm_sent (budget : nat) :
  forall (channel : list Message) (s : state),
    exists rest, sent (run_llm o budget channel s).1 = sent s ++ rest.
Proof.
  induction budget as [budget IH] using lt_wf_ind. intros channel s.
  destruct budget as [|b]; [exists []; cbn; rewrite app_nil_r; reflexivity|].
  rewrite run_llm_step. cbv zeta.
  destruct (routes_to_tools _); [|eexists; reflexivity].
  destruct b as [|b']; [eexists; reflexivity|].
  pose proof (tool_node_sent o
                (reduce_messages (channel ++ [AIMessage (reply o (List.length (sent s)))]))
                (after_llm channel s)) as [Hsent _].
  destruct (_call_tool_node _ _ _) as [s2 [r2|e]]; cbn [fst] in *.
  - destruct (IH b' ltac:(lia) (reduce_messages r2) s2) as [rest Hrest].
    rewrite Hrest, Hsent. cbn [after_llm sent]. rewrite <- app_assoc. eexists. reflexivity.
  - rewrite Hsent. eexists. reflexivity.
Qed.

(** The first request of a run. *)
Lemma run_llm_first_request (budget : nat) (channel : list Message) (s : state) :
  (0 < budget)%nat ->
  exists rest,
    sent (run_llm o budget channel s).1
    = sent s ++ (system_message (Prompt.construct_sys_prompt (truthy (search_global s)))
                 :: _format_messages_for_ollama channel) :: rest.
Proof.
  intros Hb. destruct budget as [|b]; [lia|].
  rewrite run_llm_step. cbv zeta.
  destruct (routes_to_tools _); [|exists []; reflexivity].
  destruct b as [|b']; [exists []; reflexivity|].
  pose proof (tool_node_sent o
                (reduce_messages (channel ++ [AIMessage (reply o (List.length (sent s)))]))
                (after_llm channel s)) as [Hsent _].
  destruct (_call_tool_node _ _ _) as [s2 [r2|e]]; cbn [fst] in *.
  - destruct (run_llm_sent b' (reduce_messages r2) s2) as [rest Hrest].
    rewrite Hrest, Hsent. cbn [after_llm sent]. rewrite <- app_assoc. exists rest. reflexivity.
  - rewrite Hsent. exists []. reflexivity.
Qed.

Lemma handle_sent (prompt : string) (search : pyval) (u : string) (s : state)
      (history : list json) (old : list Message) :
  MemoryStore.get_history u (memory s) = Ok history ->
  user_messages history = Ok old ->
  sent (handle o prompt search u s).1
  = sent (run_llm o (recursion_limit o) (old ++ [HumanMessage prompt])
            {| memory := MemoryStore.add_message u "user" prompt (memory s);
               search_global := search; sent := sent s; dispatched := dispatched s |}).1.
Proof.
  intros Hh Hold. rewrite handle_eq, Hh, Hold. cbv zeta.
  destruct (run_llm _ _ _ _) as [s3 [all_msgs|e]]; [|reflexivity].
  destruct (last_answer all_msgs); reflexivity.
Qed.

End MoreTurnFacts.

(** X2: every turn starts from the prompts of the user alone: the request that
    opens the turn holds the system instruction, the texts of the stored
    entries whose role is [user], in their order, and the new prompt.  The
    answers of the assistant that the store holds are not sent. *)
Theorem first_request_replays_user_prompts
        (o : Oracles) (prompt : string) (search : pyval) (u : string) (s : state)
        (entries : list (string * string)) :
  MemoryStore.get_history u (memory s)
  = Ok ((fun e => MemoryStore.entry e.1 e.2) <$> entries) ->
  (0 < recursion_limit o)%nat ->
  exists rest,
    sent (Agent.handle o prompt search u s).1
    = sent s
      ++ (Agent.system_message (Prompt.construct_sys_prompt (truthy search))
          :: ((fun e => {| chat_role := "user"; chat_content := e.2 |})
                <$> List.filter (fun e => String.eqb e.1 "user") entries)
          ++ [{| chat_role := "user"; chat_content := prompt |}])
      :: rest.
Proof.
  intros Hh Hb.
  rewrite (handle_sent o prompt search u s _ _ Hh (user_messages_entries entries)).
  destruct (run_llm_first_request o (recursion_limit o)
              ((HumanMessage <$> (List.filter (fun e => String.eqb e.1 "user") entries).*2)
               ++ [HumanMessage prompt])
              {| memory := MemoryStore.add_message u "user" prompt (memory s);
                 search_global := search; sent := sent s; dispatched := dispatched s |} Hb)
    as [rest Hrest].
  exists rest. rewrite Hrest. cbn [sent search_global].
  unfold Agent._format_messages_for_ollama.
  rewrite fmap_app, <- !list_fmap_compose. reflexivity.
Qed.

Lemma first_request_replays_user_prompts_witness :
  let s := new_agent (MemoryStore.add_message "default" "assistant" "Hello!"
                        (MemoryStore.add_message "default" "user" "Hi" MemoryStore.fallback)) in
  exists rest,
    sent (Agent.handle (Samples.oracles Samples.one_call) "What is the weather in Chicago?"
            (PyBool false) "default" s).1
    = sent s
      ++ (Agent.system_message (Prompt.construct_sys_prompt (truthy (PyBool false)))
          :: ((fun e => {| chat_role := "user"; chat_content := e.2 |})
                <$> List.filter (fun e => String.eqb e.1 "user")
                      [("user", "Hi"); ("assistant", "Hello!")])
          ++ [{| chat_role := "user"; chat_content := "What is the weather in Chicago?" |}])
      :: rest.
Proof.
  exact (first_request_replays_user_prompts (Samples.oracles Samples.one_call)
           "What is the weather in Chicago?" (PyBool false) "default"
           (new_agent (MemoryStore.add_message "default" "assistant" "Hello!"
                         (MemoryStore.add_message "default" "user" "Hi" MemoryStore.fallback)))
           [("user", "Hi"); ("assistant", "Hello!")]
           ltac:(vm_compute; reflexivity) ltac:(cbn; lia)).
Defined.

(** ** Other users *)

(** X3: a turn for one user leaves the history of every other user as it was,
    whatever the outcome of the turn. *)
Theorem handle_leaves_other_users
        (o : Oracles) (prompt : string) (search : pyval) (u v : string) (s : state) :
  u <> v ->
  MemoryStore.get_history v (memory (Agent.handle o prompt search u s).1)
  = MemoryStore.get_history v (memory s).
Proof.
  intros Hne. rewrite handle_eq. cbv zeta.
  destruct (MemoryStore.get_history u (memory s)) as [history|e]; [|reflexivity].
  destruct (Agent.user_messages history) as [old|e]; [|reflexivity].
  match goal with
  | |- context [Agent.run_llm o ?b ?ch ?s2] =>
      pose proof (run_llm_memory o b ch s2) as Hm;
      destruct (Agent.run_llm o b ch s2) as [s3 [all_msgs|e]]
  end; cbn [fst snd memory] in *.
  - destruct (Agent.last_answer all_msgs); cbn [fst memory]; rewrite Hm;
      rewrite ?get_history_add_ne by exact Hne; reflexivity.
  - rewrite Hm. apply get_history_add_ne, Hne.
Qed.

Lemma handle_leaves_other_users_witness :
  let s := new_agent (MemoryStore.add_message "bob" "user" "Hi" MemoryStore.fallback) in
  MemoryStore.get_history "bob"
    (memory (Agent.handle (Samples.oracles Samples.one_call) "What is the weather in Chicago?"
               (PyBool false) "alice" s).1)
  = MemoryStore.get_history "bob" (memory s).
Proof.
  exact (handle_leaves_other_users (Samples.oracles Samples.one_call)
           "What is the weather in Chicago?" (PyBool false) "alice" "bob"
           (new_agent (MemoryStore.add_message "bob" "user" "Hi" MemoryStore.fallback))
           ltac:(discriminate)).
Defined.

(** ** The answer of a turn *)

Lemma last_answer_ai (l : list Message) (c : string) :
  Agent.last_answer (l ++ [AIMessage c])
  = if Text.nonempty c then Some c else Agent.last_answer l.
Proof.
  unfold Agent.last_answer. rewrite rev_app_distr. cbn.
  destruct (Text.nonempty c); reflexivity.
Qed.

Lemma last_answer_other (l : list Message) (m : Message) :
  is_ai m = false -> Agent.last_answer (l ++ [m]) = Agent.last_answer l.
Proof.
  intros Hm. unfold Agent.last_answer. rewrite rev_app_distr. cbn. rewrite Hm. reflexivity.
Qed.

Lemma find_twice {A : Type} (p : A -> bool) (l l' : list A) :
  List.find p (l ++ l')
  = match List.find p l with Some x => Some x | None => List.find p l' end.
Proof. induction l as [|x l IH]; [reflexivity|]. cbn. destruct (p x); [reflexivity|exact IH]. Qed.

Lemma last_answer_reduce (l : list Message) :
  Agent.last_answer (Agent.reduce_messages l) = Agent.last_answer l.
Proof.
  unfold Agent.last_answer, Agent.reduce_messages. rewrite rev_app_distr, find_twice.
  destruct (List.find _ (List.rev l)); reflexivity.
Qed.

Lemma last_answer_humans (l : list Message) :
  Forall (fun m => is_ai m = false) l -> Agent.last_answer l = None.
Proof.
  induction l as [|m l IH] using rev_ind; intros H; [reflexivity|].
  apply Forall_app in H as [Hl Hm]. apply Forall_cons in Hm as [Hm _].
  rewrite (last_answer_other _ _ Hm). apply IH, Hl.
Qed.

Lemma dispatch_not_ai (o : Oracles) (i : nat) (name args : json) (m : Message) :
  Agent.dispatch o i name args = Ok m -> is_ai m = false.
Proof.
  unfold Agent.dispatch. intros Hd.
  destruct (Agent.lookup_tool name) as [fn|]; [|discriminate].
  destruct (match fn with Some f => _ | None => _ end); [|discriminate].
  destruct (Agent.message_name name); [|discriminate].
  injection Hd as <-. reflexivity.
Qed.

Lemma routed_nonempty (c : string) : routes_to_tools c = true -> Text.nonempty c = true.
Proof. destruct c; [discriminate|reflexivity]. Qed.

Lemma latest_reply_shift (o : Oracles) (start k : nat) :
  latest_reply o start (S k)
  = match latest_reply o (S start) k with
    | Some r => Some r
    | None => if Text.nonempty (reply o start) then Some (reply o start) else None
    end.
Proof.
  induction k as [|k IH].
  - cbn [latest_reply]. rewrite !Nat.add_0_r, Nat.add_1_r.
    destruct (Text.nonempty (reply o (S start))); reflexivity.
  - cbn [latest_reply] in *.
    replace (start + S (S k))%nat with (S start + S k)%nat by lia.
    destruct (Text.nonempty (reply o (S start + S k))); [reflexivity|].
    exact IH.
Qed.

Section AnswerFacts.

Import Agent.

Variable o : Oracles.

(** The answer that a run leaves: the latest reply that is not empty, and
    what the list held before when every reply is empty. *)
Lemma run_llm_answer (k : nat) :
  forall (budget : nat) (channel : list Message) (s : state),
    (forall i, (i < k)%nat ->
               routes_to_tools (reply o (List.length (sent s) + i)) = true) ->
    routes_to_tools (reply o (List.length (sent s) + k)) = false ->
    (forall i j name args, (i < k)%nat ->
       _parse_tool_call (reply o (List.length (sent s) + i)) = Some (name, args) ->
       is_ok (dispatch o j name args) = true) ->
    (2 * k + 1 <= budget)%nat ->
    exists s' msgs,
      run_llm o budget channel s = (s', Ok msgs)
      /\ last_answer msgs
         = match latest_reply o (List.length (sent s)) k with
           | Some r => Some r
           | None => last_answer channel
           end.
Proof.
  induction k as [|k IH]; intros budget channel s Hcalls Hlast Hok Hb.
  - destruct budget as [|b]; [lia|].
    rewrite run_llm_step. cbn zeta. rewrite Nat.add_0_r in Hlast. rewrite Hlast.
    eexists _, _. split; [reflexivity|].
    rewrite last_answer_ai. cbn [latest_reply]. rewrite Nat.add_0_r.
    destruct (Text.nonempty _); reflexivity.
  - destruct budget as [|[|b]]; [lia|lia|].
    rewrite run_llm_step. cbn zeta.
    pose proof (Hcalls O ltac:(lia)) as H0. rewrite Nat.add_0_r in H0. rewrite H0.
    set (c := reply o (List.length (sent s))) in *.
    set (s1 := after_llm channel s).
    assert (Hlen : List.length (sent s1) = S (List.length (sent s))).
    { subst s1. cbn [after_llm sent]. rewrite length_app. cbn. lia. }
    rewrite (tool_node_eq o _ c s1 (last_reduce _ _)).
    rewrite latest_reply_shift. fold c. rewrite (routed_nonempty c H0).
    assert (Hnext : forall s2 ch2, sent s2 = sent s1 -> last_answer ch2 = Some c ->
              exists s' msgs,
                run_llm o b ch2 s2 = (s', Ok msgs)
                /\ last_answer msgs
                   = match latest_reply o (S (List.length (sent s))) k with
                     | Some r => Some r
                     | None => Some c
                     end).
    { intros s2 ch2 Hs2 Hch2.
      destruct (IH b ch2 s2) as (s' & msgs & Hrun & Hl).
      - intros i Hi. rewrite Hs2, Hlen.
        replace (S (List.length (sent s)) + i)%nat with (List.length (sent s) + S i)%nat by lia.
        apply Hcalls. lia.
      - rewrite Hs2, Hlen.
        replace (S (List.length (sent s)) + k)%nat with (List.length (sent s) + S k)%nat by lia.
        exact Hlast.
      - intros i j name args Hi Hp. rewrite Hs2, Hlen in Hp.
        replace (S (List.length (sent s)) + i)%nat with (List.length (sent s) + S i)%nat in Hp by lia.
        apply (Hok (S i) j name args); [lia|exact Hp].
      - lia.
      - rewrite Hs2, Hlen, Hch2 in Hl. exists s', msgs. split; [exact Hrun|exact Hl]. }
    assert (Hc : last_answer (reduce_messages (channel ++ [AIMessage c])) = Some c).
    { rewrite last_answer_reduce, last_answer_ai, (routed_nonempty c H0). reflexivity. }
    assert (Hsame : match match latest_reply o (S (List.length (sent s))) k with
                          | Some r => Some r
                          | None => Some c
                          end with
                    | Some r => Some r
                    | None => last_answer channel
                    end
                    = match latest_reply o (S (List.length (sent s))) k with
                      | Some r => Some r
                      | None => Some c
                      end)
      by (destruct (latest_reply o (S (List.length (sent s))) k); reflexivity).
    rewrite Hsame.
    destruct (_parse_tool_call c) as [[name args]|] eqn:Hp.
    + pose proof (Hok O (dispatched s1) name args ltac:(lia)) as Hd.
      rewrite Nat.add_0_r in Hd. specialize (Hd Hp).
      destruct (dispatch o (dispatched s1) name args) as [t|e] eqn:Ed; [|discriminate].
      apply Hnext; [reflexivity|].
      rewrite last_answer_reduce, (last_answer_other _ _ (dispatch_not_ai _ _ _ _ _ Ed)).
      exact Hc.
    + apply Hnext; [reflexivity|]. rewrite last_answer_reduce. exact Hc.
Qed.

End AnswerFacts.

(** X4: the answer of a turn is the latest reply of the turn that is not empty.
    When the reply that ends the turn is empty (the model produced its
    thoughts alone), the answer is the reply before it, which is the text
    of the tool directive that the turn just served; it is returned and
    stored as the message of the assistant.  When no reply of the turn has
    a text, the turn ends with [RuntimeError] after the prompt was stored. *)
Theorem handle_returns_latest_reply
        (o : Oracles) (s : state) (prompt : string) (search : pyval) (u : string)
        (k : nat) (history : list json) (old : list Message) :
  MemoryStore.get_history u (memory s) = Ok history ->
  Agent.user_messages history = Ok old ->
  (forall i, (i < k)%nat -> routes_to_tools (reply o (List.length (sent s) + i)) = true) ->
  routes_to_tools (reply o (List.length (sent s) + k)) = false ->
  (forall i j name args, (i < k)%nat ->
     Agent._parse_tool_call (reply o (List.length (sent s) + i)) = Some (name, args) ->
     is_ok (Agent.dispatch o j name args) = true) ->
  (2 * k + 1 <= recursion_limit o)%nat ->
  let outcome := Agent.handle o prompt search u s in
  let with_prompt := MemoryStore.add_message u "user" prompt (memory s) in
  match latest_reply o (List.length (sent s)) k with
  | Some r =>
      outcome.2 = Ok r
      /\ memory outcome.1 = MemoryStore.add_message u "assistant" r with_prompt
  | None =>
      outcome.2
      = Raise (RuntimeError "Stream completed but no AIMessage with content was found.")
      /\ memory outcome.1 = with_prompt
  end
  /\ (Text.nonempty (reply o (List.length (sent s) + k)) = false ->
      latest_reply o (List.length (sent s)) k
      = match k with
        | O => None
        | S k' => Some (reply o (List.length (sent s) + k'))
        end).
Proof.
  intros Hh Hold Hcalls Hlast Hok Hb. cbv zeta. split.
  - rewrite handle_eq, Hh, Hold. cbv zeta.
    set (s2 := {| memory := MemoryStore.add_message u "user" prompt (memory s);
                  search_global := search; sent := sent s; dispatched := dispatched s |}).
    pose proof (run_llm_memory o (recursion_limit o) (old ++ [HumanMessage prompt]) s2) as Hm.
    destruct (run_llm_answer o k (recursion_limit o) (old ++ [HumanMessage prompt]) s2)
      as (s3 & msgs & Hrun & Hans); try assumption.
    rewrite Hrun in Hm |- *. cbn [fst] in Hm. change (sent s2) with (sent s) in Hans.
    cbv iota beta. rewrite Hans.
    rewrite (last_answer_other _ _ (eq_refl : is_ai (HumanMessage prompt) = false)).
    rewrite (last_answer_humans old (user_messages_human history old Hold)).
    destruct (latest_reply o (List.length (sent s)) k); cbn [fst snd memory];
      rewrite Hm; split; reflexivity.
  - intros He. destruct k as [|k']; cbn [latest_reply]; rewrite He; [reflexivity|].
    destruct k' as [|k'']; cbn [latest_reply].
    + rewrite (routed_nonempty _ (Hcalls O ltac:(lia))). reflexivity.
    + rewrite (routed_nonempty _ (Hcalls (S k'') ltac:(lia))). reflexivity.
Qed.

Lemma silent_after_call_routed (i : nat) :
  (i < 1)%nat ->
  routes_to_tools (reply (Samples.oracles Cases.call_then_silence) (0 + i)) = true.
Proof. intros Hi. destruct i as [|i]; [vm_compute; reflexivity|lia]. Qed.

Lemma silent_after_call_dispatch (i j : nat) (name args : json) :
  (i < 1)%nat ->
  Agent._parse_tool_call (reply (Samples.oracles Cases.call_then_silence) (0 + i))
  = Some (name, args) ->
  is_ok (Agent.dispatch (Samples.oracles Cases.call_then_silence) j name args) = true.
Proof.
  intros Hi Hp. destruct i as [|i]; [|lia].
  vm_compute in Hp. injection Hp as <- <-. reflexivity.
Qed.

Lemma handle_returns_latest_reply_witness :
  let outcome := Agent.handle (Samples.oracles Cases.call_then_silence)
                   "What is the weather in Chicago?" (PyBool false) "default" Samples.agent0 in
  outcome.2 = Ok Samples.weather_call
  /\ memory outcome.1
     = MemoryStore.add_message "default" "assistant" Samples.weather_call
         (MemoryStore.add_message "default" "user" "What is the weather in Chicago?"
            (memory Samples.agent0)).
Proof.
  exact (proj1 (handle_returns_latest_reply (Samples.oracles Cases.call_then_silence)
                  Samples.agent0 "What is the weather in Chicago?" (PyBool false) "default"
                  1 [] [] eq_refl eq_refl silent_after_call_routed
                  ltac:(vm_compute; reflexivity) silent_after_call_dispatch
                  ltac:(cbn; lia))).
Defined.

(** ** The flag and the dispatch *)

(** X5: the flag that switches the web search off only shortens the tool list of
    the instruction: the tool node never reads it, and the instruction
    still tells the model to use [search_web].  In a turn whose flag is
    [False], whose first request does not advertise the search tool, a
    directive that names [search_web] is served like any other, and its
    result is the last message of the second request. *)
Theorem search_web_runs_without_flag
        (o : Oracles) (s : state) (prompt u : string)
        (history : list json) (old : list Message) (args : json) (res : string) :
  MemoryStore.get_history u (memory s) = Ok history ->
  Agent.user_messages history = Ok old ->
  Agent._parse_tool_call (reply o (List.length (sent s))) = Some (JStr "search_web", args) ->
  Agent.invoke_tool o (dispatched s) SearchWeb args = Ok res ->
  (3 <= recursion_limit o)%nat ->
  (forall (l : list Message) (flag : pyval) (s0 : state),
      (Agent._call_tool_node o l (with_flag flag s0)).2 = (Agent._call_tool_node o l s0).2)
  /\ Text.contains "If yes, use the search_web tool." (Prompt.construct_sys_prompt false) = true
  /\ exists p1 p2 rest,
       sent (Agent.handle o prompt (PyBool false) u s).1 = sent s ++ p1 :: p2 :: rest
       /\ Prompt.advertises_search <$> instruction p1 = Some false
       /\ last p2 = Some {| chat_role := "user";
                            chat_content := "Tool result for search_web: " +:+ res |}.
Proof.
  intros Hh Hold Hp Hres Hb. split.
  { intros l flag s0. unfold Agent._call_tool_node.
    destruct (last l) as [m|]; [|reflexivity].
    destruct (is_ai m); [|reflexivity].
    destruct (Agent._parse_tool_call (content m)) as [[name a]|]; [|reflexivity].
    unfold bind, Agent.count_dispatch, lift, ret, with_flag. cbn [dispatched].
    destruct (Agent.dispatch o (dispatched s0) name a); reflexivity. }
  split; [vm_compute; reflexivity|].
  rewrite (handle_sent o prompt (PyBool false) u s history old Hh Hold).
  destruct (recursion_limit o) as [|[|[|b]]]; try lia.
  rewrite run_llm_step. cbv zeta. cbn [sent].
  rewrite (parsed_routes _ _ Hp).
  set (c := reply o (List.length (sent s))) in *.
  match goal with |- context [after_llm ?ch ?s2] => set (s1 := after_llm ch s2); set (ch0 := ch) end.
  rewrite (tool_node_eq o _ c s1 (last_reduce _ _)), Hp.
  assert (Hd : Agent.dispatch o (dispatched s1) (JStr "search_web") args
               = Ok (ToolMessage res (Some "search_web") (uuid4 o (dispatched s)) args)).
  { unfold Agent.dispatch, Agent.lookup_tool, Agent.message_name.
    change (TOOLS "search_web") with (Some SearchWeb). cbv iota beta.
    change (dispatched s1) with (dispatched s). rewrite Hres. reflexivity. }
  rewrite Hd.
  match goal with
  | |- context [Agent.run_llm o (S b) ?ch ?s2] =>
      destruct (run_llm_first_request o (S b) ch s2 ltac:(lia)) as [rest Hrest]
  end.
  rewrite Hrest. cbn [after_dispatch sent search_global]. subst s1. cbn [after_llm sent].
  rewrite <- app_assoc. cbn [app].
  eexists _, _, rest. split; [reflexivity|]. split.
  - cbn [instruction List.head fmap option_fmap option_map Agent.system_message chat_content
           truthy search_global].
    rewrite (proj1 (advertised_tools false)). reflexivity.
  - unfold Agent._format_messages_for_ollama, Agent.reduce_messages.
    rewrite fmap_app, (app_comm_cons _ _ (Agent.system_message _)), fmap_app.
    cbn [fmap list_fmap]. rewrite app_assoc. rewrite last_snoc. reflexivity.
Qed.

Lemma search_web_runs_without_flag_witness :
  exists p1 p2 rest,
    sent (Agent.handle Cases.search_oracles "Where is Purdue University?" (PyBool false)
            "default" Samples.agent0).1
    = sent Samples.agent0 ++ p1 :: p2 :: rest
    /\ Prompt.advertises_search <$> instruction p1 = Some false
    /\ last p2 = Some {| chat_role := "user";
                         chat_content := "Tool result for search_web: "
                                         +:+ "Purdue University is a public university." |}.
Proof.
  exact (proj2 (proj2 (search_web_runs_without_flag Cases.search_oracles Samples.agent0
                  "Where is Purdue University?" "default" [] []
                  (JObj [("query", JStr "Purdue University")])
                  "Purdue University is a public university."
                  eq_refl eq_refl ltac:(vm_compute; reflexivity) eq_refl ltac:(cbn; lia)))).
Defined.

(** ** The cleaning of a reply *)




















Lemma starts_with_app (p b : string) : Text.starts_with p (p +:+ b) = true.
Proof. apply starts_with_iff. exists b. reflexivity. Qed.











(** ** The intent of a query *)

(** X8: the keywords are looked for as substrings of the query in lower case,
    those of [entity_fact] first: a query in which one of them occurs, in
    any letter case and inside any word, is an [entity_fact] query whatever
    else it holds. *)
Theorem detect_intent_entity_substring (a w b : string) :
  In (Text.lower w)
     ["age"; "born"; "birthdate"; "founding date"; "founded"; "founded date"] ->
  Search.detect_intent (a +:+ w +:+ b) = Search.entity_fact.
Proof.
  intros Hw. unfold Search.detect_intent, Search.any_in.
  rewrite !lower_app.
  match goal with
  | |- (if existsb ?f ?keys then _ else _) = _ =>
      assert (Hex : existsb f keys = true)
  end.
  { apply existsb_exists. exists (Text.lower w). split; [exact Hw|].
    apply contains_iff. eexists _, _. reflexivity. }
  rewrite Hex. reflexivity.
Qed.

Lemma detect_intent_entity_substring_witness :
  Search.detect_intent ("Latest im" +:+ "AGE" +:+ "s of Mars") = Search.entity_fact.
Proof.
  exact (detect_intent_entity_substring "Latest im" "AGE" "s of Mars"
           ltac:(left; reflexivity)).
Defined.

(** ** The fast path through Wikipedia *)

Lemma split_str_from_cons (sep s : string) (skip : nat) :
  exists h t, Text.split_str_from sep s skip = h :: t.
Proof.
  revert skip. induction s as [|c s IH]; intros skip; [eexists _, _; reflexivity|].
  cbn [Text.split_str_from]. destruct skip as [|k]; [|apply IH].
  destruct (Text.starts_with sep (String c s)); [eexists _, _; reflexivity|].
  destruct (IH O) as (h & t & ->). eexists _, _. reflexivity.
Qed.

(** X9: for an [entity_fact] query, a reply of Wikipedia with status 200 is the
    answer, whatever its extract holds: the first three pieces of the
    extract between the separators [". "], joined by blanks, with the page
    of the query as the only citation.  Neither the credentials nor the
    search service are consulted. *)
Theorem wikipedia_reply_is_the_answer (env : Search.Env) (query txt : string) :
  Search.detect_intent query = Search.entity_fact ->
  Search.wikipedia_extract env query = Some txt ->
  Search.smart_search env query
  = Ok {| Search.answer_text :=
            Text.join " " (List.firstn 3 (Text.split_str ". " txt));
          Search.citations :=
            ["https://en.wikipedia.org/wiki/" +:+ Search.replace_char " " "_" query] |}.
Proof.
  intros Hi Hw. unfold Search.smart_search, Search.fast_path, Search.try_wikipedia_api.
  rewrite Hi, Hw. unfold Text.split_str.
  destruct (split_str_from_cons ". " txt O) as (h & t & ->). reflexivity.
Qed.

Lemma wikipedia_reply_is_the_answer_witness :
  Search.smart_search Cases.empty_extract "Barack Obama current age"
  = Ok {| Search.answer_text :=
            Text.join " " (List.firstn 3 (Text.split_str ". " EmptyString));
          Search.citations :=
            ["https://en.wikipedia.org/wiki/"
               +:+ Search.replace_char " " "_" "Barack Obama current age"] |}.
Proof.
  exact (wikipedia_reply_is_the_answer Cases.empty_extract "Barack Obama current age"
           EmptyString ltac:(vm_compute; reflexivity) eq_refl).
Defined.

(** ** The pages of the search service *)

Lemma cse_pages_error (env : Search.Env) (query : string) (num : Z)
      (dateRestrict : option string) (pages : nat) :
  forall (start : Z) (results items : list Search.item) (err : string),
    Search.cse_pages env query num dateRestrict pages start results = (items, Some err) ->
    items = []
    /\ (Text.starts_with "Google API error: " err
        || Text.starts_with "Search failed: " err)%bool = true.
Proof.
  induction pages as [|p IH]; intros start results items err H; [discriminate|].
  cbn [Search.cse_pages] in H.
  destruct (Search.cse_execute env query num start dateRestrict) as [d|m|its next].
  - injection H as <- <-. split; [reflexivity|].
    rewrite starts_with_app. reflexivity.
  - injection H as <- <-. split; [reflexivity|].
    rewrite (starts_with_app "Search failed: "). apply orb_true_r.
  - destruct next; [apply (IH _ _ _ _ H)|discriminate].
Qed.

(** X10: [google_cse] never returns results together with an error: a request
    that fails on any page discards the results of the pages before it, and
    the error text starts with one of the two prefixes of the function. *)
Theorem google_cse_error_discards_results
        (env : Search.Env) (query : string) (num : Z) (pages : nat)
        (dateRestrict : option string) (items : list Search.item) (err : string) :
  Search.google_cse env query num pages dateRestrict = Ok (items, Some err) ->
  items = []
  /\ (Text.starts_with "Google API error: " err
      || Text.starts_with "Search failed: " err)%bool = true.
Proof.
  unfold Search.google_cse.
  destruct (Search.unset _ || Search.unset _)%bool; [discriminate|].
  destruct (Search.cse_build env) as [m|]; intros H.
  - injection H as <- <-. split; [reflexivity|].
    rewrite (starts_with_app "Search failed: "). apply orb_true_r.
  - injection H as H. apply (cse_pages_error _ _ _ _ _ _ _ _ _ H).
Qed.

Lemma google_cse_error_discards_results_witness :
  Search.google_cse Cases.fails_on_second_page "purdue" 10 2 None
  = Ok ([], Some "Google API error: quota exceeded")
  /\ @nil Search.item = []
  /\ (Text.starts_with "Google API error: " "Google API error: quota exceeded"
      || Text.starts_with "Search failed: " "Google API error: quota exceeded")%bool = true.
Proof.
  split; [reflexivity|].
  exact (google_cse_error_discards_results Cases.fails_on_second_page "purdue" 10 2 None
           [] "Google API error: quota exceeded" eq_refl).
Defined.

(** ** The citations and the answer of the resolver *)

Lemma mem_false (x : string) (l : list string) : Search.mem x l = false -> ~ In x l.
Proof.
  unfold Search.mem. intros H Hin.
  assert (Ht : existsb (String.eqb x) l = true).
  { apply existsb_exists. exists x. split; [exact Hin|apply String.eqb_refl]. }
  congruence.
Qed.

Lemma collect_urls_from (items : list Search.item) :
  forall urls : list string,
    List.NoDup urls ->
    List.NoDup
      (List.fold_left
         (fun urls it =>
            match Search.link it with
            | Some l => if (Text.nonempty l && negb (Search.mem l urls))%bool
                        then urls ++ [l] else urls
            | None => urls
            end)
         items urls).
Proof.
  induction items as [|it items IH]; intros urls Hu; [exact Hu|].
  cbn [List.fold_left]. apply IH.
  destruct (Search.link it) as [l|]; [|exact Hu].
  destruct (Text.nonempty l); [|exact Hu]. cbn [andb].
  destruct (Search.mem l urls) eqn:E; [exact Hu|]. cbn [negb].
  apply List.NoDup_app; [exact Hu|repeat constructor; intros []|].
  intros x Hx [<-|[]]. exact (mem_false _ _ E Hx).
Qed.

Lemma collect_urls_nodup (items : list Search.item) : List.NoDup (Search.collect_urls items).
Proof. apply collect_urls_from. constructor. Qed.

Lemma in_firstn {A : Type} (x : A) (n : nat) (l : list A) :
  In x (List.firstn n l) -> In x l.
Proof.
  revert n. induction l as [|y l IH]; intros n H; [destruct n; exact H|].
  destruct n as [|n]; [destruct H|]. destruct H as [H|H]; [left; exact H|right; exact (IH n H)].
Qed.

Lemma nodup_firstn {A : Type} (n : nat) (l : list A) :
  List.NoDup l -> List.NoDup (List.firstn n l).
Proof.
  revert n. induction l as [|x l IH]; intros n H; [destruct n; constructor|].
  destruct n as [|n]; [constructor|]. cbn [List.firstn].
  apply List.NoDup_cons_iff in H as [Hx Hl]. constructor; [|apply IH, Hl].
  intros Hin. apply Hx. exact (in_firstn _ _ _ Hin).
Qed.

Lemma recall_citations (env : Search.Env) (query : string) (a : Search.answer) :
  Search.recall env query = Ok a ->
  (List.length (Search.citations a) <= 3)%nat /\ List.NoDup (Search.citations a).
Proof.
  unfold Search.recall.
  destruct (Search.google_cse env query 10 2 _) as [[items [e|]]|]; try discriminate.
  - intros H. injection H as <-. cbn. split; [lia|constructor].
  - pose proof (collect_urls_nodup items) as Hn.
    assert (Hc : (List.length (List.firstn 3 (Search.collect_urls items)) <= 3)%nat
                 /\ List.NoDup (List.firstn 3 (Search.collect_urls items))).
    { split; [rewrite length_firstn; lia|apply nodup_firstn, Hn]. }
    destruct (List.filter Text.nonempty _); intros H; injection H as <-; exact Hc.
Qed.

Lemma fast_path_citations (env : Search.Env) (query : string) (a : Search.answer) :
  Search.fast_path env query = Some (Ok a) -> List.length (Search.citations a) = 1%nat.
Proof.
  unfold Search.fast_path.
  destruct (Search.detect_intent query); try discriminate.
  destruct (Search.try_wikipedia_api env query 3) as [[|s l]|].
  2:{ intros H. injection H as <-. reflexivity. }
  all: destruct (Text.contains "age" (Text.lower query)); try discriminate;
    destruct (Search.try_wikidata_birthdate env _) as [dob|]; try discriminate;
    destruct (Text.nonempty dob); try discriminate;
    destruct (compute_age (Search.today env) dob); try discriminate;
    intros H; injection H as <-; reflexivity.
Qed.

(** X11: an answer of the resolver cites at most three sources, and never the
    same one twice: the links of the search results are collected without
    repetition before the first three are kept, and a fast path cites one
    source. *)
Theorem citations_are_few_and_distinct
        (env : Search.Env) (query : string) (a : Search.answer) :
  Search.smart_search env query = Ok a ->
  (List.length (Search.citations a) <= 3)%nat /\ List.NoDup (Search.citations a).
Proof.
  unfold Search.smart_search.
  destruct (Search.fast_path env query) as [r|] eqn:Hf; [|apply recall_citations].
  intros ->. pose proof (fast_path_citations env query a Hf) as Hl.
  split; [lia|].
  destruct (Search.citations a) as [|x [|y l]]; try discriminate. repeat constructor.
  intros [].
Qed.

Lemma citations_are_few_and_distinct_witness :
  Search.smart_search Cases.repeated_links "purdue university"
  = Ok {| Search.answer_text :=
            "A first result." +:+ String "010" (String "010" "The same page again.");
          Search.citations := ["https://example.org/a"; "https://example.org/b"] |}
  /\ (List.length ["https://example.org/a"; "https://example.org/b"] <= 3)%nat
  /\ List.NoDup ["https://example.org/a"; "https://example.org/b"].
Proof.
  split; [vm_compute; reflexivity|].
  exact (citations_are_few_and_distinct Cases.repeated_links "purdue university"
           {| Search.answer_text :=
                "A first result." +:+ String "010" (String "010" "The same page again.");
              Search.citations := ["https://example.org/a"; "https://example.org/b"] |}
           ltac:(vm_compute; reflexivity)).
Defined.

Lemma nonempty_app_l (a b : string) : Text.nonempty a = true -> Text.nonempty (a +:+ b) = true.
Proof. destruct a; [discriminate|reflexivity]. Qed.

Lemma nonempty_join (sep h : string) (l : list string) :
  Text.nonempty h = true -> Text.nonempty (Text.join sep (h :: l)) = true.
Proof.
  intros H. cbn [Text.join]. destruct l; [exact H|apply nonempty_app_l, H].
Qed.

Lemma starts_with_nonempty (p s : string) :
  Text.nonempty p = true -> Text.starts_with p s = true -> Text.nonempty s = true.
Proof.
  intros Hp Hs. apply starts_with_iff in Hs as [b ->]. apply nonempty_app_l, Hp.
Qed.

Lemma snippets_nonempty (items : list Search.item) :
  Forall (fun s => Text.nonempty s = true) (Search.snippets_of items).
Proof.
  unfold Search.snippets_of. induction items as [|it items IH]; [constructor|].
  cbn [List.flat_map]. apply Forall_app. split; [|exact IH].
  destruct (Search.snippet it) as [s|]; [|constructor].
  destruct (Text.nonempty s) eqn:E; repeat constructor. exact E.
Qed.

Lemma or_else_nonempty (a b : string) :
  Text.nonempty b = true -> Text.nonempty (Search.or_else a b) = true.
Proof. intros Hb. unfold Search.or_else. destruct (Text.nonempty a) eqn:E; assumption. Qed.

Lemma google_cse_error_text (env : Search.Env) (query : string) (num : Z) (pages : nat)
      (dateRestrict : option string) (items : list Search.item) (err : string) :
  Search.google_cse env query num pages dateRestrict = Ok (items, Some err) ->
  Text.nonempty err = true.
Proof.
  unfold Search.google_cse.
  destruct (Search.unset _ || Search.unset _)%bool; [discriminate|].
  destruct (Search.cse_build env) as [m|]; intros H.
  - injection H as _ <-. reflexivity.
  - injection H as H. destruct (cse_pages_error _ _ _ _ _ _ _ _ _ H) as [_ He].
    apply orb_true_iff in He as [He|He]; eapply starts_with_nonempty; try exact He; reflexivity.
Qed.

Lemma recall_answer_nonempty (env : Search.Env) (query : string) (a : Search.answer) :
  Search.recall env query = Ok a -> Text.nonempty (Search.answer_text a) = true.
Proof.
  unfold Search.recall.
  destruct (Search.google_cse env query 10 2 _) as [[items [e|]]|] eqn:Hg; try discriminate.
  - intros H. injection H as <-. cbn [Search.answer_text].
    exact (google_cse_error_text _ _ _ _ _ _ _ Hg).
  - destruct (List.filter Text.nonempty _); intros H; injection H as <-; cbn [Search.answer_text].
    + pose proof (snippets_nonempty items) as Hs.
      destruct (Search.snippets_of items) as [|s l]; [reflexivity|].
      apply Forall_cons in Hs as [Hs _]. cbn [List.firstn]. apply nonempty_join, Hs.
    + apply or_else_nonempty. reflexivity.
Qed.

(** X12: the resolver answers with an empty text in no other case than an empty
    reply of Wikipedia: when Wikipedia gives no reply, every answer that
    [smart_search] returns has a text. *)
Theorem answer_has_text_without_wikipedia
        (env : Search.Env) (query : string) (a : Search.answer) :
  Search.wikipedia_extract env query = None ->
  Search.smart_search env query = Ok a ->
  Text.nonempty (Search.answer_text a) = true.
Proof.
  intros Hw. unfold Search.smart_search.
  destruct (Search.fast_path env query) as [r|] eqn:Hf; [|apply recall_answer_nonempty].
  intros ->. revert Hf. unfold Search.fast_path, Search.try_wikipedia_api. rewrite Hw.
  destruct (Search.detect_intent query); try discriminate.
  destruct (Text.contains "age" (Text.lower query)); try discriminate.
  destruct (Search.try_wikidata_birthdate env _) as [dob|]; try discriminate.
  destruct (Text.nonempty dob); try discriminate.
  destruct (compute_age (Search.today env) dob); try discriminate.
  intros H. injection H as <-. cbn [Search.answer_text].
  unfold Search.or_else.
  destruct (Text.nonempty (Text.strip (Search.remove_age_words None query O))) eqn:E.
  - apply nonempty_app_l, E.
  - destruct query; reflexivity.
Qed.

Lemma answer_has_text_without_wikipedia_witness :
  Text.nonempty
    (Search.answer_text
       {| Search.answer_text :=
            "A first result." +:+ String "010" (String "010" "The same page again.");
          Search.citations := ["https://example.org/a"; "https://example.org/b"] |}) = true.
Proof.
  exact (answer_has_text_without_wikipedia Cases.repeated_links "purdue university"
           {| Search.answer_text :=
                "A first result." +:+ String "010" (String "010" "The same page again.");
              Search.citations := ["https://example.org/a"; "https://example.org/b"] |}
           eq_refl ltac:(vm_compute; reflexivity)).
Defined.

(** ** Ranking without terms *)

Lemma sort_desc_constant {A : Type} (key : A -> float) (v : float) (l : list A) :
  (v <? v)%float = false ->
  Forall (fun x => key x = v) l -> Search.sort_desc key l = l.
Proof.
  intros Hv Hl. induction l as [|x l IH]; [reflexivity|].
  apply Forall_cons in Hl as [Hx Hl]. cbn [Search.sort_desc fold_right].
  fold (Search.sort_desc key l). rewrite (IH Hl).
  destruct l as [|y l']; [reflexivity|].
  apply Forall_cons in Hl as [Hy _]. cbn [Search.insert_desc].
  rewrite Hx, Hy, Hv. reflexivity.
Qed.

Lemma score_without_terms (q text : string) :
  Search.query_terms q = [] ->
  Search.score_passage q text
  = (Search.float_of_nat O + Search.bonus_weight * Search.float_of_nat O)%float.
Proof.
  intros Hq. unfold Search.score_passage, Search.occurrences, Search.presences.
  rewrite Hq. reflexivity.
Qed.

(** X13: a query without a word of three characters or more has no terms: every
    paragraph scores zero, and [top_passages] returns the first [k] of the
    stripped lines of 60 characters or more, in the order of the documents
    and of their lines. *)
Theorem top_passages_without_terms (q : string) (docs : list string) (k : nat) :
  List.filter (fun t => Nat.ltb 2 (Unicode.len t)) (Unicode.findall_words (Unicode.lower q)) = [] ->
  (forall text : string, Search.score_passage q text = 0%float)
  /\ Search.top_passages q docs k
     = List.firstn k
         (List.filter (fun para => Nat.leb 60 (Unicode.len para))
            (List.flat_map (fun doc => Unicode.strip <$> Text.split_on "010" doc) docs)).
Proof.
  intros Hq. change (Search.query_terms q = []) in Hq.
  assert (Hz : forall text : string, Search.score_passage q text = 0%float).
  { intros text. rewrite (score_without_terms q text Hq). vm_compute. reflexivity. }
  split; [exact Hz|].
  destruct (scored_eq q docs) as [<- _].
  unfold Search.top_passages.
  rewrite (sort_desc_constant fst 0%float).
  - unfold Search.scored. rewrite <- fmap_take, <- list_fmap_compose.
    apply list_fmap_id.
  - vm_compute. reflexivity.
  - unfold Search.scored. apply Forall_fmap, Forall_forall. intros para _. apply Hz.
Qed.

Lemma top_passages_without_terms_witness :
  Search.top_passages "Où va-t-il, né à ?"
    [Samples.about_tutorials +:+ String "010" Samples.curly_line;
     "short line" +:+ String "010" ("  " +:+ Samples.about_python)] 6
  = [Samples.about_tutorials; Samples.about_python].
Proof.
  exact (proj2 (top_passages_without_terms "Où va-t-il, né à ?"
                  [Samples.about_tutorials +:+ String "010" Samples.curly_line;
                   "short line" +:+ String "010" ("  " +:+ Samples.about_python)] 6
                  ltac:(vm_compute; reflexivity))).
Defined.

(** ** The text of a page *)





(** ** The Redis branch of the store *)

(** X15: on the Redis branch a message of well-formed UTF-8 text that
    [add_message] appends is read back by [get_history] as the dictionary
    of its role and text, after the messages that were there: the escapes
    that [json.dumps] writes are undone by [json.loads]. *)
Theorem redis_append_reads_back
        (r : MemoryStore.redis) (u role text : string) (h : list json) :
  valid_utf8 role = true -> valid_utf8 text = true ->
  MemoryStore.get_history u (MemoryStore.Client r) = Ok h ->
  MemoryStore.get_history u (MemoryStore.add_message u role text (MemoryStore.Client r))
  = Ok (h ++ [MemoryStore.entry role text]).
Proof.
  intros Hr Ht Hh. apply get_history_add; [|exact Hh].
  cbn [codec_ok]. repeat constructor. exact (loads_dumps_entry role text Hr Ht).
Qed.

Lemma redis_append_reads_back_witness :
  MemoryStore.get_history "default"
    (MemoryStore.add_message "default" "user"
       ("Is Z" +:+ String "195" (String "188" "rich") +:+ " sunny?" +:+ String "010" "Thanks")
       (MemoryStore.Client empty_server))
  = Ok ([] ++ [MemoryStore.entry "user"
                 ("Is Z" +:+ String "195" (String "188" "rich") +:+ " sunny?"
                    +:+ String "010" "Thanks")]).
Proof.
  exact (redis_append_reads_back empty_server "default" "user"
           ("Is Z" +:+ String "195" (String "188" "rich") +:+ " sunny?" +:+ String "010" "Thanks")
           [] eq_refl eq_refl eq_refl).
Defined.

Lemma apply_ops_client (ops : list store_op) (r : MemoryStore.redis) :
  exists r', apply_ops ops (MemoryStore.Client r) = MemoryStore.Client r'.
Proof.
  unfold apply_ops. revert r. induction ops as [|op ops IH]; intros r; [exists r; reflexivity|].
  cbn [fold_left]. destruct op; cbn [apply_op MemoryStore.add_message MemoryStore.clear_history];
    apply IH.
Qed.

Lemma redis_invariant (ops : list store_op) :
  forall r r' : MemoryStore.redis,
    (forall k, match MemoryStore.lists r !! k with
               | Some l => l <> [] /\ MemoryStore.expiry r !! k = Some MemoryStore.ttl
               | None => MemoryStore.expiry r !! k = None
               end) ->
    apply_ops ops (MemoryStore.Client r) = MemoryStore.Client r' ->
    forall k, match MemoryStore.lists r' !! k with
              | Some l => l <> [] /\ MemoryStore.expiry r' !! k = Some MemoryStore.ttl
              | None => MemoryStore.expiry r' !! k = None
              end.
Proof.
  unfold apply_ops. induction ops as [|op ops IH]; intros r r' Hinv Hrun.
  - injection Hrun as <-. exact Hinv.
  - cbn [fold_left] in Hrun. destruct op as [u role text|u];
      cbn [apply_op MemoryStore.add_message MemoryStore.clear_history] in Hrun;
      refine (IH _ r' _ Hrun); intros k; specialize (Hinv k);
      unfold MemoryStore.expire, MemoryStore.rpush, MemoryStore.delete_key;
      cbn [MemoryStore.lists MemoryStore.expiry].
    + rewrite lookup_insert_eq.
      destruct (decide (MemoryStore._key u = k)) as [<-|Hne].
      * rewrite !lookup_insert_eq. split; [|reflexivity].
        intros H. apply app_eq_nil in H as [_ H]. discriminate.
      * rewrite !lookup_insert_ne by exact Hne. exact Hinv.
    + destruct (decide (MemoryStore._key u = k)) as [<-|Hne].
      * rewrite !lookup_delete_eq. reflexivity.
      * rewrite !lookup_delete_ne by exact Hne. exact Hinv.
Qed.

(** X16: in every state that appends and clears reach from an empty server, a
    key that holds a conversation holds at least one message and has its
    expiry set to 604800 seconds (seven days), and a key without a
    conversation has no expiry left. *)
Theorem redis_keys_hold_messages_and_expire (ops : list store_op) (r : MemoryStore.redis) :
  apply_ops ops (MemoryStore.Client empty_server) = MemoryStore.Client r ->
  MemoryStore.ttl = 604800
  /\ forall k, match MemoryStore.lists r !! k with
               | Some l => l <> [] /\ MemoryStore.expiry r !! k = Some MemoryStore.ttl
               | None => MemoryStore.expiry r !! k = None
               end.
Proof.
  intros Hrun. split; [reflexivity|].
  apply (redis_invariant ops empty_server r); [|exact Hrun].
  intros k. unfold empty_server. cbn [MemoryStore.lists MemoryStore.expiry].
  rewrite !lookup_empty. reflexivity.
Qed.

Lemma redis_keys_hold_messages_and_expire_witness :
  MemoryStore.ttl = 604800
  /\ forall k,
       match MemoryStore.lists
               (MemoryStore.delete_key (MemoryStore._key "bob")
                  (MemoryStore.expire (MemoryStore._key "alice") MemoryStore.ttl
                     (MemoryStore.rpush (MemoryStore._key "alice")
                        (MemoryStore.dumps_entry "user" "hi") empty_server))) !! k with
       | Some l =>
           l <> []
           /\ MemoryStore.expiry
                (MemoryStore.delete_key (MemoryStore._key "bob")
                   (MemoryStore.expire (MemoryStore._key "alice") MemoryStore.ttl
                      (MemoryStore.rpush (MemoryStore._key "alice")
                         (MemoryStore.dumps_entry "user" "hi") empty_server))) !! k
              = Some MemoryStore.ttl
       | None =>
           MemoryStore.expiry
             (MemoryStore.delete_key (MemoryStore._key "bob")
                (MemoryStore.expire (MemoryStore._key "alice") MemoryStore.ttl
                   (MemoryStore.rpush (MemoryStore._key "alice")
                      (MemoryStore.dumps_entry "user" "hi") empty_server))) !! k
           = None
       end.
Proof.
  exact (redis_keys_hold_messages_and_expire
           [OpAdd "alice" "user" "hi"; OpClear "bob"] _ eq_refl).
Defined.

(** ** The directive of the system prompt *)

Lemma scan_member (f : nat) (s key r1 : string) (v : json) (r2 : string)
      (acc : list (string * json)) :
  Json.scanstring s = Some (key, String ":" r1) ->
  Json.scan_once f (Json.skip_ws r1) = Json.Scanned v r2 ->
  Json.scan_members (S f) s acc
  = match Json.skip_ws r2 with
    | String c r3 =>
        if Ascii.eqb c "}" then Json.Scanned (JObj (List.rev ((key, v) :: acc))) r3
        else if Ascii.eqb c "," then
          match Json.skip_ws r3 with
          | String c' r4 =>
              if Ascii.eqb c' Json.dquote
              then Json.scan_members f r4 ((key, v) :: acc)
              else Json.Malformed
          | EmptyString => Json.Malformed
          end
        else Json.Malformed
    | EmptyString => Json.Malformed
    end.
Proof.
  intros H1 H2. cbn [Json.scan_members]. rewrite H1.
  change (Json.skip_ws (String ":" r1)) with (String ":" r1).
  change (Ascii.eqb ":" ":") with true. cbv iota. rewrite H2. reflexivity.
Qed.

Lemma scan_string_value (f : nat) (x rest : string) :
  valid_utf8 x = true ->
  Json.scan_once (S f) (String "034" (MemoryStore.escape x +:+ String "034" rest))
  = Json.Scanned (JStr x) rest.
Proof.
  intros Hx. rewrite scan_once_string, (scanstring_escape_quote x rest Hx). reflexivity.
Qed.

Lemma scan_query_object (f : nat) (query rest : string) :
  valid_utf8 query = true ->
  Json.scan_once (S (S (S f)))
    (String "{" (String "034" ("query" +:+ String "034" (": " +:+ String "034"
       (MemoryStore.escape query +:+ String "034" (String "}" rest))))))
  = Json.Scanned (JObj [("query", JStr query)]) rest.
Proof.
  intros Hq. rewrite scan_once_object.
  erewrite (scan_member _ _ "query" _ (JStr query) (String "}" rest) []).
  - reflexivity.
  - reflexivity.
  - change (Json.skip_ws (" " +:+ ?x)) with x.
    match goal with
    | |- Json.scan_once _ (Json.skip_ws ?t) = _ =>
        change (Json.skip_ws t)
          with (String "034" (MemoryStore.escape query +:+ String "034" (String "}" rest)))
    end.
    apply scan_string_value, Hq.
Qed.

Lemma scan_call_object (f : nat) (name query rest : string) :
  valid_utf8 name = true -> valid_utf8 query = true ->
  Json.scan_once (S (S (S (S (S (S f))))))
    (String "{" (String "034" ("name" +:+ String "034" (": " +:+ String "034"
       (MemoryStore.escape name +:+ String "034" (", " +:+ String "034"
          ("arguments" +:+ String "034" (": " +:+ String "{" (String "034"
             ("query" +:+ String "034" (": " +:+ String "034"
                (MemoryStore.escape query +:+ String "034"
                   (String "}" (" }" +:+ rest))))))))))))))
  = Json.Scanned (JObj [("name", JStr name);
                        ("arguments", JObj [("query", JStr query)])]) rest.
Proof.
  intros Hn Hq. rewrite scan_once_object.
  erewrite (scan_member _ _ "name" _ (JStr name) _ []);
    [|reflexivity|
     match goal with
     | |- Json.scan_once _ (Json.skip_ws ?t) = _ =>
         change (Json.skip_ws t) with (String "034" (MemoryStore.escape name +:+ String "034"
           (", " +:+ String "034"
          ("arguments" +:+ String "034" (": " +:+ String "{" (String "034"
             ("query" +:+ String "034" (": " +:+ String "034"
                (MemoryStore.escape query +:+ String "034"
                   (String "}" (" }" +:+ rest)))))))))))
     end; apply scan_string_value, Hn].
  repeat (rewrite ?append_cons; change (EmptyString +:+ ?x) with x).
  cbn [Json.skip_ws Json.is_json_space Ascii.eqb Bool.eqb orb andb Json.dquote].
  erewrite (scan_member _ _ "arguments" _ (JObj [("query", JStr query)]) (" }" +:+ rest) _);
    [reflexivity|reflexivity|].
  match goal with
  | |- Json.scan_once _ (Json.skip_ws ?t) = _ =>
      change (Json.skip_ws t) with (String "{" (String "034"
             ("query" +:+ String "034" (": " +:+ String "034"
                (MemoryStore.escape query +:+ String "034"
                   (String "}" (" }" +:+ rest)))))))
  end.
  apply scan_query_object, Hq.
Qed.

Lemma loads_prompt_directive (name query : string) :
  valid_utf8 name = true -> valid_utf8 query = true ->
  Json.loads (prompt_directive name query)
  = Ok (JObj [("tool_call",
               JObj [("name", JStr name); ("arguments", JObj [("query", JStr query)])])]).
Proof.
  intros Hn Hq. unfold Json.loads.
  assert (Hs : Json.skip_ws (prompt_directive name query) = prompt_directive name query)
    by reflexivity.
  rewrite Hs.
  assert (Hf : exists f, Json.fuel_for (prompt_directive name query)
                         = S (S (S (S (S (S (S (S f)))))))).
  { unfold Json.fuel_for. exists (2 * String.length (prompt_directive name query) - 7)%nat.
    enough (4 <= String.length (prompt_directive name query))%nat by lia.
    unfold prompt_directive, Json.q. rewrite !length_append. cbn [String.length]. lia. }
  destruct Hf as [f ->].
  unfold prompt_directive, Json.q. rewrite !append_assoc.
  repeat (rewrite ?append_cons; change (EmptyString +:+ ?x) with x).
  rewrite scan_once_object.
  erewrite (scan_member _ _ "tool_call" _
              (JObj [("name", JStr name); ("arguments", JObj [("query", JStr query)])])
              (String " " (String "}" EmptyString)) []).
  - reflexivity.
  - reflexivity.
  - cbn [Json.skip_ws Json.is_json_space Ascii.eqb Bool.eqb orb andb].
    pose proof (scan_call_object f name query (String " " (String "}" EmptyString)) Hn Hq) as H.
    repeat (rewrite ?append_cons in H; change (EmptyString +:+ ?x) with x in H).
    exact H.
Qed.

(** X17: the form of a directive that the system prompt shows to the model is
    one that the agent parses: written with a tool name and a query as JSON
    string literals (any well-formed UTF-8 text, the characters outside
    printable ASCII escaped), it is read as a directive for that tool with
    the query as its only argument.  The prompt shows this form whatever
    the search flag. *)
Theorem prompt_directive_parses (name query : string) :
  valid_utf8 name = true -> valid_utf8 query = true ->
  Agent._parse_tool_call (prompt_directive name query)
  = Some (JStr name, JObj [("query", JStr query)])
  /\ forall b : bool,
       Text.contains (prompt_directive "<tool_name>" "your search query")
                     (Prompt.construct_sys_prompt b) = true.
Proof.
  intros Hn Hq. split.
  - unfold Agent._parse_tool_call. rewrite (loads_prompt_directive name query Hn Hq).
    reflexivity.
  - intros []; vm_compute; reflexivity.
Qed.

Lemma prompt_directive_parses_witness :
  Agent._parse_tool_call
    (prompt_directive "search_web" ("caf" +:+ String "195" (String "169" " in Paris")))
  = Some (JStr "search_web",
          JObj [("query", JStr ("caf" +:+ String "195" (String "169" " in Paris")))]).
Proof.
  exact (proj1 (prompt_directive_parses "search_web"
                  ("caf" +:+ String "195" (String "169" " in Paris")) eq_refl eq_refl)).
Defined.

(** ** What the Redis branch writes *)

Lemma is_ascii_app (a b : string) : is_ascii (a +:+ b) = (is_ascii a && is_ascii b)%bool.
Proof.
  induction a as [|c a IH]; [reflexivity|].
  rewrite append_cons. cbn [is_ascii]. rewrite IH, andb_assoc. reflexivity.
Qed.

Lemma escape_char_ascii (c : ascii) : is_ascii (MemoryStore.escape_char c) = true.
Proof. destruct c as [[] [] [] [] [] [] [] []]; vm_compute; reflexivity. Qed.

Lemma hex_digit_ascii (d : N) : (d < 16)%N -> is_ascii_char (MemoryStore.hex_digit d) = true.
Proof.
  intros H.
  assert (Hd : In d [0;1;2;3;4;5;6;7;8;9;10;11;12;13;14;15]%N) by (cbn; lia).
  cbn in Hd. repeat destruct Hd as [<-|Hd]; try reflexivity. contradiction.
Qed.

Lemma u_escape_ascii (cp : N) : (cp < 65536)%N -> is_ascii (MemoryStore.u_escape cp) = true.
Proof.
  intros H. unfold MemoryStore.u_escape. cbn [is_ascii].
  change (is_ascii_char Json.backslash) with true. change (is_ascii_char "u") with true.
  rewrite !hex_digit_ascii; [reflexivity| | | |].
  - apply N.mod_lt. lia.
  - apply N.mod_lt. lia.
  - apply N.mod_lt. lia.
  - apply N.Div0.div_lt_upper_bound. lia.
Qed.

Lemma escape_code_point_ascii (cp : N) :
  (cp < 2097152)%N -> is_ascii (MemoryStore.escape_code_point cp) = true.
Proof.
  intros H. unfold MemoryStore.escape_code_point.
  destruct (cp <? 65536)%N eqn:E.
  - apply u_escape_ascii, N.ltb_lt, E.
  - apply N.ltb_ge in E. cbv zeta. rewrite is_ascii_app.
    pose proof (N.mod_lt (cp - 65536) 1024 ltac:(lia)) as Hm.
    assert (Hq : ((cp - 65536) / 1024 < 1984)%N)
      by (apply N.Div0.div_lt_upper_bound; lia).
    rewrite !u_escape_ascii; [reflexivity| |].
    + generalize dependent ((cp - 65536) mod 1024)%N. intros. lia.
    + generalize dependent ((cp - 65536) / 1024)%N. intros. lia.
Qed.

Lemma cont_bound (c : ascii) (x : N) : MemoryStore.cont c = Some x -> (x < 64)%N.
Proof.
  unfold MemoryStore.cont. destruct (Text.between 128 191 c) eqn:E; [|discriminate].
  intros H. injection H as <-. apply between_N in E. cbn in E. lia.
Qed.

Lemma code_bound (c : ascii) : (N_of_ascii c < 256)%N.
Proof. apply N_ascii_bounded. Qed.

Lemma escape_ascii_aux (n : nat) :
  forall s, (String.length s <= n)%nat -> is_ascii (MemoryStore.escape s) = true.
Proof.
  induction n as [|n IH]; intros s Hn.
  { destruct s; [reflexivity|cbn in Hn; lia]. }
  destruct s as [|c r]; [reflexivity|].
  cbn [MemoryStore.escape]. cbn [String.length] in Hn.
  pose proof (code_bound c) as Hc.
  assert (Hr : is_ascii (MemoryStore.u_escape (N_of_ascii c) +:+ MemoryStore.escape r) = true).
  { rewrite is_ascii_app, u_escape_ascii by lia. apply IH. lia. }
  destruct (N_of_ascii c <? 128)%N.
  { rewrite is_ascii_app, escape_char_ascii. apply IH. lia. }
  destruct r as [|c1 r1]; [exact Hr|]. cbn [String.length] in Hn.
  destruct (MemoryStore.cont c1) as [x1|] eqn:E1; [|exact Hr].
  apply cont_bound in E1.
  destruct (Text.between 192 223 c) eqn:B2.
  { apply between_N in B2. cbn in B2.
    rewrite is_ascii_app, escape_code_point_ascii by lia. apply IH. lia. }
  destruct r1 as [|c2 r2]; [exact Hr|]. cbn [String.length] in Hn.
  destruct (MemoryStore.cont c2) as [x2|] eqn:E2; [|exact Hr].
  apply cont_bound in E2.
  destruct (Text.between 224 239 c) eqn:B3.
  { apply between_N in B3. cbn in B3.
    rewrite is_ascii_app, escape_code_point_ascii by lia. apply IH. lia. }
  destruct r2 as [|c3 r3]; [exact Hr|]. cbn [String.length] in Hn.
  destruct (MemoryStore.cont c3) as [x3|] eqn:E3; [|exact Hr].
  apply cont_bound in E3.
  destruct (Text.between 240 247 c) eqn:B4; [|exact Hr].
  apply between_N in B4. cbn in B4.
  rewrite is_ascii_app, escape_code_point_ascii by lia. apply IH. lia.
Qed.

(** X18: whatever the role and the text of a message, the entry that
    [add_message] pushes to the Redis list is made of ASCII characters
    only: [json.dumps] escapes every other character. *)
Theorem redis_entries_are_ascii (role text : string) :
  is_ascii (MemoryStore.dumps_entry role text) = true.
Proof.
  pose proof (escape_ascii_aux _ role (Nat.le_refl _)) as Hr.
  pose proof (escape_ascii_aux _ text (Nat.le_refl _)) as Ht.
  unfold MemoryStore.dumps_entry, Json.q.
  repeat (rewrite ?is_ascii_app; cbn [is_ascii]).
  rewrite Hr, Ht. reflexivity.
Qed.

(** ** The weather tool *)

(** X19: the weather tool looks for its two cities anywhere in the location and
    in any letter case, Chicago first: a location that names Chicago gets
    the weather of Chicago, whatever else it names. *)
Theorem weather_of_chicago_anywhere (a w b : string) :
  Text.lower w = "chicago, il" ->
  get_current_weather (a +:+ w +:+ b)
  = "It's 75 degrees Fahrenheit and sunny in Chicago, IL. There's a slight breeze.".
Proof.
  intros Hw. unfold get_current_weather.
  rewrite (proj2 (contains_iff "chicago, il" (Text.lower (a +:+ w +:+ b)))); [reflexivity|].
  exists (Text.lower a), (Text.lower b). rewrite !lower_app, Hw. reflexivity.
Qed.

Lemma weather_of_chicago_anywhere_witness :
  get_current_weather ("New York, NY or " +:+ "CHICAGO, il" +:+ "?")
  = "It's 75 degrees Fahrenheit and sunny in Chicago, IL. There's a slight breeze.".
Proof.
  exact (weather_of_chicago_anywhere "New York, NY or " "CHICAGO, il" "?" eq_refl).
Defined.

(** ** The client of the model server *)

Lemma subscript_error (k : string) (j : json) (e : exn) :
  OllamaClient.subscript k j = Raise e -> e = KeyError \/ e = TypeError.
Proof.
  destruct j as [| | | | |fields]; cbn; try (intros H; injection H as <-; auto; fail).
  destruct (Json.obj_get k fields); [discriminate|]. intros H. injection H as <-. auto.
Qed.

(** X20: [generate] turns the failures of the request into texts and lets the
    other exceptions pass.  On a decoded body it raises nothing but
    [KeyError] and [TypeError]: the test of [j["choices"]] guards the
    subscript [[0]], so that no [IndexError] leaves the client. *)
Theorem generate_failures (reply : OllamaClient.http_reply) :
  match reply with
  | OllamaClient.ReadTimeout | OllamaClient.RequestException _ =>
      exists t, OllamaClient.generate reply = Ok (JStr t)
                /\ Text.starts_with "Error: " t = true
  | OllamaClient.OtherException e => OllamaClient.generate reply = Raise e
  | OllamaClient.Body j =>
      forall e, OllamaClient.generate reply = Raise e -> e = KeyError \/ e = TypeError
  end.
Proof.
  destruct reply as [|text|e|j].
  - eexists. split; reflexivity.
  - eexists. split; [reflexivity|].
    apply starts_with_iff. exists ("request failed: " +:+ text). reflexivity.
  - reflexivity.
  - intros e. unfold OllamaClient.generate.
    destruct (OllamaClient.key_in "choices" j) as [[|]|e0] eqn:Ek.
    + destruct (OllamaClient.subscript "choices" j) as [choices|e1] eqn:Es.
      * destruct (OllamaClient.truthy_json choices) eqn:Et; [|discriminate].
        destruct (OllamaClient.first_message choices) as [message|e2] eqn:Em.
        -- apply subscript_error.
        -- intros H. injection H as <-.
           destruct choices as [|b|lex|s|items|fields]; cbn in Em, Et.
           ++ discriminate.
           ++ injection Em as <-. auto.
           ++ injection Em as <-. auto.
           ++ destruct s; [discriminate|]. injection Em as <-. auto.
           ++ destruct items as [|x items]; [discriminate|].
              exact (subscript_error _ _ _ Em).
           ++ injection Em as <-. auto.
      * intros H. injection H as <-. exact (subscript_error _ _ _ Es).
    + discriminate.
    + intros H. injection H as <-.
      destruct j; cbn in Ek; try discriminate; injection Ek as <-; auto.
Qed.

(** X21: a text of the client is an answer like another: when the reply to the
    first request of a turn is the text for a timeout or for a body without
    choices, the turn ends after that request, returns the text and stores
    it as the message of the assistant. *)
Theorem client_error_becomes_the_answer
        (o : Oracles) (s : state) (prompt : string) (search : pyval) (u : string)
        (history : list json) (old : list Message) (t : string) :
  In t [OllamaClient.timed_out; OllamaClient.unexpected_format] ->
  generate o (List.length (sent s)) = t ->
  MemoryStore.get_history u (memory s) = Ok history ->
  Agent.user_messages history = Ok old ->
  (0 < recursion_limit o)%nat ->
  let outcome := Agent.handle o prompt search u s in
  outcome.2 = Ok t
  /\ memory outcome.1
     = MemoryStore.add_message u "assistant" t
         (MemoryStore.add_message u "user" prompt (memory s))
  /\ List.length (sent outcome.1) = S (List.length (sent s))
  /\ OllamaClient.generate OllamaClient.ReadTimeout = Ok (JStr OllamaClient.timed_out)
  /\ (forall fields : list (string * json),
        Json.obj_get "choices" fields = None ->
        OllamaClient.generate (OllamaClient.Body (JObj fields))
        = Ok (JStr OllamaClient.unexpected_format)).
Proof.
  intros Ht Hg Hh Hold Hb. cbv zeta.
  assert (Hr : reply o (List.length (sent s)) = t
               /\ routes_to_tools t = false /\ Text.nonempty t = true).
  { unfold reply. rewrite Hg.
    destruct Ht as [<-|[<-|[]]]; vm_compute; repeat split; reflexivity. }
  destruct Hr as (Hr & Hroute & Hne).
  rewrite handle_eq, Hh, Hold. cbv zeta.
  destruct (recursion_limit o) as [|b]; [lia|].
  rewrite run_llm_step. cbv zeta. cbn [sent]. rewrite Hr, Hroute.
  rewrite (last_answer_snoc _ _ Hne). cbn [fst snd memory sent after_llm].
  split; [reflexivity|]. split; [reflexivity|].
  split; [rewrite length_app; cbn; lia|]. split; [reflexivity|].
  intros fields Hf. unfold OllamaClient.generate, OllamaClient.key_in, Json.has_key.
  rewrite Hf. reflexivity.
Qed.

Lemma client_error_becomes_the_answer_witness :
  let o := Samples.oracles (fun _ => OllamaClient.timed_out) in
  let outcome := Agent.handle o "What is the weather in Chicago?" (PyBool false) "default"
                   Samples.agent0 in
  outcome.2 = Ok OllamaClient.timed_out
  /\ memory outcome.1
     = MemoryStore.add_message "default" "assistant" OllamaClient.timed_out
         (MemoryStore.add_message "default" "user" "What is the weather in Chicago?"
            (memory Samples.agent0)).
Proof.
  pose proof (client_error_becomes_the_answer
                (Samples.oracles (fun _ => OllamaClient.timed_out)) Samples.agent0
                "What is the weather in Chicago?" (PyBool false) "default" [] []
                OllamaClient.timed_out ltac:(left; reflexivity) eq_refl eq_refl eq_refl
                ltac:(cbn; lia)) as H.
  exact (conj (proj1 H) (proj1 (proj2 H))).
Defined.

(** ** The tool [search_web] *)

Lemma item_text_nonempty (env : WebSearch.Env) (it : Search.item) (s : string) :
  WebSearch.item_text env it = Some s -> Text.nonempty s = true.
Proof.
  assert (Hs : WebSearch.scraped env it = Some s -> Text.nonempty s = true).
  { unfold WebSearch.scraped. destruct (Search.link it) as [l|]; [|discriminate].
    destruct (WebSearch.page_paragraphs env l) as [ps|]; [|discriminate].
    intros H. apply List.find_some in H as [_ H]. apply Nat.ltb_lt in H.
    destruct s; [vm_compute in H; lia|reflexivity]. }
  unfold WebSearch.item_text. destruct (Search.snippet it) as [x|]; [|exact Hs].
  destruct (Text.nonempty x) eqn:E; [|exact Hs]. intros H. injection H as <-. exact E.
Qed.

Lemma omap_head_nonempty (env : WebSearch.Env) (items : list Search.item) (h : string)
      (t : list string) :
  omap (WebSearch.item_text env) items = h :: t -> Text.nonempty h = true.
Proof.
  induction items as [|it items IH]; [discriminate|].
  cbn [omap list_omap]. destruct (WebSearch.item_text env it) as [x|] eqn:E; [|exact IH].
  intros H. injection H as <- _. exact (item_text_nonempty env it x E).
Qed.

Lemma google_fallback_nonempty (env : WebSearch.Env) (query : string) :
  Text.nonempty (WebSearch.google_fallback env query) = true.
Proof.
  unfold WebSearch.google_fallback.
  destruct (Search.unset _ || Search.unset _)%bool; [reflexivity|].
  destruct (WebSearch.search env query) as [e|[|it items]]; [reflexivity|reflexivity|].
  destruct (omap (WebSearch.item_text env) (it :: items)) as [|h t] eqn:E; [reflexivity|].
  apply nonempty_join. exact (omap_head_nonempty env _ h t E).
Qed.

(** X22: the tool raises what the first lookup in Wikipedia raises, besides the
    two exceptions that it handles, and [IndexError] for a disambiguation
    without options; nothing else leaves it.  The text that it returns is a
    summary of Wikipedia or the text of the fallback, and the fallback
    never gives an empty text. *)
Theorem search_web_outcomes (env : WebSearch.Env) (query : string) (sentences : Z) :
  Text.nonempty (WebSearch.google_fallback env query) = true
  /\ match WebSearch.search_web env query sentences with
     | Ok t =>
         (exists title suggest,
             WebSearch.summary env title sentences suggest = WebSearch.Summary t)
         \/ t = WebSearch.google_fallback env query
     | Raise e =>
         WebSearch.summary env query sentences false = WebSearch.SummaryRaises e
         \/ (WebSearch.summary env query sentences false = WebSearch.DisambiguationError []
             /\ e = IndexError)
     end.
Proof.
  split; [apply google_fallback_nonempty|].
  unfold WebSearch.search_web.
  destruct (WebSearch.summary env query sentences false) as [t|[|choice options]| |e] eqn:E1.
  - left. exists query, false. exact E1.
  - right. split; reflexivity.
  - destruct (WebSearch.summary env choice sentences true) as [t| | |e] eqn:E2;
      try (right; reflexivity).
    left. exists choice, true. exact E2.
  - right. reflexivity.
  - left. reflexivity.
Qed.

(** ** The age as the clock advances *)

(** X23: the age that [compute_age] returns never decreases as the clock
    advances, and it is not negative from the day of birth on. *)
Theorem compute_age_monotone (t1 t2 : date) (dob_iso : string) (y m d : Z) :
  Text.int_of_string <$> Text.split_on "-" dob_iso = [Some y; Some m; Some d] ->
  date_le t1 t2 ->
  exists a1 a2,
    compute_age t1 dob_iso = Ok a1 /\ compute_age t2 dob_iso = Ok a2 /\ a1 <= a2
    /\ (date_le {| year := y; month := m; day := d |} t1 -> 0 <= a1).
Proof.
  intros Hf Hle. rewrite !(compute_age_fields _ _ _ _ _ Hf).
  eexists _, _. split; [reflexivity|]. split; [reflexivity|].
  unfold age_on, date_le in *. cbn [year month day].
  pose proof (pair_lt_spec (month t1, day t1) (m, d)) as P1.
  pose proof (pair_lt_spec (month t2, day t2) (m, d)) as P2.
  cbn [fst snd] in P1, P2.
  destruct (pair_lt (month t1, day t1) (m, d)); destruct (pair_lt (month t2, day t2) (m, d));
    cbv iota; (split; [|intros Hb]);
    try (assert (Q1 := proj1 P1 eq_refl)); try (assert (Q2 := proj1 P2 eq_refl));
    try (assert (N1 : ~ (month t1 < m \/ month t1 = m /\ day t1 < d))
           by (intros Hx; apply P1 in Hx; discriminate));
    try (assert (N2 : ~ (month t2 < m \/ month t2 = m /\ day t2 < d))
           by (intros Hx; apply P2 in Hx; discriminate));
    clear P1 P2; lia.
Qed.

Lemma compute_age_monotone_witness :
  exists a1 a2,
    compute_age {| year := 2025; month := 8; day := 3 |} "1961-08-04" = Ok a1
    /\ compute_age {| year := 2025; month := 8; day := 4 |} "1961-08-04" = Ok a2
    /\ a1 <= a2
    /\ (date_le {| year := 1961; month := 8; day := 4 |}
                {| year := 2025; month := 8; day := 3 |} -> 0 <= a1).
Proof.
  exact (compute_age_monotone {| year := 2025; month := 8; day := 3 |}
           {| year := 2025; month := 8; day := 4 |} "1961-08-04" 1961 8 4 eq_refl
           ltac:(unfold date_le; cbn; lia)).
Defined.

(** ** The bonus and the occurrences *)

Lemma chars_from_join (s : string) :
  (Unicode.chars_from s).1 +:+ Unicode.join_chars (Unicode.chars_from s).2 = s.
Proof.
  induction s as [|c s IH]; [reflexivity|].
  cbn [Unicode.chars_from]. destruct (Unicode.chars_from s) as [tail rest].
  cbn [fst snd] in IH.
  destruct (Unicode.is_continuation c); cbn [fst snd].
  - rewrite append_cons, IH. reflexivity.
  - change (Unicode.join_chars (String c tail :: rest))
      with (String c tail +:+ Unicode.join_chars rest).
    change (EmptyString +:+ ?x) with x. rewrite append_cons, IH. reflexivity.
Qed.

Lemma chars_join (s : string) : Unicode.join_chars (Unicode.chars s) = s.
Proof.
  pose proof (chars_from_join s) as H. unfold Unicode.chars.
  destruct (Unicode.chars_from s) as [tail rest]. cbn [fst snd] in H.
  destruct tail as [|c tail]; cbn [Unicode.nonempty]; exact H.
Qed.

Lemma split_chars_pieces (sep : N -> bool) (l : list string) :
  exists h t, Unicode.split_chars sep l = h :: t
              /\ (exists b, Unicode.join_chars l = h +:+ b)
              /\ forall w, In w t -> exists a b, Unicode.join_chars l = a +:+ w +:+ b.
Proof.
  induction l as [|ch l (h & t & Hs & [b Hb] & Ht)].
  - exists EmptyString, []. split; [reflexivity|]. split; [exists EmptyString; reflexivity|].
    intros w [].
  - cbn [Unicode.split_chars]. rewrite Hs.
    change (Unicode.join_chars (ch :: l)) with (ch +:+ Unicode.join_chars l).
    destruct (sep (Unicode.ord ch)).
    + exists EmptyString, (h :: t). split; [reflexivity|].
      split; [exists (ch +:+ Unicode.join_chars l); reflexivity|].
      intros w [<-|Hw].
      * exists ch, b. rewrite Hb. reflexivity.
      * destruct (Ht w Hw) as (a & b' & Hw'). exists (ch +:+ a), b'.
        rewrite append_assoc, <- Hw'. reflexivity.
    + exists (ch +:+ h), t. split; [reflexivity|].
      split; [exists b; rewrite append_assoc, <- Hb; reflexivity|].
      intros w Hw. destruct (Ht w Hw) as (a & b' & Hw'). exists (ch +:+ a), b'.
      rewrite append_assoc, <- Hw'. reflexivity.
Qed.

Lemma split_inside (s w : string) :
  In w (Unicode.split s) -> Text.contains w s = true.
Proof.
  unfold Unicode.split. intros H. apply filter_In in H as [H _].
  destruct (split_chars_pieces Unicode.is_space (Unicode.chars s)) as (h & t & Hs & [b Hb] & Ht).
  rewrite chars_join in Hb, Ht.
  rewrite Hs in H. apply contains_iff. destruct H as [<-|H].
  - exists EmptyString, b. exact Hb.
  - apply Ht, H.
Qed.

Lemma count_from_found (sub s : string) :
  Text.contains sub s = true -> sub <> EmptyString -> (1 <= Text.count_from sub s O)%nat.
Proof.
  intros H Hne. induction s as [|c s IH].
  - cbn in H. destruct sub; [congruence|discriminate].
  - cbn [Text.contains] in H. cbn [Text.count_from].
    destruct (Text.starts_with sub (String c s)); [lia|]. apply IH, H.
Qed.

Lemma count_found (s sub : string) :
  Text.contains sub s = true -> (1 <= Text.count s sub)%nat.
Proof.
  intros H. unfold Text.count. destruct sub as [|c sub]; [lia|].
  apply count_from_found; [exact H|discriminate].
Qed.

Lemma mem_in (x : string) (l : list string) : Search.mem x l = true -> In x l.
Proof.
  unfold Search.mem. intros H. apply existsb_exists in H as (y & Hy & E).
  apply String.eqb_eq in E as ->. exact Hy.
Qed.

Lemma sum_le {A : Type} (f g : A -> nat) (l : list A) :
  (forall x, (f x <= g x)%nat) -> (Search.sum (f <$> l) <= Search.sum (g <$> l))%nat.
Proof.
  intros H. induction l as [|x l IH]; [reflexivity|].
  cbn. unfold Search.sum in IH. pose proof (H x). lia.
Qed.

(** X24: a term gets the bonus only in a paragraph in which it occurs: the
    number of terms that are one of the words of a paragraph is at most
    the number of occurrences counted, and a paragraph without any
    occurrence scores zero. *)
Theorem bonus_needs_an_occurrence (q text : string) :
  (Search.presences q text <= Search.occurrences q text)%nat
  /\ (Search.occurrences q text = O ->
      Search.score_passage q text
      = (Search.float_of_nat O + Search.bonus_weight * Search.float_of_nat O)%float).
Proof.
  assert (H : (Search.presences q text <= Search.occurrences q text)%nat).
  { unfold Search.presences, Search.occurrences. apply sum_le. intros term.
    destruct (Search.mem term (Unicode.split (Unicode.lower text))) eqn:E; [|lia].
    apply count_found, split_inside, mem_in, E. }
  split; [exact H|].
  intros H0. unfold Search.score_passage. rewrite H0 in *.
  replace (Search.presences q text) with O by lia. reflexivity.
Qed.

(** ** What the resolver asks for *)

Lemma google_cse_two_pages (env : Search.Env)
      (f : string -> Z -> Z -> option string -> Search.cse_reply)
      (query : string) (dateRestrict : option string) :
  (forall start, In start [1; 11] ->
     f query 10 start dateRestrict = Search.cse_execute env query 10 start dateRestrict) ->
  Search.google_cse (with_execute f env) query 10 2 dateRestrict
  = Search.google_cse env query 10 2 dateRestrict.
Proof.
  intros Hf. unfold Search.google_cse.
  change (Search.GOOGLE_API_KEY (with_execute f env)) with (Search.GOOGLE_API_KEY env).
  change (Search.GOOGLE_CSE_ID (with_execute f env)) with (Search.GOOGLE_CSE_ID env).
  change (Search.cse_build (with_execute f env)) with (Search.cse_build env).
  destruct (Search.unset _ || Search.unset _)%bool; [reflexivity|].
  destruct (Search.cse_build env); [reflexivity|]. f_equal.
  cbn [Search.cse_pages].
  change (Search.cse_execute (with_execute f env)) with f.
  rewrite (Hf 1 ltac:(left; reflexivity)).
  destruct (Search.cse_execute env query 10 1 dateRestrict) as [| |items next]; try reflexivity.
  destruct next; [|reflexivity].
  change (1 + 10) with 11. rewrite (Hf 11 ltac:(right; left; reflexivity)). reflexivity.
Qed.

(** X25: the resolver asks the search service for the query itself, ten results
    at a time, at the starts 1 and 11 and at no other, and restricted to
    the last seven days exactly when the intent of the query is [fresh]:
    its result does not depend on what the service would answer to any
    other request. *)
Theorem resolver_asks_two_pages
        (env : Search.Env) (f : string -> Z -> Z -> option string -> Search.cse_reply)
        (query : string) :
  (forall start, In start [1; 11] ->
     f query 10 start (date_restriction query)
     = Search.cse_execute env query 10 start (date_restriction query)) ->
  Search.smart_search (with_execute f env) query = Search.smart_search env query.
Proof.
  intros Hf. unfold Search.smart_search.
  change (Search.fast_path (with_execute f env) query) with (Search.fast_path env query).
  destruct (Search.fast_path env query); [reflexivity|].
  unfold Search.recall. fold (date_restriction query).
  rewrite (google_cse_two_pages env f query (date_restriction query) Hf). reflexivity.
Qed.

Lemma resolver_asks_two_pages_witness :
  Search.smart_search (with_execute Cases.unrestricted_only Cases.repeated_links)
    "purdue university"
  = Search.smart_search Cases.repeated_links "purdue university".
Proof.
  exact (resolver_asks_two_pages Cases.repeated_links Cases.unrestricted_only
           "purdue university" ltac:(intros start _; reflexivity)).
Defined.

(** X26: the resolver fetches at most twelve pages, those of the first twelve
    distinct links of the results: its result does not depend on any other
    page. *)
Theorem resolver_fetches_twelve_pages
        (env : Search.Env) (g : string -> option Search.page) (query : string)
        (items : list Search.item) :
  Search.google_cse env query 10 2 (date_restriction query) = Ok (items, None) ->
  (forall url, In url (List.firstn 12 (Search.collect_urls items)) ->
     g url = Search.fetch env url) ->
  Search.smart_search (with_fetch g env) query = Search.smart_search env query.
Proof.
  intros Hg Hf.
  unfold Search.smart_search.
  change (Search.fast_path (with_fetch g env) query) with (Search.fast_path env query).
  destruct (Search.fast_path env query); [reflexivity|].
  unfold Search.recall. fold (date_restriction query).
  change (Search.google_cse (with_fetch g env) query 10 2 (date_restriction query))
    with (Search.google_cse env query 10 2 (date_restriction query)).
  rewrite Hg.
  assert (He : Search.extract_text (with_fetch g env)
                 <$> List.firstn 12 (Search.collect_urls items)
               = Search.extract_text env <$> List.firstn 12 (Search.collect_urls items)).
  { apply list_fmap_ext. intros i url Hu. unfold Search.extract_text.
    change (Search.fetch (with_fetch g env) url) with (g url).
    rewrite (Hf url); [reflexivity|].
    apply list_elem_of_In, (list_elem_of_lookup_2 _ i), Hu. }
  rewrite He. reflexivity.
Qed.

Lemma resolver_fetches_twelve_pages_witness :
  Search.smart_search (with_fetch Cases.one_page Cases.repeated_links) "purdue university"
  = Search.smart_search Cases.repeated_links "purdue university".
Proof.
  exact (resolver_fetches_twelve_pages Cases.repeated_links Cases.one_page
           "purdue university"
           [{| Search.link := Some "https://example.org/a";
               Search.snippet := Some "A first result." |};
            {| Search.link := Some "https://example.org/a";
               Search.snippet := Some "The same page again." |};
            {| Search.link := Some "https://example.org/b"; Search.snippet := None |}]
           ltac:(vm_compute; reflexivity)
           ltac:(intros url [<-|[<-|[]]]; reflexivity)).
Defined.

(** ** The fast path through Wikidata *)



(** ** The work of a turn *)

Lemma tool_node_dispatched (o : Oracles) (l : list Message) (s : state) :
  (dispatched (Agent._call_tool_node o l s).1 <= S (dispatched s))%nat.
Proof.
  unfold Agent._call_tool_node. destruct (last l) as [m|]; [|cbn; lia].
  destruct (is_ai m); [|cbn; lia].
  destruct (Agent._parse_tool_call (content m)) as [[name args]|]; [|cbn; lia].
  unfold bind, Agent.count_dispatch, lift, ret.
  destruct (Agent.dispatch o (dispatched s) name args); cbn; lia.
Qed.

Lemma run_llm_work (o : Oracles) (budget : nat) :
  forall (channel : list Message) (s : state),
    (2 * List.length (sent (Agent.run_llm o budget channel s).1)
     <= 2 * List.length (sent s) + budget + 1)%nat
    /\ (2 * dispatched (Agent.run_llm o budget channel s).1
        <= 2 * dispatched s + budget)%nat.
Proof.
  induction budget as [budget IH] using lt_wf_ind. intros channel s.
  destruct budget as [|b]; [cbn; lia|].
  rewrite run_llm_step. cbv zeta.
  assert (Hs1 : List.length (sent (after_llm channel s)) = S (List.length (sent s))).
  { cbn [after_llm sent]. rewrite length_app. cbn. lia. }
  assert (Hd1 : dispatched (after_llm channel s) = dispatched s) by reflexivity.
  destruct (routes_to_tools _); [|cbn [fst]; lia].
  destruct b as [|b']; [cbn [fst]; lia|].
  pose proof (tool_node_sent o
                (Agent.reduce_messages (channel ++ [AIMessage (reply o (List.length (sent s)))]))
                (after_llm channel s)) as [Hsent _].
  pose proof (tool_node_dispatched o
                (Agent.reduce_messages (channel ++ [AIMessage (reply o (List.length (sent s)))]))
                (after_llm channel s)) as Hdisp.
  destruct (Agent._call_tool_node _ _ _) as [s2 [r2|e]]; cbn [fst] in *.
  - destruct (IH b' ltac:(lia) (Agent.reduce_messages r2) s2) as [H1 H2].
    rewrite Hsent, Hs1 in H1. lia.
  - rewrite Hsent, Hs1. lia.
Qed.

(** X28: the step budget of the graph runner bounds the work of a turn, whatever
    the model replies: with a budget of [n] node executions a turn sends at
    most [(n + 1) / 2] requests to the model and dispatches at most [n / 2]
    directives. *)
Theorem turn_work_is_bounded
        (o : Oracles) (prompt : string) (search : pyval) (u : string) (s : state) :
  let outcome := Agent.handle o prompt search u s in
  (2 * (List.length (sent outcome.1) - List.length (sent s)) <= recursion_limit o + 1)%nat
  /\ (2 * (dispatched outcome.1 - dispatched s) <= recursion_limit o)%nat.
Proof.
  cbv zeta. rewrite handle_eq. cbv zeta.
  destruct (MemoryStore.get_history u (memory s)) as [history|e]; [|cbn; lia].
  destruct (Agent.user_messages history) as [old|e]; [|cbn; lia].
  match goal with
  | |- context [Agent.run_llm o ?b ?ch ?s2] =>
      destruct (run_llm_work o b ch s2) as [H1 H2];
      destruct (Agent.run_llm o b ch s2) as [s3 [all_msgs|e]]
  end; cbn [fst sent dispatched] in *.
  - destruct (Agent.last_answer all_msgs); cbn [fst sent dispatched]; lia.
  - lia.
Qed.
